(** * Zulmapp backend: cycle calendar, access window, dish numbering

    A shallow embedding of [server.js] (the Express/Supabase backend that
    takes one lunch order per person and per ordering cycle) and the
    properties of its core logic.

    Conventions of the embedding.
    - A JavaScript [Date] is its time value: milliseconds since the epoch,
      in UTC ([Z]).  The local-time accessors ([getHours], [getDate],
      [setDate], ...) go through the time zone of the Node process, the
      UTC accessors ([toISOString]) do not.  The zone of the process is a
      fixed offset, [procOffset], part of the environment.
    - The wall clock of Buenos Aires is that of the zone
      America/Argentina/Buenos_Aires of the tz database, with its changes
      of offset over the years.
    - JavaScript strings are [string]s holding their UTF-8 encoding.
    - The [pedidos] table is a list of rows in storage order; every call to
      the store takes the failure the store answers with, if any.
    - Every reading of the system clock is an explicit argument.
    - [menuStats] is a plain object: its own properties, over the members
      it inherits from [Object.prototype].
    - A route takes the verified e-mail of its caller, and the fields of a
      body are strings or absent; [verifyAuth] is modelled on its own. *)

From Stdlib Require Import ZArith Lia List Bool Ascii String Sorted Permutation.
From stdpp Require Import base decidable option list gmap strings pretty.

Import ListNotations.
Local Open Scope string_scope.
Local Open Scope list_scope.
Local Open Scope Z_scope.

(** * The model *)

(** ** Time values and the calendar (ECMAScript, time values) *)

Module Time.

Definition msPerSecond : Z := 1000.

Definition msPerMinute : Z := 60000.

Definition msPerHour : Z := 3600000.

Definition msPerDay : Z := 86400000.

(** [Day(t)] and [TimeWithinDay(t)]. *)
Definition Day (t : Z) : Z := t / msPerDay.

Definition TimeWithinDay (t : Z) : Z := t mod msPerDay.

Definition HourFromTime (t : Z) : Z := (t / msPerHour) mod 24.

Definition MinFromTime (t : Z) : Z := (t / msPerMinute) mod 60.

Definition SecFromTime (t : Z) : Z := (t / msPerSecond) mod 60.

Definition msFromTime (t : Z) : Z := t mod msPerSecond.

(** [WeekDay(t)]: 0 is Sunday, 1 January 1970 was a Thursday. *)
Definition WeekDay (t : Z) : Z := (Day t + 4) mod 7.

(** A date of the proleptic Gregorian calendar; [month] is 0-based as in
    JavaScript ([MonthFromTime]), [date] is the day of the month from 1. *)
Record Civil : Type := mkCivil { year : Z; month : Z; date : Z }.

(** The civil date of a day number (days since 1 January 1970), computed
    on 400-year eras that start on 1 March. *)
Definition civilFromDays (n : Z) : Civil :=
  let z := n + 719468 in
  let era := z / 146097 in
  let doe := z mod 146097 in
  let yoe := (doe - doe / 1460 + doe / 36524 - doe / 146096) / 365 in
  let doy := doe - (365 * yoe + yoe / 4 - yoe / 100) in
  let mp := (5 * doy + 2) / 153 in
  let d := doy - (153 * mp + 2) / 5 + 1 in
  let m := if mp <? 10 then mp + 3 else mp - 9 in
  let y := yoe + era * 400 + (if m <=? 2 then 1 else 0) in
  mkCivil y (m - 1) d.

(** The day number of the first day of month [m] (0-based, 0..11) of year
    [y], plus [d - 1]: [d] may lie outside the month. *)
Definition daysFromCivil (y m d : Z) : Z :=
  let m1 := m + 1 in
  let y' := y - (if m1 <=? 2 then 1 else 0) in
  let era := y' / 400 in
  let yoe := y' mod 400 in
  let mp := if 2 <? m1 then m1 - 3 else m1 + 9 in
  let doy := (153 * mp + 2) / 5 + d - 1 in
  let doe := yoe * 365 + yoe / 4 - yoe / 100 + doy in
  era * 146097 + doe - 719468.

Definition YearFromTime (t : Z) : Z := year (civilFromDays (Day t)).

Definition MonthFromTime (t : Z) : Z := month (civilFromDays (Day t)).

Definition DateFromTime (t : Z) : Z := date (civilFromDays (Day t)).

(** [MakeDay(year, month, date)]; the month is carried into the year. *)
Definition MakeDay (y m dt : Z) : Z :=
  let ym := y + m / 12 in
  let mn := m mod 12 in
  daysFromCivil ym mn 1 + dt - 1.

Definition MakeDate (day time : Z) : Z := day * msPerDay + time.

End Time.

Import Time.

(** ** The environment of the process *)

(** The part of the process environment the code depends on: the offset
    of the process's time zone from UTC in milliseconds ([LocalTZA]), and
    the administrators ([ADMIN_EMAILS], from the environment variable of
    that name or the built-in list). *)
Record Env : Type := mkEnv {
  procOffset : Z;
  ADMIN_EMAILS : list string
}.

Definition defaultAdmins : list string :=
  [ "juliandanielpappalettera@gmail.com";
    "leandro.binetti@gmail.com";
    "alanpablomarino@gmail.com" ].

(** ** Dates *)

Module JSDate.

Definition LocalTime (env : Env) (t : Z) : Z := t + procOffset env.

Definition UTC (env : Env) (t : Z) : Z := t - procOffset env.

Definition getHours (env : Env) (d : Z) : Z := HourFromTime (LocalTime env d).

Definition getMinutes (env : Env) (d : Z) : Z := MinFromTime (LocalTime env d).

Definition getDay (env : Env) (d : Z) : Z := WeekDay (LocalTime env d).

Definition getDate (env : Env) (d : Z) : Z := DateFromTime (LocalTime env d).

(** [d.setDate(dt)]: the day of the month of the local time is replaced
    and the result converted back to UTC. *)
Definition setDate (env : Env) (d : Z) (dt : Z) : Z :=
  let t := LocalTime env d in
  let newDate :=
    MakeDate (MakeDay (YearFromTime t) (MonthFromTime t) dt) (TimeWithinDay t) in
  UTC env newDate.

Definition digitChar (n : Z) : ascii := ascii_of_nat (48 + Z.to_nat n).

(** The last [k] decimal digits of [n], zero-padded. *)
Fixpoint padDigits (k : nat) (n : Z) : string :=
  match k with
  | O => EmptyString
  | S k' => padDigits k' (n / 10) +:+ String (digitChar (n mod 10)) EmptyString
  end.

(** Years 0 to 9999 print with four digits, the others with a sign and
    six digits. *)
Definition isoYear (y : Z) : string :=
  if (0 <=? y) && (y <=? 9999) then padDigits 4 y
  else (if 0 <=? y then "+" else "-") +:+ padDigits 6 (Z.abs y).

Definition isoDate (c : Civil) : string :=
  isoYear (year c) +:+ "-" +:+ padDigits 2 (month c + 1)
    +:+ "-" +:+ padDigits 2 (date c).

Definition isoTime (t : Z) : string :=
  padDigits 2 (HourFromTime t) +:+ ":" +:+ padDigits 2 (MinFromTime t)
    +:+ ":" +:+ padDigits 2 (SecFromTime t) +:+ "." +:+ padDigits 3 (msFromTime t).

(** [d.toISOString()]: always in UTC, whatever the zone of the process. *)
Definition toISOString (d : Z) : string :=
  isoDate (civilFromDays (Day d)) +:+ "T" +:+ isoTime d +:+ "Z".

End JSDate.

Import JSDate.

(** [s.split(sep)[0]] for a one-character separator. *)
Fixpoint splitHead (sep : ascii) (s : string) : string :=
  match s with
  | EmptyString => EmptyString
  | String c s' => if Ascii.eqb c sep then EmptyString else String c (splitHead sep s')
  end.

(** ** Clock and cycle calendar *)

(** Standard time of Argentina: three hours behind UTC. *)
Definition buenosAiresOffset : Z := -3 * msPerHour.

(** The zone America/Argentina/Buenos_Aires of the tz database, which
    [toLocaleString] consults: each entry gives an instant, in seconds
    since the epoch, and the offset from UTC, in seconds, that applies
    from that instant on.  Before the first entry the zone is on local
    mean time; since the last one (15 March 2009) it is on standard time,
    without daylight saving. *)
Definition buenosAiresTransitions : list (Z * Z) :=
  [
    (-2372097972, -15408); (-1567453392, -14400); (-1233432000, -10800);
    (-1222981200, -14400); (-1205956800, -10800); (-1194037200, -14400);
    (-1172865600, -10800); (-1162501200, -14400); (-1141329600, -10800);
    (-1130965200, -14400); (-1109793600, -10800); (-1099429200, -14400);
    (-1078257600, -10800); (-1067806800, -14400); (-1046635200, -10800);
    (-1036270800, -14400); (-1015099200, -10800); (-1004734800, -14400);
    (-983563200, -10800); (-973198800, -14400); (-952027200, -10800);
    (-941576400, -14400); (-931032000, -10800); (-900882000, -14400);
    (-890337600, -10800); (-833749200, -14400); (-827265600, -10800);
    (-752274000, -14400); (-733780800, -10800); (-197326800, -14400);
    (-190843200, -10800); (-184194000, -14400); (-164491200, -10800);
    (-152658000, -14400); (-132955200, -10800); (-121122000, -14400);
    (-101419200, -10800); (-86821200, -14400); (-71092800, -10800);
    (-54766800, -14400); (-39038400, -10800); (-23317200, -14400);
    (-7588800, -10800); (128142000, -7200); (136605600, -10800);
    (596948400, -7200); (605066400, -10800); (624423600, -7200);
    (636516000, -10800); (656478000, -7200); (667965600, -10800);
    (687927600, -7200); (699415200, -10800); (719377200, -7200);
    (731469600, -10800); (938919600, -10800); (952052400, -10800);
    (1198983600, -7200); (1205632800, -10800); (1224385200, -7200);
    (1237082400, -10800) ].

Definition localMeanTime : Z := -14028.

(** The offset in force at [t], in seconds. *)
Definition zoneSeconds (t : Z) : Z :=
  fold_left (fun offset entry => if fst entry <=? t then snd entry else offset)
    buenosAiresTransitions localMeanTime.

(** Offset of Buenos Aires from UTC at the time value [now], in
    milliseconds. *)
Definition buenosAiresOffsetAt (now : Z) : Z :=
  zoneSeconds (now / msPerSecond) * msPerSecond.

(** [getArgTime]: [now] is the time value of [new Date()].  Its wall-clock
    fields in Buenos Aires, to the second (the locale string has no
    milliseconds), are read back as a local time of the process. *)
Definition getArgTime (env : Env) (now : Z) : Z :=
  let wall := (now + buenosAiresOffsetAt now) / msPerSecond * msPerSecond in
  UTC env wall.

(** [getCycleDate]: the cycle of [argTime].  The source documents it so:
    from 14:00 on the time belongs to the next day, otherwise to the
    current day. *)
Definition getCycleDate (env : Env) (argTime : Z) : string :=
  let hour := getHours env argTime in
  if 14 <=? hour then
    let tomorrow := argTime in
    let tomorrow := setDate env tomorrow (getDate env argTime + 1) in
    splitHead "T" (toISOString tomorrow)
  else splitHead "T" (toISOString argTime).

(** ** Strings *)

Module JSString.

(** One-byte white space and line terminators: TAB, LF, VT, FF, CR, SP. *)
Definition isWs1 (a : ascii) : bool :=
  let n := nat_of_ascii a in
  ((9 <=? n)%nat && (n <=? 13)%nat) || (n =? 32)%nat.

(** U+00A0, encoded on two bytes. *)
Definition isWs2 (a b : ascii) : bool :=
  (nat_of_ascii a =? 194)%nat && (nat_of_ascii b =? 160)%nat.

(** The three-byte ones: U+1680, U+2000 to U+200A, U+2028, U+2029, U+202F,
    U+205F, U+3000 and U+FEFF. *)
Definition isWs3 (a b c : ascii) : bool :=
  let x := nat_of_ascii a in
  let y := nat_of_ascii b in
  let z := nat_of_ascii c in
  ((x =? 225) && (y =? 154) && (z =? 128))%nat
  || ((x =? 226) && (y =? 128)
      && (((128 <=? z) && (z <=? 138)) || (z =? 168) || (z =? 169) || (z =? 175)))%nat
  || ((x =? 226) && (y =? 129) && (z =? 159))%nat
  || ((x =? 227) && (y =? 128) && (z =? 128))%nat
  || ((x =? 239) && (y =? 187) && (z =? 191))%nat.

(** Drops the white space at the head of [s]; [w2] and [w3] recognise the
    encodings on two and three bytes in the order the bytes are met. *)
Fixpoint dropWs (w2 : ascii -> ascii -> bool)
    (w3 : ascii -> ascii -> ascii -> bool) (s : string) : string :=
  match s with
  | EmptyString => EmptyString
  | String a s1 =>
      if isWs1 a then dropWs w2 w3 s1
      else match s1 with
           | EmptyString => s
           | String b s2 =>
               if w2 a b then dropWs w2 w3 s2
               else match s2 with
                    | EmptyString => s
                    | String c s3 => if w3 a b c then dropWs w2 w3 s3 else s
                    end
           end
  end.

Definition trimStart (s : string) : string := dropWs isWs2 isWs3 s.

Definition trimEnd (s : string) : string :=
  String.rev
    (dropWs (fun a b => isWs2 b a) (fun a b c => isWs3 c b a) (String.rev s)).

(** [s.trim()] *)
Definition trim (s : string) : string := trimEnd (trimStart s).

(** [s.split(',')]: the pieces between the separators, at least one. *)
Fixpoint split (sep : ascii) (s : string) : list string :=
  match s with
  | EmptyString => [EmptyString]
  | String c s' =>
      if Ascii.eqb c sep then EmptyString :: split sep s'
      else match split sep s' with
           | [] => [String c EmptyString]
           | piece :: pieces => String c piece :: pieces
           end
  end.

(** [l.includes(x)] on strings. *)
Definition includes (l : list string) (x : string) : bool :=
  existsb (String.eqb x) l.

(** [l.join(sep)] *)
Definition join (sep : string) (l : list string) : string := String.concat sep l.

End JSString.

Import JSString.

(** The value of [ADMIN_EMAILS] at start-up, from the environment variable
    of the same name ([None] when unset; the empty string is falsy). *)
Definition configuredAdmins (var : option string) : list string :=
  match var with
  | Some v => if String.eqb v EmptyString then defaultAdmins else map trim (split "," v)
  | None => defaultAdmins
  end.

(** ** Access window *)

Record TimeCheck : Type := mkTimeCheck { allowed : bool; isAdmin : bool }.

(** [checkTimeRestriction]; [now] is the clock reading of [getArgTime],
    not consulted for an administrator. *)
Definition checkTimeRestriction (env : Env) (now : Z) (userEmail : string)
    : TimeCheck :=
  if includes (ADMIN_EMAILS env) userEmail then
    {| allowed := true; isAdmin := true |}
  else
    let argTime := getArgTime env now in
    let dayOfWeek := getDay env argTime in
    let hour := getHours env argTime in
    let minute := getMinutes env argTime in
    let isWeekday := (1 <=? dayOfWeek) && (dayOfWeek <=? 5) in
    let isInTimeRange :=
      (14 <=? hour) || (hour <? 10) || ((hour =? 10) && (minute <=? 15)) in
    {| allowed := isWeekday && isInTimeRange; isAdmin := false |}.

(** ** The [pedidos] table *)

(** The columns the server writes ([orderData]).  A dish column read back
    from the table may be [NULL] ([None]); the server itself always writes
    a string. *)
Record OrderData : Type := mkOrderData {
  nombre : string;
  email : string;
  usuario : string;
  plato1 : option string;
  plato2 : option string;
  plato3 : option string;
  fecha : string;
  timestamp : string
}.

(** A row: its key and its columns. *)
Record Row : Type := mkRow { id : Z; columns :> OrderData }.

(** The table in storage order, and the key the next inserted row gets. *)
Record Store : Type := mkStore { rows : list Row; nextId : Z }.

Record StoreError : Type := mkStoreError { code : string; errorMessage : string }.

(** What a call to the client resolves to: [{ data, error }]. *)
Record Answer (A : Type) : Type := mkAnswer {
  data : option A;
  error : option StoreError
}.

Arguments mkAnswer {A} _ _.

Arguments data {A} _.

Arguments error {A} _.

Module Supabase.

Definition failed {A : Type} (e : StoreError) : Answer A :=
  mkAnswer None (Some e).

Definition notSingle : StoreError :=
  mkStoreError "PGRST116" "JSON object requested, multiple (or no) rows returned".

Definition hasEmail (userEmail : string) (r : Row) : bool :=
  String.eqb (email r) userEmail.

Definition hasFecha (cycleDate : string) (r : Row) : bool :=
  String.eqb (fecha r) cycleDate.

Definition hasId (i : Z) (r : Row) : bool := id r =? i.

(** Rows are ordered on their [timestamp] column; rows with the same
    timestamp keep their storage order.  Timestamps are compared as the
    ISO strings the server writes: for years 0 to 9999 these are in the
    order of the instants they print. *)
Fixpoint insertByTimestamp (r : Row) (l : list Row) : list Row :=
  match l with
  | [] => [r]
  | r' :: l' =>
      if String.leb (timestamp r) (timestamp r') then r :: l
      else r' :: insertByTimestamp r l'
  end.

Definition orderByTimestamp (l : list Row) : list Row :=
  fold_right insertByTimestamp [] l.

(** [from('pedidos').select('*').eq('fecha', f).order('timestamp', { ascending: true })] *)
Definition selectCycle (fault : option StoreError) (st : Store)
    (cycleDate : string) : Answer (list Row) :=
  match fault with
  | Some e => failed e
  | None =>
      mkAnswer (Some (orderByTimestamp (List.filter (hasFecha cycleDate) (rows st)))) None
  end.

(** [from('pedidos').select('*').eq('email', e).eq('fecha', f).single()]:
    an error unless exactly one row matches. *)
Definition selectSingle (fault : option StoreError) (st : Store)
    (userEmail cycleDate : string) : Answer Row :=
  match fault with
  | Some e => failed e
  | None =>
      match List.filter (hasFecha cycleDate)
              (List.filter (hasEmail userEmail) (rows st)) with
      | [r] => mkAnswer (Some r) None
      | _ => failed notSingle
      end
  end.

(** [from('pedidos').insert([orderData])] *)
Definition insert (fault : option StoreError) (st : Store) (orderData : OrderData)
    : Answer unit * Store :=
  match fault with
  | Some e => (failed e, st)
  | None =>
      (mkAnswer None None,
       mkStore (rows st ++ [mkRow (nextId st) orderData]) (nextId st + 1))
  end.

(** What an update of the rows of key [i] does to the row [r]. *)
Definition replaceAt (i : Z) (orderData : OrderData) (r : Row) : Row :=
  if hasId i r then mkRow (id r) orderData else r.

(** [from('pedidos').update(orderData).eq('id', i)] *)
Definition update (fault : option StoreError) (st : Store) (orderData : OrderData)
    (i : Z) : Answer unit * Store :=
  match fault with
  | Some e => (failed e, st)
  | None =>
      (mkAnswer None None,
       mkStore (map (replaceAt i orderData) (rows st)) (nextId st))
  end.

(** [from('pedidos').delete().eq('email', e).eq('fecha', f)] *)
Definition delete (fault : option StoreError) (st : Store)
    (userEmail cycleDate : string) : Answer unit * Store :=
  match fault with
  | Some e => (failed e, st)
  | None =>
      (mkAnswer None None,
       mkStore (List.filter
                  (fun r => negb (hasEmail userEmail r && hasFecha cycleDate r))
                  (rows st))
               (nextId st))
  end.

End Supabase.

(** ** Dish numbering *)

Record Dish : Type := mkDish {
  dishPlato : string;
  dishEmail : string;
  dishTimestamp : string
}.

(** [plato && plato.trim() !== ''] *)
Definition isDish (plato : option string) : bool :=
  match plato with
  | Some s => negb (String.eqb s EmptyString) && negb (String.eqb (trim s) EmptyString)
  | None => false
  end.

(** [l.forEach((x, index) => ...)] on an accumulator; the callback gets
    the element and its index. *)
Fixpoint forEachFrom {A B : Type} (f : B -> A -> nat -> B) (index : nat)
    (l : list A) (acc : B) : B :=
  match l with
  | [] => acc
  | x :: l' => forEachFrom f (S index) l' (f acc x index)
  end.

Definition forEach {A B : Type} (f : B -> A -> nat -> B) (l : list A) (acc : B) : B :=
  forEachFrom f 0 l acc.

(** The first loop of [calculateDishNumbers]: the dishes of the cycle. *)
Definition collectDishes (pedidos : list Row) : list Dish :=
  forEach (fun allDishes (pedido : Row) _ =>
    forEach (fun allDishes plato _ =>
      if isDish plato then
        allDishes ++ [mkDish (trim (default EmptyString plato))
                             (email pedido) (timestamp pedido)]
      else allDishes)
      [plato1 pedido; plato2 pedido; plato3 pedido] allDishes)
    pedidos [].

(** The second loop: the numbers of the dishes of [userEmail]. *)
Definition numbersOf (allDishes : list Dish) (userEmail : string) : list nat :=
  forEach (fun dishNumbers dish index =>
    if String.eqb (dishEmail dish) userEmail then dishNumbers ++ [(index + 1)%nat]
    else dishNumbers)
    allDishes [].

(** [calculateDishNumbers]: [now] is the clock reading, [fault] the failure
    of the query, if any.  Whatever is thrown inside is caught and gives
    the empty list. *)
Definition calculateDishNumbers (env : Env) (now : Z) (fault : option StoreError)
    (st : Store) (userEmail : string) : list nat :=
  let argTime := getArgTime env now in
  let cycleDate := getCycleDate env argTime in
  let answer := Supabase.selectCycle fault st cycleDate in
  match error answer with
  | Some _ => []
  | None =>
      match data answer with
      | Some pedidos => numbersOf (collectDishes pedidos) userEmail
      | None => []
      end
  end.

(** ** The routes *)

Inductive Action : Type := created | updated.

(** One entry of [stats.peopleList]. *)
Record Person : Type := mkPerson {
  personNombre : string;
  personUsuario : string;
  personTimestamp : string;
  personPlato1 : option string;
  personPlato2 : option string;
  personPlato3 : option string
}.

(** A value held by [menuStats]: a count, or the text that [+ 1] makes
    of a value that is no number. *)
Inductive JSValue : Type :=
| Num (n : nat)
| Str (s : string).

(** [menuStats] is created as [{}], a plain object, which inherits the
    members of [Object.prototype].  Each member is listed with the text it
    converts to under [+ 1]: the text of a built-in function, and
    [[object Object]] for the object the accessor [__proto__] returns. *)
Definition nativeFunction (name : string) : string :=
  "function " +:+ name +:+ "() { [native code] }".

Definition objectPrototype : list (string * string) :=
  [ ("constructor", nativeFunction "Object");
    ("__defineGetter__", nativeFunction "__defineGetter__");
    ("__defineSetter__", nativeFunction "__defineSetter__");
    ("hasOwnProperty", nativeFunction "hasOwnProperty");
    ("__lookupGetter__", nativeFunction "__lookupGetter__");
    ("__lookupSetter__", nativeFunction "__lookupSetter__");
    ("isPrototypeOf", nativeFunction "isPrototypeOf");
    ("propertyIsEnumerable", nativeFunction "propertyIsEnumerable");
    ("toString", nativeFunction "toString");
    ("valueOf", nativeFunction "valueOf");
    ("__proto__", "[object Object]");
    ("toLocaleString", nativeFunction "toLocaleString") ].

(** The text of the member of [Object.prototype] named [key], if any. *)
Definition inherited (key : string) : option string :=
  option_map snd
    (List.find (fun member => String.eqb key (fst member)) objectPrototype).

(** [(menuStats[key] || 0) + 1]: an own property first, then an inherited
    one, which is truthy and is concatenated with [1]. *)
Definition plusOne (menuStats : gmap string JSValue) (key : string) : JSValue :=
  match menuStats !! key with
  | Some (Num n) => Num (n + 1)
  | Some (Str s) => if String.eqb s EmptyString then Num 1 else Str (s +:+ "1")
  | None =>
      match inherited key with
      | Some text => Str (text +:+ "1")
      | None => Num 1
      end
  end.

(** [menuStats[key] = value], for a value that is a number or a string:
    the setter of [__proto__] ignores it and no property is defined. *)
Definition assign (menuStats : gmap string JSValue) (key : string) (value : JSValue)
    : gmap string JSValue :=
  if String.eqb key "__proto__" then menuStats else <[key := value]> menuStats.

Record Stats : Type := mkStats {
  totalOrders : nat;
  menuStats : gmap string JSValue;
  peopleList : list Person
}.

(** The [order] object of the current-order route. *)
Record OrderView : Type := mkOrderView {
  viewNombre : string;
  viewPlato1 : option string;
  viewPlato2 : option string;
  viewPlato3 : option string;
  viewDishNumbers : list nat
}.

(** The JSON bodies the routes answer with. *)
Inductive Body : Type :=
| OrderSaved (message : string) (action : Action) (dishNumbers : list nat)
    (totalPlatos : nat)
| Done (message : string)
| Failed (message : string)
| CurrentOrder (order : option OrderView)
| StatsReady (stats : Stats)
| StatsFailed (message : string) (stats : Stats)
| Menu (menuItems : list string).

(** The [success] field of a body. *)
Definition success (b : Body) : bool :=
  match b with
  | OrderSaved _ _ _ _ | Done _ | CurrentOrder _ | StatsReady _ | Menu _ => true
  | Failed _ | StatsFailed _ _ => false
  end.

Record Response : Type := mkResponse { status : Z; body : Body }.

(** The menu, as configured. *)
Definition MENU_ITEMS : list string :=
  [ "Tarta - jamón y queso"; "Tarta - capresse"; "Tarta - brócoli";
    "Tarta - zapallito"; "Tarta - pollo"; "Tarta - calabaza";
    "Tortilla de papa"; "Pastel de papa"; "Ensalada César";
    "Ensalada Completa"; "Fideos con bolognesa"; "Fideos con salsa de tomate" ].

(** [app.get('/api/menu')] *)
Definition getMenu : Response := mkResponse 200 (Menu MENU_ITEMS).

(** [app.get('/api/health')] *)
Definition getHealth : Response :=
  mkResponse 200 (Done "Backend funcionando correctamente").

(** The fields of the body of a submission; [None] is a field that is
    absent or [null]. *)
Record PedidoBody : Type := mkPedidoBody {
  bodyNombre : option string;
  bodyPlato1 : option string;
  bodyPlato2 : option string;
  bodyPlato3 : option string
}.

(** Truthiness of a string that may be absent. *)
Definition truthy (v : option string) : bool :=
  match v with
  | Some s => negb (String.eqb s EmptyString)
  | None => false
  end.

(** [v || ''] *)
Definition orEmpty (v : option string) : string :=
  if truthy v then default EmptyString v else EmptyString.

Definition windowClosed : string :=
  "La app solo está disponible de lunes a viernes de 14:00 a 10:15".

(** What the outside answers during one submission: the four readings of
    the clock, in the order the route takes them, and the failures of its
    three calls to the store. *)
Record SubmitIO : Type := mkSubmitIO {
  clockCheck : Z;
  clockCycle : Z;
  clockStamp : Z;
  clockNumbers : Z;
  faultLookup : option StoreError;
  faultWrite : option StoreError;
  faultQuery : option StoreError
}.

(** The summary of a saved order. *)
Definition savedMessage (action : Action) (dishNumbers : list nat) : string :=
  let message :=
    match action with
    | updated => "Pedido actualizado correctamente"
    | created => "Pedido registrado correctamente"
    end in
  match dishNumbers with
  | [] => message
  | [n] => message +:+ ". Tu plato es el número " +:+ pretty n
  | _ => message +:+ ". Tus platos son los números "
           +:+ join ", " (map pretty dishNumbers)
  end.

(** [app.post('/api/pedidos')], after authentication. *)
Definition postPedido (env : Env) (io : SubmitIO) (userEmail : string)
    (req : PedidoBody) (st : Store) : Response * Store :=
  let timeCheck := checkTimeRestriction env (clockCheck io) userEmail in
  if negb (allowed timeCheck) then (mkResponse 403 (Failed windowClosed), st)
  else if negb (truthy (bodyNombre req))
          || String.eqb (trim (default EmptyString (bodyNombre req))) EmptyString then
    (mkResponse 400 (Failed "Por favor ingresa tu nombre"), st)
  else if negb (truthy (bodyPlato1 req)) then
    (mkResponse 400 (Failed "Por favor selecciona al menos el plato principal"), st)
  else
    let argTime := getArgTime env (clockCycle io) in
    let cycleDate := getCycleDate env argTime in
    let existingOrder :=
      data (Supabase.selectSingle (faultLookup io) st userEmail cycleDate) in
    let orderData :=
      {| nombre := trim (default EmptyString (bodyNombre req));
         email := userEmail;
         usuario := splitHead "@" userEmail;
         plato1 := Some (orEmpty (bodyPlato1 req));
         plato2 := Some (orEmpty (bodyPlato2 req));
         plato3 := Some (orEmpty (bodyPlato3 req));
         fecha := cycleDate;
         timestamp := toISOString (getArgTime env (clockStamp io)) |} in
    let '(answer, st', action) :=
      match existingOrder with
      | Some existing =>
          (Supabase.update (faultWrite io) st orderData (id existing), updated)
      | None => (Supabase.insert (faultWrite io) st orderData, created)
      end in
    match error answer with
    | Some e =>
        (mkResponse 500 (Failed ("Error al procesar el pedido: " +:+ errorMessage e)),
         st')
    | None =>
        let dishNumbers :=
          calculateDishNumbers env (clockNumbers io) (faultQuery io) st' userEmail in
        (mkResponse 200
           (OrderSaved (savedMessage action dishNumbers) action dishNumbers
              (length dishNumbers)),
         st')
    end.

(** [app.get('/api/pedidos/current')] *)
Definition getCurrent (env : Env) (clockCycle clockNumbers : Z)
    (faultLookup faultQuery : option StoreError) (userEmail : string) (st : Store)
    : Response :=
  let argTime := getArgTime env clockCycle in
  let cycleDate := getCycleDate env argTime in
  let answer := Supabase.selectSingle faultLookup st userEmail cycleDate in
  let thrown :=
    match error answer with
    | Some e => if String.eqb (code e) "PGRST116" then None else Some e
    | None => None
    end in
  match thrown with
  | Some e => mkResponse 500 (Failed ("Error al obtener pedido: " +:+ errorMessage e))
  | None =>
      match data answer with
      | Some order =>
          let dishNumbers :=
            calculateDishNumbers env clockNumbers faultQuery st userEmail in
          mkResponse 200
            (CurrentOrder
               (Some (mkOrderView (nombre order) (plato1 order) (plato2 order)
                        (plato3 order) dishNumbers)))
      | None => mkResponse 200 (CurrentOrder None)
      end
  end.

Definition zeroStats : Stats := mkStats 0 ∅ [].

(** The loop of the statistics route. *)
Definition aggregateStats (pedidos : list Row) : Stats :=
  forEach (fun stats (pedido : Row) _ =>
    let stats :=
      mkStats (totalOrders stats) (menuStats stats)
        (peopleList stats ++
           [mkPerson (nombre pedido) (usuario pedido) (timestamp pedido)
              (plato1 pedido) (plato2 pedido) (plato3 pedido)]) in
    forEach (fun stats plato _ =>
      if isDish plato then
        let key := default EmptyString plato in
        mkStats (totalOrders stats)
          (assign (menuStats stats) key (plusOne (menuStats stats) key))
          (peopleList stats)
      else stats)
      [plato1 pedido; plato2 pedido; plato3 pedido] stats)
    pedidos (mkStats (length pedidos) ∅ []).

(** [app.get('/api/stats')]; [now] is the clock reading, [fault] the
    failure of the query, if any. *)
Definition getStats (env : Env) (now : Z) (fault : option StoreError) (st : Store)
    : Response :=
  let argTime := getArgTime env now in
  let cycleDate := getCycleDate env argTime in
  let answer := Supabase.selectCycle fault st cycleDate in
  let failure (m : string) :=
    mkResponse 500 (StatsFailed ("Error al obtener estadísticas: " +:+ m) zeroStats) in
  match error answer with
  | Some e => failure (errorMessage e)
  | None =>
      match data answer with
      | Some pedidos => mkResponse 200 (StatsReady (aggregateStats pedidos))
      | None => failure "Cannot read properties of null (reading 'length')"
      end
  end.

(** [app.delete('/api/pedidos/current')]: the cycle is computed first, then
    the window is checked. *)
Definition deletePedido (env : Env) (clockCycle clockCheck : Z)
    (fault : option StoreError) (userEmail : string) (st : Store)
    : Response * Store :=
  let argTime := getArgTime env clockCycle in
  let cycleDate := getCycleDate env argTime in
  let timeCheck := checkTimeRestriction env clockCheck userEmail in
  if negb (allowed timeCheck) then (mkResponse 403 (Failed windowClosed), st)
  else
    let '(answer, st') := Supabase.delete fault st userEmail cycleDate in
    match error answer with
    | Some e =>
        (mkResponse 500 (Failed ("Error al cancelar el pedido: " +:+ errorMessage e)),
         st')
    | None => (mkResponse 200 (Done "Pedido cancelado correctamente"), st')
    end.

(** ** Authentication *)

(** [pat] removed from the head of [s], when [s] starts with it. *)
Fixpoint stripPrefix (pat s : string) : option string :=
  match pat with
  | EmptyString => Some s
  | String a pat' =>
      match s with
      | EmptyString => None
      | String b s' => if Ascii.eqb a b then stripPrefix pat' s' else None
      end
  end.

(** [s.replace(pat, rep)] for a string [pat] and a replacement without
    dollar patterns: the first occurrence is replaced. *)
Fixpoint replaceFirst (pat rep s : string) : string :=
  match stripPrefix pat s with
  | Some rest => rep +:+ rest
  | None =>
      match s with
      | EmptyString => EmptyString
      | String c s' => String c (replaceFirst pat rep s')
      end
  end.

(** What [supabase.auth.getUser(token)] comes to: an answer
    [{ data: { user }, error }], the user standing for its e-mail, or a
    rejection (anything thrown in the [try] block). *)
Inductive AuthOutcome : Type :=
| Resolved (user : option string) (authError : option StoreError)
| Rejected.

(** The middleware either calls [next()] with [req.user] set, or answers. *)
Inductive Authed : Type :=
| Next (userEmail : string)
| Stop (res : Response).

(** [req.headers.authorization?.replace('Bearer ', '')] *)
Definition bearerToken (authorization : option string) : option string :=
  option_map (replaceFirst "Bearer " EmptyString) authorization.

(** [verifyAuth]; [getUser] is the authentication service. *)
Definition verifyAuth (getUser : string -> AuthOutcome) (authorization : option string)
    : Authed :=
  let token := bearerToken authorization in
  if negb (truthy token) then Stop (mkResponse 401 (Failed "Token requerido"))
  else
    match getUser (default EmptyString token) with
    | Resolved user authError =>
        match authError, user with
        | None, Some u => Next u
        | _, _ => Stop (mkResponse 401 (Failed "Token inválido"))
        end
    | Rejected => Stop (mkResponse 401 (Failed "Error de autenticación"))
    end.

(** ** The earlier version of the server *)

(** The second listing of [server.js]: the window was 7:00 to 10:15, with
    one administrator, and an order was filed under the UTC date of the
    instant. *)
Module Earlier.

Definition adminEmail : string := "juliandanielpappalettera@gmail.com".

(** [checkTimeRestriction] of the earlier version; the local time is
    computed as [getArgTime] does. *)
Definition checkTimeRestriction (env : Env) (now : Z) (userEmail : string)
    : TimeCheck :=
  if String.eqb userEmail adminEmail then {| allowed := true; isAdmin := true |}
  else
    let argTime := getArgTime env now in
    let dayOfWeek := getDay env argTime in
    let hour := getHours env argTime in
    let minute := getMinutes env argTime in
    let isWeekday := (1 <=? dayOfWeek) && (dayOfWeek <=? 5) in
    let isInTimeRange :=
      ((hour =? 7) || (hour =? 8) || (hour =? 9))
      || ((hour =? 10) && (minute <=? 15)) in
    {| allowed := isWeekday && isInTimeRange; isAdmin := false |}.

(** [new Date().toISOString().split('T')[0]] *)
Definition today (now : Z) : string := splitHead "T" (toISOString now).

End Earlier.

(** * Vocabulary of the properties *)

(** [s] has no character [sep]. *)
Fixpoint lacks (sep : ascii) (s : string) : bool :=
  match s with
  | EmptyString => true
  | String c s' => negb (Ascii.eqb c sep) && lacks sep s'
  end.

(** The order of the store on rows, and its strict part. *)
Definition tsLe (a b : Row) : Prop := String.leb (timestamp a) (timestamp b) = true.

Definition tsLt (a b : Row) : Prop := String.ltb (timestamp a) (timestamp b) = true.

(** The dishes of one record, in the order of its slots. *)
Definition dishesOfRow (r : Row) : list Dish :=
  map (fun plato => mkDish (trim (default EmptyString plato)) (email r) (timestamp r))
    (List.filter isDish [plato1 r; plato2 r; plato3 r]).

(** The dishes of [userEmail] among numbered dishes. *)
Definition ownDish (userEmail : string) (nd : nat * Dish) : bool :=
  String.eqb (dishEmail (snd nd)) userEmail.

(** Numbers 1 to N along [allDishes], those of the dishes of [userEmail]
    kept. *)
Definition ownPositions (allDishes : list Dish) (userEmail : string) : list nat :=
  map fst
    (List.filter (ownDish userEmail)
       (combine (seq 1 (length allDishes)) allDishes)).

(** The numbers of [userEmail] record by record: a record's dishes take
    the numbers that follow those of the records before. *)
Fixpoint rowNumbers (before : nat) (pedidos : list Row) (userEmail : string)
    : list nat :=
  match pedidos with
  | [] => []
  | r :: rest =>
      (if String.eqb (email r) userEmail
       then seq (before + 1) (length (dishesOfRow r)) else [])
      ++ rowNumbers (before + length (dishesOfRow r)) rest userEmail
  end.

(** The records of an identity in a cycle. *)
Definition recordsOf (st : Store) (userEmail cycleDate : string) : list Row :=
  List.filter (Supabase.hasFecha cycleDate)
    (List.filter (Supabase.hasEmail userEmail) (rows st)).

(** The keys of the table are distinct and below the next key. *)
Definition wellKeyed (st : Store) : Prop :=
  List.NoDup (map id (rows st)) /\ Forall (fun r => id r < nextId st) (rows st).

(** The cycle a submission is filed under. *)
Definition cycleOf (env : Env) (io : SubmitIO) : string :=
  getCycleDate env (getArgTime env (clockCycle io)).

(** The record a submission writes. *)
Definition writtenData (env : Env) (io : SubmitIO) (userEmail : string)
    (req : PedidoBody) : OrderData :=
  {| nombre := trim (default EmptyString (bodyNombre req));
     email := userEmail;
     usuario := splitHead "@" userEmail;
     plato1 := Some (orEmpty (bodyPlato1 req));
     plato2 := Some (orEmpty (bodyPlato2 req));
     plato3 := Some (orEmpty (bodyPlato3 req));
     fecha := cycleOf env io;
     timestamp := toISOString (getArgTime env (clockStamp io)) |}.

(** A body that passes validation: a name that is not blank and a first
    dish that is not empty. *)
Definition validBody (req : PedidoBody) : Prop :=
  (exists s, bodyNombre req = Some s /\ trim s <> EmptyString)
  /\ (exists p, bodyPlato1 req = Some p /\ p <> EmptyString).

(** The table after the write of a submission, and the action reported. *)
Definition written (env : Env) (io : SubmitIO) (userEmail : string)
    (req : PedidoBody) (st : Store) : Store * Action :=
  match data (Supabase.selectSingle (faultLookup io) st userEmail (cycleOf env io)) with
  | Some existing =>
      (mkStore
         (map (Supabase.replaceAt (id existing) (writtenData env io userEmail req))
            (rows st))
         (nextId st),
       updated)
  | None =>
      (mkStore (rows st ++ [mkRow (nextId st) (writtenData env io userEmail req)])
         (nextId st + 1),
       created)
  end.

(** The rows of a cycle, in storage order. *)
Definition cycleRows (st : Store) (cycleDate : string) : list Row :=
  List.filter (Supabase.hasFecha cycleDate) (rows st).

(** A submission that is let in, with a valid body and a store that
    works. *)
Definition goesThrough (env : Env) (io : SubmitIO) (userEmail : string)
    (req : PedidoBody) : Prop :=
  allowed (checkTimeRestriction env (clockCheck io) userEmail) = true
  /\ validBody req
  /\ faultLookup io = None /\ faultWrite io = None /\ faultQuery io = None.

(** A submission filed and numbered in the cycle [cycleDate]. *)
Definition inCycle (env : Env) (io : SubmitIO) (cycleDate : string) : Prop :=
  cycleOf env io = cycleDate
  /\ getCycleDate env (getArgTime env (clockNumbers io)) = cycleDate.

(** The number of dishes of a submission. *)
Definition dishCount (req : PedidoBody) : nat :=
  length (List.filter isDish
            [Some (orEmpty (bodyPlato1 req)); Some (orEmpty (bodyPlato2 req));
             Some (orEmpty (bodyPlato3 req))]).

(** The timestamp a submission stores. *)
Definition stampOf (env : Env) (io : SubmitIO) : string :=
  toISOString (getArgTime env (clockStamp io)).

(** Every identity has at most one record in every cycle. *)
Definition oneRecordEach (st : Store) : Prop :=
  forall userEmail cycleDate : string,
    (length (recordsOf st userEmail cycleDate) <= 1)%nat.

(** The numbers, from [i] on, of the dishes of [userEmail] along [l]. *)
Definition positionsFrom (userEmail : string) (i : nat) (l : list Dish) : list nat :=
  map fst (List.filter (ownDish userEmail) (combine (seq i (length l)) l)).

(** How many of the numbers [l] are below [n]. *)
Definition countBelow (l : list nat) (n : nat) : nat :=
  length (List.filter (fun m => (m <? n)%nat) l).

(** A dish that is not of [userEmail]. *)
Definition notOf (userEmail : string) (d : Dish) : bool :=
  negb (String.eqb (dishEmail d) userEmail).

(** [pat] occurs in [s]. *)
Fixpoint occursIn (pat s : string) : bool :=
  match stripPrefix pat s with
  | Some _ => true
  | None =>
      match s with
      | EmptyString => false
      | String _ s' => occursIn pat s'
      end
  end.

(** The entry of [peopleList] of a record. *)
Definition personOf (r : Row) : Person :=
  mkPerson (nombre r) (usuario r) (timestamp r) (plato1 r) (plato2 r) (plato3 r).

(** The dishes of the records as the statistics count them: the stored
    text of every slot that is not blank. *)
Definition countedDishes (pedidos : list Row) : list string :=
  flat_map (fun r : Row =>
              map (default EmptyString)
                (List.filter isDish [plato1 r; plato2 r; plato3 r]))
    pedidos.

(** One more of [key] in the counts. *)
Definition tally (m : gmap string JSValue) (key : string) : gmap string JSValue :=
  assign m key (plusOne m key).

(** [n] times the digit 1. *)
Fixpoint ones (n : nat) : string :=
  match n with
  | O => EmptyString
  | S n' => String "1" (ones n')
  end.

(** What [menuStats] holds under [key] after [n] dishes of that text. *)
Definition counted (key : string) (n : nat) : option JSValue :=
  if (n =? 0)%nat then None
  else
    match inherited key with
    | None => Some (Num n)
    | Some text =>
        if String.eqb key "__proto__" then None else Some (Str (text +:+ ones n))
    end.

(** The occurrences of [key] in [l]. *)
Definition occurrences (key : string) (l : list string) : nat :=
  length (List.filter (String.eqb key) l).

(** ** Sample data *)

(** Readings of the clock: wall-clock times of Buenos Aires in the week
    of Monday 15 January 2024. *)
Definition monday_14_00 : Z := 1705338000000.

Definition monday_13_59 : Z := 1705337940000.

Definition tuesday_10_15 : Z := 1705410900000.

Definition tuesday_10_16 : Z := 1705410960000.

Definition saturday_15_00 : Z := 1705773600000.

(** A record of the cycle before, left in the table. *)
Definition sampleOld : Row :=
  mkRow 7 (mkOrderData "Ana" "ana@x.com" "ana" (Some "Pastel de papa")
             (Some EmptyString) (Some EmptyString) "2024-01-15"
             "2024-01-12T15:30:00.000Z").

(** Three records of one cycle. *)
Definition sampleAna : Row :=
  mkRow 1 (mkOrderData "Ana" "ana@x.com" "ana" (Some "Tortilla de papa")
             (Some EmptyString) (Some "Ensalada César") "2024-01-16"
             "2024-01-15T14:05:00.000Z").

Definition sampleBeto : Row :=
  mkRow 2 (mkOrderData "Beto" "beto@x.com" "beto" (Some "Pastel de papa")
             (Some "  ") None "2024-01-16" "2024-01-15T14:06:00.000Z").

Definition sampleCaro : Row :=
  mkRow 3 (mkOrderData "Caro" "caro@x.com" "caro" (Some "Tarta - pollo")
             (Some "Tarta - calabaza") (Some "Fideos con bolognesa") "2024-01-16"
             "2024-01-15T14:07:00.000Z").

Definition sampleRows : list Row := [sampleAna; sampleBeto; sampleCaro].

Definition storeDown : StoreError := mkStoreError "503" "Service Unavailable".

(** Readings of the clock on Monday 15 January 2024, Buenos Aires. *)
Definition monday_14_05 : Z := 1705338300000.

Definition monday_14_06 : Z := 1705338360000.

Definition monday_14_07 : Z := 1705338420000.

(** A submission whose readings of the clock are all [now], with a store
    that works. *)
Definition smoothAt (now : Z) : SubmitIO := mkSubmitIO now now now now None None None.

(** * Tactics *)

(** Arithmetic with division by constants. *)
Ltac div_lia := Z.to_euclidean_division_equations; lia.

(** * Properties *)

(** ** The calendar *)

Example civil_epoch : civilFromDays 0 = mkCivil 1970 0 1.
Proof. reflexivity. Qed.

Example civil_leap_day : civilFromDays 19782 = mkCivil 2024 1 29.
Proof. reflexivity. Qed.

Example civil_before_epoch : civilFromDays (-1) = mkCivil 1969 11 31.
Proof. reflexivity. Qed.

Example days_2024_03_01 : daysFromCivil 2024 2 1 = 19783.
Proof. reflexivity. Qed.

Lemma civil_first_of_month (n : Z) :
  let c := civilFromDays n in
  daysFromCivil (year c) (month c) 1 + (date c - 1) = n.
Proof.
  unfold civilFromDays, daysFromCivil; cbn [year month date].
  set (z := n + 719468).
  set (era := z / 146097).
  set (doe := z mod 146097).
  assert (Hdoe : 0 <= doe < 146097) by (apply Z.mod_pos_bound; lia).
  assert (Hz : z = 146097 * era + doe) by (apply Z.div_mod; lia).
  set (yoe := (doe - doe / 1460 + doe / 36524 - doe / 146096) / 365).
  assert (Hyoe : 0 <= yoe < 400) by (unfold yoe; div_lia).
  set (doy := doe - (365 * yoe + yoe / 4 - yoe / 100)).
  assert (Hdoy : 0 <= doy <= 365) by (unfold doy, yoe; div_lia).
  set (mp := (5 * doy + 2) / 153).
  assert (Hmp : 0 <= mp <= 11) by (unfold mp; div_lia).
  set (m := if mp <? 10 then mp + 3 else mp - 9).
  replace (m - 1 + 1) with m by lia.
  replace (yoe + era * 400 + (if m <=? 2 then 1 else 0)
           - (if m <=? 2 then 1 else 0)) with (yoe + era * 400) by lia.
  rewrite Z.div_add, Z.mod_add by lia.
  rewrite (Z.div_small yoe 400), (Z.mod_small yoe 400) by lia.
  replace (if 2 <? m then m - 3 else m + 9) with mp
    by (unfold m; destruct (mp <? 10) eqn:E;
        [apply Z.ltb_lt in E | apply Z.ltb_ge in E];
        destruct (2 <? _) eqn:E2;
        [apply Z.ltb_lt in E2 | apply Z.ltb_ge in E2
        |apply Z.ltb_lt in E2 | apply Z.ltb_ge in E2]; lia).
  unfold doy. lia.
Qed.

Lemma civil_month_range (n : Z) : 0 <= month (civilFromDays n) <= 11.
Proof.
  unfold civilFromDays; cbn [month].
  set (doe := (n + 719468) mod 146097).
  assert (Hdoe : 0 <= doe < 146097) by (apply Z.mod_pos_bound; lia).
  set (yoe := (doe - doe / 1460 + doe / 36524 - doe / 146096) / 365).
  set (doy := doe - (365 * yoe + yoe / 4 - yoe / 100)).
  assert (Hdoy : 0 <= doy <= 365) by (unfold doy, yoe; div_lia).
  set (mp := (5 * doy + 2) / 153).
  assert (Hmp : 0 <= mp <= 11) by (unfold mp; div_lia).
  destruct (mp <? 10) eqn:E;
    [apply Z.ltb_lt in E | apply Z.ltb_ge in E]; lia.
Qed.

(** ** Dates and strings *)

Example iso_example : toISOString 1705338000123 = "2024-01-15T17:00:00.123Z".
Proof. reflexivity. Qed.

Example iso_negative_year : toISOString (-62198755200000) = "-000001-01-01T00:00:00.000Z".
Proof. reflexivity. Qed.

Example trim_spaces : trim "  Ana  " = "Ana".
Proof. reflexivity. Qed.

Example trim_blank : trim (String (ascii_of_nat 9) " ") = EmptyString.
Proof. reflexivity. Qed.

Example trim_nbsp :
  trim (String (ascii_of_nat 194) (String (ascii_of_nat 160) "x")) = "x".
Proof. reflexivity. Qed.

Example trim_inner : trim "Tortilla de papa" = "Tortilla de papa".
Proof. reflexivity. Qed.

Example split_example : split "," "a@x.com, b@x.com" = ["a@x.com"; " b@x.com"].
Proof. reflexivity. Qed.

(** ** The clock *)

Lemma LocalTime_UTC (env : Env) (t : Z) : LocalTime env (UTC env t) = t.
Proof. unfold LocalTime, UTC. lia. Qed.

(** The zone has always been between two hours and four hours, sixteen
    minutes and forty-eight seconds behind UTC. *)
Lemma zoneSeconds_range (t : Z) : -15408 <= zoneSeconds t <= -7200.
Proof.
  unfold zoneSeconds.
  assert (G : forall (l : list (Z * Z)) (init : Z),
             List.Forall (fun entry => -15408 <= snd entry <= -7200) l ->
             -15408 <= init <= -7200 ->
             -15408
             <= fold_left
                  (fun offset entry => if fst entry <=? t then snd entry else offset)
                  l init
             <= -7200).
  { induction l as [|e l IH]; intros init Hl Hi; [exact Hi|].
    inversion Hl as [|? ? He Hl']; subst. cbn [fold_left]. apply IH; [exact Hl'|].
    destruct (fst e <=? t); [exact He | exact Hi]. }
  apply G; [|unfold localMeanTime; lia].
  unfold buenosAiresTransitions. repeat (constructor; [cbn [snd]; lia|]).
  constructor.
Qed.

(** Since 15 March 2009, 02:00 UTC, the zone is on standard time. *)
Lemma zoneSeconds_standard (t : Z) : 1237082400 <= t -> zoneSeconds t = -10800.
Proof.
  intros H. unfold zoneSeconds, buenosAiresTransitions. cbn [fold_left fst snd].
  destruct (1237082400 <=? t) eqn:E; [reflexivity|].
  apply Z.leb_gt in E. lia.
Qed.

Lemma buenosAiresOffsetAt_standard (now : Z) :
  1237082400000 <= now -> buenosAiresOffsetAt now = buenosAiresOffset.
Proof.
  intros H. unfold buenosAiresOffsetAt. rewrite zoneSeconds_standard.
  - reflexivity.
  - unfold msPerSecond. div_lia.
Qed.

(** Under the daylight saving of the summer of 2007 to 2008 the wall clock
    is two hours behind UTC: 13:15 UTC on Tuesday 15 January 2008 is
    11:15 in Buenos Aires. *)
Example buenosAiresOffsetAt_2008 :
  buenosAiresOffsetAt 1200402900000 = -2 * msPerHour
  /\ toISOString 1200402900000 = "2008-01-15T13:15:00.000Z"
  /\ toISOString (1200402900000 + buenosAiresOffsetAt 1200402900000)
     = "2008-01-15T11:15:00.000Z".
Proof. vm_compute. repeat split. Qed.

(** The local fields of [getArgTime()] are the wall clock of Buenos Aires
    to the second, whatever the zone of the process. *)
Lemma LocalTime_getArgTime (env : Env) (now : Z) :
  LocalTime env (getArgTime env now)
  = (now + buenosAiresOffsetAt now) / msPerSecond * msPerSecond.
Proof. unfold getArgTime. apply LocalTime_UTC. Qed.

Lemma getHours_getArgTime (env : Env) (now : Z) :
  getHours env (getArgTime env now) = HourFromTime (now + buenosAiresOffsetAt now).
Proof.
  unfold getHours. rewrite LocalTime_getArgTime.
  generalize (now + buenosAiresOffsetAt now). intros wall.
  unfold HourFromTime, msPerSecond, msPerHour. div_lia.
Qed.

Lemma getMinutes_getArgTime (env : Env) (now : Z) :
  getMinutes env (getArgTime env now) = MinFromTime (now + buenosAiresOffsetAt now).
Proof.
  unfold getMinutes. rewrite LocalTime_getArgTime.
  generalize (now + buenosAiresOffsetAt now). intros wall.
  unfold MinFromTime, msPerSecond, msPerMinute. div_lia.
Qed.

Lemma getDay_getArgTime (env : Env) (now : Z) :
  getDay env (getArgTime env now) = WeekDay (now + buenosAiresOffsetAt now).
Proof.
  unfold getDay. rewrite LocalTime_getArgTime.
  generalize (now + buenosAiresOffsetAt now). intros wall.
  unfold WeekDay, Day, msPerSecond, msPerDay. div_lia.
Qed.

(** [setDate(getDate() + 1)] moves a date one day ahead, across the ends of
    months and years. *)
Lemma setDate_next_day (env : Env) (d : Z) :
  setDate env d (getDate env d + 1) = d + msPerDay.
Proof.
  unfold setDate, getDate, MakeDay, MakeDate, YearFromTime, MonthFromTime,
    DateFromTime, UTC.
  set (t := LocalTime env d).
  pose proof (civil_month_range (Day t)) as Hm.
  pose proof (civil_first_of_month (Day t)) as Hc. cbv zeta in Hc.
  rewrite (Z.div_small (month _) 12), (Z.mod_small (month _) 12) by lia.
  rewrite Z.add_0_r.
  replace (daysFromCivil (year (civilFromDays (Day t))) (month (civilFromDays (Day t))) 1
           + (date (civilFromDays (Day t)) + 1) - 1) with (Day t + 1) by lia.
  unfold TimeWithinDay, Day in *. unfold t, LocalTime, msPerDay in *. div_lia.
Qed.

(** ** The date part of an ISO string *)

Lemma lacks_append (sep : ascii) (s1 s2 : string) :
  lacks sep (s1 +:+ s2) = lacks sep s1 && lacks sep s2.
Proof.
  induction s1 as [|c s1 IH]; [reflexivity|].
  change (String c s1 +:+ s2) with (String c (s1 +:+ s2)).
  cbn [lacks]. rewrite IH. apply andb_assoc.
Qed.

Lemma splitHead_append (sep : ascii) (s rest : string) :
  lacks sep s = true -> splitHead sep (s +:+ String sep rest) = s.
Proof.
  induction s as [|c s IH]; intros H.
  - change (EmptyString +:+ String sep rest) with (String sep rest).
    cbn [splitHead]. rewrite Ascii.eqb_refl. reflexivity.
  - cbn [lacks] in H. apply andb_true_iff in H as [Hc Hs].
    apply negb_true_iff in Hc.
    change (String c s +:+ String sep rest) with (String c (s +:+ String sep rest)).
    cbn [splitHead]. rewrite Hc, IH by exact Hs. reflexivity.
Qed.

Lemma digitChar_not_T (n : Z) : Ascii.eqb (digitChar (n mod 10)) "T" = false.
Proof.
  pose proof (Z.mod_pos_bound n 10 ltac:(lia)) as H.
  assert (Hc : n mod 10 = 0 \/ n mod 10 = 1 \/ n mod 10 = 2 \/ n mod 10 = 3
               \/ n mod 10 = 4 \/ n mod 10 = 5 \/ n mod 10 = 6 \/ n mod 10 = 7
               \/ n mod 10 = 8 \/ n mod 10 = 9) by lia.
  repeat (destruct Hc as [-> | Hc]; [reflexivity|]). rewrite Hc. reflexivity.
Qed.

Lemma padDigits_lacks_T (k : nat) (n : Z) : lacks "T" (padDigits k n) = true.
Proof.
  revert n. induction k as [|k IH]; intros n; cbn [padDigits]; [reflexivity|].
  rewrite lacks_append, IH. cbn [lacks]. rewrite digitChar_not_T. reflexivity.
Qed.

Lemma isoDate_lacks_T (c : Civil) : lacks "T" (isoDate c) = true.
Proof.
  unfold isoDate, isoYear.
  destruct ((0 <=? year c) && (year c <=? 9999)); [|destruct (0 <=? year c)];
    rewrite ?lacks_append, ?padDigits_lacks_T; reflexivity.
Qed.

(** [d.toISOString().split('T')[0]] is the UTC calendar date of [d]. *)
Lemma toISOString_date (d : Z) :
  splitHead "T" (toISOString d) = isoDate (civilFromDays (Day d)).
Proof.
  unfold toISOString.
  change (isoDate (civilFromDays (Day d)) +:+ "T" +:+ isoTime d +:+ "Z")
    with (isoDate (civilFromDays (Day d)) +:+ String "T" (isoTime d +:+ "Z")).
  apply splitHead_append, isoDate_lacks_T.
Qed.

(** What [getCycleDate] returns in any zone: the UTC date of the time
    value, moved one day ahead from 14:00 local time on. *)
Lemma getCycleDate_unfold (env : Env) (argTime : Z) :
  getCycleDate env argTime
  = isoDate (civilFromDays
               (Day (if 14 <=? getHours env argTime then argTime + msPerDay
                     else argTime))).
Proof.
  unfold getCycleDate. destruct (14 <=? getHours env argTime).
  - rewrite setDate_next_day. apply toISOString_date.
  - apply toISOString_date.
Qed.

(** X3.  On a process in UTC the cycle is the local calendar date, moved one
    day ahead from 14:00 on. *)
Lemma getCycleDate_utc (env : Env) (argTime : Z) :
  procOffset env = 0 ->
  getCycleDate env argTime
  = isoDate (civilFromDays
               (Day (LocalTime env argTime)
                + (if 14 <=? getHours env argTime then 1 else 0))).
Proof.
  intros H0. rewrite getCycleDate_unfold. unfold LocalTime. rewrite H0, Z.add_0_r.
  destruct (14 <=? getHours env argTime); f_equal; f_equal;
    unfold Day, msPerDay; div_lia.
Qed.

(** ** Cycle calendar *)

(** C1.  The cycle of a local time is meant to be its calendar date, or the
    next one from 14:00 on.  [getCycleDate] reads the hour and the day of
    the month in the zone of the process and prints the result in UTC.  On
    a process three hours behind UTC, at 22:00 on 15 January 2024 (hour
    22, at least 14), it returns 17 January, not 16 January: the local
    date plus two days. *)
Theorem getCycleDate_behind_utc :
  let env := mkEnv buenosAiresOffset defaultAdmins in
  let argTime := getArgTime env 1705366800000 in
  toISOString argTime = "2024-01-16T01:00:00.000Z"
  /\ getHours env argTime = 22
  /\ isoDate (civilFromDays (Day (LocalTime env argTime))) = "2024-01-15"
  /\ isoDate (civilFromDays (Day (LocalTime env argTime) + 1)) = "2024-01-16"
  /\ getCycleDate env argTime = "2024-01-17".
Proof. vm_compute. repeat split; reflexivity. Qed.

(** On a process ahead of UTC the cycle of the small hours is the day
    before: at 00:30 on 16 January, one hour ahead of UTC, [getCycleDate]
    returns 15 January. *)
Example getCycleDate_ahead_of_utc :
  let env := mkEnv msPerHour defaultAdmins in
  let argTime := UTC env 1705365000000 in
  getHours env argTime = 0
  /\ isoDate (civilFromDays (Day (LocalTime env argTime))) = "2024-01-16"
  /\ getCycleDate env argTime = "2024-01-15".
Proof. vm_compute. repeat split; reflexivity. Qed.

(** The boundary on a process in UTC: 14:00 is tomorrow, 13:59 is today. *)
Example getCycleDate_boundary :
  let env := mkEnv 0 defaultAdmins in
  getCycleDate env (getArgTime env 1705338000000) = "2024-01-16"
  /\ getCycleDate env (getArgTime env 1705337940000) = "2024-01-15".
Proof. vm_compute. split; reflexivity. Qed.

(** ** Access window *)

Lemma includes_In (l : list string) (x : string) :
  includes l x = true <-> In x l.
Proof.
  unfold includes. rewrite existsb_exists. split.
  - intros (y & Hy & E). apply String.eqb_eq in E. subst y. exact Hy.
  - intros H. exists x. split; [exact H | apply String.eqb_refl].
Qed.

(** C2.  An administrator is let in at any time: for every identity of
    [ADMIN_EMAILS] and every reading of the clock, [checkTimeRestriction]
    answers [{allowed: true, isAdmin: true}]. *)
Theorem checkTimeRestriction_admin (env : Env) (now : Z) (userEmail : string) :
  In userEmail (ADMIN_EMAILS env) ->
  checkTimeRestriction env now userEmail = {| allowed := true; isAdmin := true |}.
Proof.
  intros H. apply includes_In in H.
  unfold checkTimeRestriction. rewrite H. reflexivity.
Qed.

(** An administrator on a Saturday at 15:00 and on a Sunday at 03:30
    (20 and 21 January 2024, Buenos Aires). *)
Lemma checkTimeRestriction_admin_witness :
  let env := mkEnv 0 defaultAdmins in
  (getDay env (getArgTime env 1705773600000) = 6
   /\ checkTimeRestriction env 1705773600000 "leandro.binetti@gmail.com"
      = {| allowed := true; isAdmin := true |})
  /\ (getDay env (getArgTime env 1705818600000) = 0
      /\ checkTimeRestriction env 1705818600000 "leandro.binetti@gmail.com"
         = {| allowed := true; isAdmin := true |}).
Proof.
  split; (split; [reflexivity|]);
    apply checkTimeRestriction_admin; cbn; tauto.
Defined.

Example readings_wall_clock :
  map (fun now => (WeekDay (now + buenosAiresOffsetAt now),
                   HourFromTime (now + buenosAiresOffsetAt now),
                   MinFromTime (now + buenosAiresOffsetAt now)))
    [monday_14_00; monday_13_59; tuesday_10_15; tuesday_10_16; saturday_15_00]
  = [(1, 14, 0); (1, 13, 59); (2, 10, 15); (2, 10, 16); (6, 15, 0)].
Proof. reflexivity. Qed.

(** Under daylight saving the window follows the clock of the zone: at
    13:15 UTC on Tuesday 15 January 2008 it is 11:15 in Buenos Aires, and
    the window is closed. *)
Example checkTimeRestriction_daylight_saving :
  checkTimeRestriction (mkEnv 0 defaultAdmins) 1200402900000 "ana@x.com"
  = {| allowed := false; isAdmin := false |}.
Proof. reflexivity. Qed.

Lemma checkTimeRestriction_other_eq (env : Env) (now : Z) (userEmail : string) :
  ~ In userEmail (ADMIN_EMAILS env) ->
  let dayOfWeek := WeekDay (now + buenosAiresOffsetAt now) in
  let hour := HourFromTime (now + buenosAiresOffsetAt now) in
  let minute := MinFromTime (now + buenosAiresOffsetAt now) in
  checkTimeRestriction env now userEmail
  = {| allowed := ((1 <=? dayOfWeek) && (dayOfWeek <=? 5))
                  && ((14 <=? hour) || (hour <? 10)
                      || ((hour =? 10) && (minute <=? 15)));
       isAdmin := false |}.
Proof.
  intros H dayOfWeek hour minute.
  assert (Hi : includes (ADMIN_EMAILS env) userEmail = false).
  { destruct (includes _ _) eqn:E; [|reflexivity].
    apply includes_In in E. contradiction. }
  unfold checkTimeRestriction. rewrite Hi.
  rewrite getDay_getArgTime, getHours_getArgTime, getMinutes_getArgTime.
  reflexivity.
Qed.

(** C3.  Anybody else is never an administrator, and is let in exactly
    from Monday to Friday, from 14:00 on or until 10:15, on the wall clock
    of Buenos Aires at the instant, with the offset the zone has then: let
    in on Monday at 14:00 and on Tuesday at 10:15, turned away on Monday
    at 13:59, on Tuesday at 10:16 and on Saturday at 15:00. *)
Theorem checkTimeRestriction_other (env : Env) (userEmail : string) :
  ~ In userEmail (ADMIN_EMAILS env) ->
  (forall now : Z,
      let dayOfWeek := WeekDay (now + buenosAiresOffsetAt now) in
      let hour := HourFromTime (now + buenosAiresOffsetAt now) in
      let minute := MinFromTime (now + buenosAiresOffsetAt now) in
      isAdmin (checkTimeRestriction env now userEmail) = false
      /\ (allowed (checkTimeRestriction env now userEmail) = true
          <-> (1 <= dayOfWeek <= 5)
              /\ (14 <= hour \/ hour < 10 \/ (hour = 10 /\ minute <= 15))))
  /\ allowed (checkTimeRestriction env monday_14_00 userEmail) = true
  /\ allowed (checkTimeRestriction env monday_13_59 userEmail) = false
  /\ allowed (checkTimeRestriction env tuesday_10_15 userEmail) = true
  /\ allowed (checkTimeRestriction env tuesday_10_16 userEmail) = false
  /\ allowed (checkTimeRestriction env saturday_15_00 userEmail) = false.
Proof.
  intros H. split.
  - intros now dayOfWeek hour minute.
    rewrite (checkTimeRestriction_other_eq env now userEmail H).
    cbn [allowed isAdmin]. fold dayOfWeek hour minute. split; [reflexivity|].
    rewrite !andb_true_iff, !orb_true_iff, andb_true_iff.
    rewrite !Z.leb_le, Z.ltb_lt, Z.eqb_eq. tauto.
  - repeat split; rewrite (checkTimeRestriction_other_eq env _ userEmail H);
      reflexivity.
Qed.

(** Somebody who is no administrator, on a process in UTC. *)
Lemma checkTimeRestriction_other_witness :
  let env := mkEnv 0 defaultAdmins in
  allowed (checkTimeRestriction env monday_14_00 "ana@x.com") = true
  /\ allowed (checkTimeRestriction env saturday_15_00 "ana@x.com") = false.
Proof.
  assert (H : ~ In "ana@x.com" (ADMIN_EMAILS (mkEnv 0 defaultAdmins))).
  { simpl. intros [E | [E | [E | []]]]; discriminate E. }
  pose proof (checkTimeRestriction_other (mkEnv 0 defaultAdmins) "ana@x.com" H)
    as (_ & H1 & _ & _ & _ & H5).
  split; [exact H1 | exact H5].
Defined.

(** ** The order of the rows of a cycle *)

Lemma leb_total (s1 s2 : string) : String.leb s1 s2 = true \/ String.leb s2 s1 = true.
Proof.
  destruct (String.le_total s1 s2) as [H | H]; [left | right];
    apply Is_true_true, H.
Qed.

Lemma insertByTimestamp_perm (r : Row) (l : list Row) :
  Permutation (Supabase.insertByTimestamp r l) (r :: l).
Proof.
  induction l as [|r' l IH]; cbn [Supabase.insertByTimestamp]; [reflexivity|].
  destruct (String.leb (timestamp r) (timestamp r')); [reflexivity|].
  rewrite IH. apply perm_swap.
Qed.

Lemma orderByTimestamp_perm (l : list Row) :
  Permutation (Supabase.orderByTimestamp l) l.
Proof.
  induction l as [|r l IH]; cbn; [reflexivity|].
  rewrite insertByTimestamp_perm. apply perm_skip, IH.
Qed.

Lemma insertByTimestamp_sorted (r : Row) (l : list Row) :
  Sorted tsLe l -> Sorted tsLe (Supabase.insertByTimestamp r l).
Proof.
  induction l as [|r' l IH]; intros Hs; cbn [Supabase.insertByTimestamp].
  - repeat constructor.
  - destruct (String.leb (timestamp r) (timestamp r')) eqn:E.
    + constructor; [exact Hs|]. constructor. exact E.
    + apply Sorted_inv in Hs as [Hs Hhd].
      constructor; [apply IH, Hs|].
      assert (Hr : tsLe r' r).
      { destruct (leb_total (timestamp r) (timestamp r')) as [H | H];
          [congruence | exact H]. }
      destruct l as [|r'' l]; cbn [Supabase.insertByTimestamp].
      * constructor. exact Hr.
      * destruct (String.leb (timestamp r) (timestamp r''));
          constructor; [exact Hr|]. apply HdRel_inv in Hhd. exact Hhd.
Qed.

(** The rows of a cycle come back in ascending order of timestamp. *)
Lemma orderByTimestamp_sorted (l : list Row) :
  Sorted tsLe (Supabase.orderByTimestamp l).
Proof.
  induction l as [|r l IH]; cbn; [constructor|].
  apply insertByTimestamp_sorted, IH.
Qed.

(** ** Dish numbering *)

Lemma forEachFrom_app {A B : Type} (f : B -> A -> nat -> B) (i : nat)
    (l1 l2 : list A) (acc : B) :
  forEachFrom f i (l1 ++ l2) acc
  = forEachFrom f (i + length l1) l2 (forEachFrom f i l1 acc).
Proof.
  revert i acc. induction l1 as [|x l1 IH]; intros i acc; cbn.
  - f_equal. lia.
  - rewrite IH. f_equal. lia.
Qed.

Lemma collectDishes_row (allDishes : list Dish) (pedido : Row) :
  forEach (fun allDishes plato (_ : nat) =>
      if isDish plato then
        allDishes ++ [mkDish (trim (default EmptyString plato))
                             (email pedido) (timestamp pedido)]
      else allDishes)
    [plato1 pedido; plato2 pedido; plato3 pedido] allDishes
  = allDishes ++ dishesOfRow pedido.
Proof.
  unfold forEach, dishesOfRow. cbn [forEachFrom List.filter].
  destruct (isDish (plato1 pedido)), (isDish (plato2 pedido)),
    (isDish (plato3 pedido)); cbn [map]; rewrite <- ?app_assoc, ?app_nil_r;
    reflexivity.
Qed.

Lemma collectDishes_from (i : nat) (pedidos : list Row) (allDishes : list Dish) :
  forEachFrom (fun allDishes (pedido : Row) (_ : nat) =>
      forEach (fun allDishes plato (_ : nat) =>
          if isDish plato then
            allDishes ++ [mkDish (trim (default EmptyString plato))
                                 (email pedido) (timestamp pedido)]
          else allDishes)
        [plato1 pedido; plato2 pedido; plato3 pedido] allDishes)
    i pedidos allDishes
  = allDishes ++ flat_map dishesOfRow pedidos.
Proof.
  revert i allDishes.
  induction pedidos as [|r pedidos IH]; intros i allDishes; cbn [forEachFrom flat_map].
  - symmetry. apply app_nil_r.
  - rewrite collectDishes_row, IH. symmetry. apply app_assoc.
Qed.

Lemma collectDishes_flat_map (pedidos : list Row) :
  collectDishes pedidos = flat_map dishesOfRow pedidos.
Proof. unfold collectDishes, forEach. apply collectDishes_from. Qed.

Lemma numbersOf_from (userEmail : string) (i : nat) (l : list Dish) (acc : list nat) :
  forEachFrom (fun dishNumbers dish index =>
      if String.eqb (dishEmail dish) userEmail then dishNumbers ++ [(index + 1)%nat]
      else dishNumbers)
    i l acc
  = acc ++ map fst (List.filter (ownDish userEmail)
                      (combine (seq (i + 1) (length l)) l)).
Proof.
  revert i acc. induction l as [|d l IH]; intros i acc.
  - cbn. symmetry. apply app_nil_r.
  - cbn [forEachFrom length seq combine List.filter].
    rewrite IH. unfold ownDish at 2. cbn [snd].
    replace (S i + 1)%nat with (S (i + 1)) by lia.
    destruct (String.eqb (dishEmail d) userEmail); cbn [map fst].
    + rewrite <- app_assoc. reflexivity.
    + reflexivity.
Qed.

Lemma numbersOf_ownPositions (allDishes : list Dish) (userEmail : string) :
  numbersOf allDishes userEmail = ownPositions allDishes userEmail.
Proof. unfold numbersOf, forEach, ownPositions. apply numbersOf_from. Qed.

Lemma dishesOfRow_email (r : Row) :
  Forall (fun d => dishEmail d = email r) (dishesOfRow r).
Proof.
  unfold dishesOfRow. apply List.Forall_forall. intros d Hd.
  apply in_map_iff in Hd as (p & <- & _). reflexivity.
Qed.

Lemma ownPositions_all (userEmail : string) (i : nat) (l : list Dish) :
  Forall (fun d => dishEmail d = userEmail) l ->
  map fst (List.filter (ownDish userEmail) (combine (seq i (length l)) l))
  = seq i (length l).
Proof.
  intros H. revert i. induction H as [|d l Hd _ IH]; intros i; [reflexivity|].
  cbn [length seq combine List.filter]. unfold ownDish at 1. cbn [snd].
  rewrite Hd, String.eqb_refl. cbn [map fst]. rewrite IH. reflexivity.
Qed.

Lemma ownPositions_none (userEmail : string) (i : nat) (l : list Dish) :
  Forall (fun d => dishEmail d <> userEmail) l ->
  map fst (List.filter (ownDish userEmail) (combine (seq i (length l)) l)) = [].
Proof.
  intros H. revert i. induction H as [|d l Hd _ IH]; intros i; [reflexivity|].
  cbn [length seq combine List.filter]. unfold ownDish at 1. cbn [snd].
  apply String.eqb_neq in Hd. rewrite Hd. apply IH.
Qed.

Lemma numbersOf_rows_from (userEmail : string) (pedidos : list Row) (i : nat)
    (acc : list nat) :
  forEachFrom (fun dishNumbers dish index =>
      if String.eqb (dishEmail dish) userEmail then dishNumbers ++ [(index + 1)%nat]
      else dishNumbers)
    i (flat_map dishesOfRow pedidos) acc
  = acc ++ rowNumbers i pedidos userEmail.
Proof.
  revert i acc. induction pedidos as [|r pedidos IH]; intros i acc.
  - cbn. symmetry. apply app_nil_r.
  - cbn [flat_map rowNumbers]. rewrite forEachFrom_app, IH, numbersOf_from.
    rewrite <- !app_assoc. f_equal. f_equal.
    pose proof (dishesOfRow_email r) as Hr.
    destruct (String.eqb (email r) userEmail) eqn:E.
    + apply String.eqb_eq in E. rewrite E in Hr. apply ownPositions_all, Hr.
    + apply String.eqb_neq in E. apply ownPositions_none.
      eapply List.Forall_impl; [|exact Hr]. cbn. intros d ->. exact E.
Qed.

(** The numbers of an identity, record by record. *)
Lemma numbersOf_rows (pedidos : list Row) (userEmail : string) :
  numbersOf (collectDishes pedidos) userEmail = rowNumbers 0 pedidos userEmail.
Proof.
  rewrite collectDishes_flat_map. unfold numbersOf, forEach.
  apply numbersOf_rows_from.
Qed.

Lemma ownPositions_bounds (userEmail : string) (i : nat) (l : list Dish) (n : nat) :
  In n (map fst (List.filter (ownDish userEmail) (combine (seq i (length l)) l))) ->
  (i <= n)%nat.
Proof.
  intros H. apply in_map_iff in H as ((m & d) & <- & H).
  apply filter_In in H as [H _]. apply in_combine_l in H.
  apply in_seq in H. cbn. lia.
Qed.

Lemma ownPositions_sorted (userEmail : string) (i : nat) (l : list Dish) :
  StronglySorted lt
    (map fst (List.filter (ownDish userEmail) (combine (seq i (length l)) l))).
Proof.
  revert i. induction l as [|d l IH]; intros i; [constructor|].
  cbn [length seq combine List.filter].
  destruct (ownDish userEmail (i, d)); [|apply IH].
  cbn [map fst]. constructor; [apply IH|].
  apply List.Forall_forall. intros n Hn. apply ownPositions_bounds in Hn. lia.
Qed.

Lemma ownPositions_In (userEmail : string) (i : nat) (l : list Dish) (n : nat) :
  In n (map fst (List.filter (ownDish userEmail) (combine (seq i (length l)) l)))
  <-> (i <= n)%nat
      /\ exists d, nth_error l (n - i) = Some d /\ dishEmail d = userEmail.
Proof.
  revert i. induction l as [|d l IH]; intros i.
  - cbn. split; [tauto|]. intros (_ & d & H & _).
    destruct (n - i)%nat; discriminate H.
  - cbn [length seq combine List.filter]. unfold ownDish at 1. cbn [snd].
    assert (Hnth : forall Q : Dish -> Prop,
               (exists d', nth_error (d :: l) (n - i) = Some d' /\ Q d')
               <-> ((n - i = 0)%nat /\ Q d)
                   \/ ((n - i <> 0)%nat
                       /\ exists d', nth_error l (n - i - 1) = Some d' /\ Q d')).
    { intros Q. destruct (n - i)%nat as [|k] eqn:E; cbn [nth_error].
      - split.
        + intros (d' & [= <-] & HQ). left. tauto.
        + intros [[_ HQ] | [H _]]; [exists d; tauto | lia].
      - replace (S k - 1)%nat with k by lia. split.
        + intros H. right. split; [lia | exact H].
        + intros [[H _] | [_ H]]; [lia | exact H]. }
    rewrite Hnth.
    destruct (String.eqb (dishEmail d) userEmail) eqn:E; cbn [map fst In].
    + apply String.eqb_eq in E. rewrite IH. split.
      * intros [<- | (Hle & d' & Hd')].
        -- split; [lia|]. left. split; [lia | exact E].
        -- split; [lia|]. right. split; [lia|].
           exists d'. replace (n - i - 1)%nat with (n - S i)%nat by lia. exact Hd'.
      * intros (Hle & [[H0 _] | [Hne (d' & Hd')]]).
        -- left. lia.
        -- right. split; [lia|]. exists d'.
           replace (n - S i)%nat with (n - i - 1)%nat by lia. exact Hd'.
    + apply String.eqb_neq in E. rewrite IH. split.
      * intros (Hle & d' & Hd'). split; [lia|]. right. split; [lia|].
        exists d'. replace (n - i - 1)%nat with (n - S i)%nat by lia. exact Hd'.
      * intros (Hle & [[_ H0] | [Hne (d' & Hd')]]); [contradiction|].
        split; [lia|]. exists d'.
        replace (n - S i)%nat with (n - i - 1)%nat by lia. exact Hd'.
Qed.

Lemma ltb_leb (s1 s2 : string) : String.ltb s1 s2 = true -> String.leb s1 s2 = true.
Proof.
  unfold String.ltb, String.leb. destruct (String.compare s1 s2); congruence.
Qed.

(** Rows already in ascending order come back as they are stored. *)
Lemma orderByTimestamp_sorted_id (l : list Row) :
  Sorted tsLe l -> Supabase.orderByTimestamp l = l.
Proof.
  induction l as [|r l IH]; intros Hs; [reflexivity|].
  apply Sorted_inv in Hs as [Hs Hhd]. cbn [Supabase.orderByTimestamp fold_right].
  fold (Supabase.orderByTimestamp l). rewrite IH by exact Hs.
  destruct l as [|r' l]; [reflexivity|].
  apply HdRel_inv in Hhd. cbn [Supabase.insertByTimestamp].
  unfold tsLe in Hhd. rewrite Hhd. reflexivity.
Qed.

Lemma tsLe_trans (a b c : Row) : tsLe a b -> tsLe b c -> tsLe a c.
Proof.
  unfold tsLe. intros H1 H2. apply Is_true_true in H1, H2. apply Is_true_true.
  exact (transitivity (R := String.le) H1 H2).
Qed.

Lemma ltb_not_leb (s1 s2 : string) :
  String.ltb s1 s2 = true -> String.leb s2 s1 = false.
Proof.
  unfold String.ltb, String.leb. rewrite (String.compare_antisym s1 s2).
  destruct (String.compare s2 s1); cbn; congruence.
Qed.

Lemma not_ltb_leb (s1 s2 : string) :
  String.ltb s1 s2 = false -> String.leb s2 s1 = true.
Proof.
  unfold String.ltb, String.leb. rewrite (String.compare_antisym s1 s2).
  destruct (String.compare s2 s1); cbn; congruence.
Qed.

Lemma tsLt_trans (a b c : Row) : tsLt a b -> tsLt b c -> tsLt a c.
Proof.
  unfold tsLt. intros H1 H2.
  destruct (String.ltb (timestamp a) (timestamp c)) eqn:E; [reflexivity|].
  apply not_ltb_leb in E. apply ltb_leb in H1. apply ltb_not_leb in H2.
  assert (H : tsLe c b) by (eapply tsLe_trans; [exact E | exact H1]).
  unfold tsLe in H. congruence.
Qed.

Lemma sorted_unique (l l' : list Row) :
  Sorted tsLe l -> StronglySorted tsLt l' -> Permutation l l' -> l = l'.
Proof.
  intros Hs Hs'. revert l Hs.
  induction Hs' as [|x l' Hs' IH Hx]; intros l Hs Hp.
  - apply Permutation_nil. symmetry. exact Hp.
  - destruct l as [|y l]; [apply Permutation_nil in Hp; discriminate Hp|].
    apply Sorted_StronglySorted in Hs; [|intros a b c; apply tsLe_trans].
    apply StronglySorted_inv in Hs as [Hs Hy].
    assert (Hxy : y = x).
    { assert (Hin : In y (x :: l')) by (eapply Permutation_in; [exact Hp | left; reflexivity]).
      destruct Hin as [E | Hin]; [symmetry; exact E|]. exfalso.
      assert (Hin' : In x (y :: l))
        by (eapply Permutation_in; [symmetry; exact Hp | left; reflexivity]).
      rewrite List.Forall_forall in Hx, Hy. specialize (Hx y Hin).
      destruct Hin' as [E | Hin']; [subst y|].
      - unfold tsLt in Hx. apply ltb_not_leb in Hx.
        destruct (leb_total (timestamp x) (timestamp x)); congruence.
      - specialize (Hy x Hin'). apply ltb_not_leb in Hx. unfold tsLe in Hy. congruence. }
    subst y. f_equal. apply IH.
    + apply StronglySorted_Sorted, Hs.
    + eapply Permutation_cons_inv, Hp.
Qed.

Lemma orderByTimestamp_unique (l l' : list Row) :
  StronglySorted tsLt l' -> Permutation l l' -> Supabase.orderByTimestamp l = l'.
Proof.
  intros Hs Hp. apply sorted_unique; [apply orderByTimestamp_sorted | exact Hs|].
  rewrite orderByTimestamp_perm. exact Hp.
Qed.

Lemma calculateDishNumbers_ok (env : Env) (now : Z) (st : Store) (userEmail : string) :
  calculateDishNumbers env now None st userEmail
  = numbersOf
      (collectDishes
         (Supabase.orderByTimestamp
            (List.filter (Supabase.hasFecha (getCycleDate env (getArgTime env now)))
               (rows st))))
      userEmail.
Proof. reflexivity. Qed.

(** C4.  Dish numbering.  The dishes of a sequence of records are the
    slots that are not blank, record after record and slot after slot;
    they are numbered from 1 to N along that sequence, and an identity gets
    the numbers of its own dishes, in ascending order.  The sequence is the
    one the store returns for the cycle, in ascending order of timestamp.
    Records at t1 < t2 < t3 of three identities, with 2, 1 and 3 dishes,
    get 1 and 2, 3, and 4 to 6, in whatever order they are stored. *)
Theorem calculateDishNumbers_positions (pedidos : list Row) (userEmail : string) :
  let allDishes := flat_map dishesOfRow pedidos in
  collectDishes pedidos = allDishes
  /\ numbersOf allDishes userEmail = ownPositions allDishes userEmail
  /\ StronglySorted lt (numbersOf allDishes userEmail)
  /\ (forall n : nat,
        In n (numbersOf allDishes userEmail)
        <-> (1 <= n)%nat
            /\ exists d, nth_error allDishes (n - 1) = Some d
                         /\ dishEmail d = userEmail)
  /\ (forall (env : Env) (now : Z) (st : Store),
        let cycleDate := getCycleDate env (getArgTime env now) in
        let sorted :=
          Supabase.orderByTimestamp
            (List.filter (Supabase.hasFecha cycleDate) (rows st)) in
        Sorted tsLe sorted
        /\ calculateDishNumbers env now None st userEmail
           = numbersOf (collectDishes sorted) userEmail)
  /\ (forall (env : Env) (now : Z) (st : Store) (r1 r2 r3 : Row),
        Permutation
          (List.filter (Supabase.hasFecha (getCycleDate env (getArgTime env now)))
             (rows st))
          [r1; r2; r3] ->
        String.ltb (timestamp r1) (timestamp r2) = true ->
        String.ltb (timestamp r2) (timestamp r3) = true ->
        email r1 <> email r2 -> email r1 <> email r3 -> email r2 <> email r3 ->
        length (dishesOfRow r1) = 2%nat ->
        length (dishesOfRow r2) = 1%nat ->
        length (dishesOfRow r3) = 3%nat ->
        calculateDishNumbers env now None st (email r1) = [1; 2]%nat
        /\ calculateDishNumbers env now None st (email r2) = [3]%nat
        /\ calculateDishNumbers env now None st (email r3) = [4; 5; 6]%nat).
Proof.
  intros allDishes. split; [apply collectDishes_flat_map|].
  split; [apply numbersOf_ownPositions|].
  rewrite numbersOf_ownPositions. unfold ownPositions.
  split; [apply ownPositions_sorted|].
  split; [intros n; apply ownPositions_In|].
  split.
  - intros env now st. cbv zeta. split; [apply orderByTimestamp_sorted|].
    apply calculateDishNumbers_ok.
  - intros env now st r1 r2 r3 Hrows H12 H23 N12 N13 N23 L1 L2 L3.
    rewrite !calculateDishNumbers_ok.
    rewrite (orderByTimestamp_unique _ [r1; r2; r3]); [|
      repeat constructor; try assumption; eapply tsLt_trans; eassumption
      | exact Hrows].
    rewrite !numbersOf_rows. cbn [rowNumbers]. rewrite L1, L2, L3.
    rewrite !String.eqb_refl.
    apply String.eqb_neq in N12, N13, N23. rewrite N12, N13, N23.
    rewrite (String.eqb_sym (email r2) (email r1)), N12.
    rewrite (String.eqb_sym (email r3) (email r1)), N13.
    rewrite (String.eqb_sym (email r3) (email r2)), N23.
    repeat split.
Qed.

Lemma calculateDishNumbers_positions_witness :
  let env := mkEnv 0 defaultAdmins in
  let st := mkStore [sampleCaro; sampleOld; sampleBeto; sampleAna] 8 in
  calculateDishNumbers env monday_14_00 None st "ana@x.com" = [1; 2]%nat
  /\ calculateDishNumbers env monday_14_00 None st "beto@x.com" = [3]%nat
  /\ calculateDishNumbers env monday_14_00 None st "caro@x.com" = [4; 5; 6]%nat.
Proof.
  pose proof (calculateDishNumbers_positions sampleRows "ana@x.com")
    as (_ & _ & _ & _ & _ & H).
  apply (H (mkEnv 0 defaultAdmins) monday_14_00
           (mkStore [sampleCaro; sampleOld; sampleBeto; sampleAna] 8)
           sampleAna sampleBeto sampleCaro).
  - change (Permutation [sampleCaro; sampleBeto; sampleAna]
              (rev [sampleCaro; sampleBeto; sampleAna])).
    apply Permutation_rev.
  - reflexivity.
  - reflexivity.
  - discriminate.
  - discriminate.
  - discriminate.
  - reflexivity.
  - reflexivity.
  - reflexivity.
Defined.

(** ** Submission *)

Lemma trim_empty : trim EmptyString = EmptyString.
Proof. reflexivity. Qed.

Lemma validBody_checks (req : PedidoBody) :
  validBody req ->
  negb (truthy (bodyNombre req))
  || String.eqb (trim (default EmptyString (bodyNombre req))) EmptyString = false
  /\ negb (truthy (bodyPlato1 req)) = false.
Proof.
  intros [(s & Hs & Ht) (p & Hp & Hne)]. rewrite Hs, Hp. cbn [truthy from_option Datatypes.id].
  assert (s <> EmptyString) by (intros ->; apply Ht, trim_empty).
  apply String.eqb_neq in Ht, Hne. rewrite Ht, Hne.
  replace (String.eqb s EmptyString) with false
    by (symmetry; apply String.eqb_neq; assumption).
  split; reflexivity.
Qed.

(** A submission that is let in, with a valid body, whose write succeeds:
    the table is written and the numbers are computed on the result. *)
Lemma postPedido_accepted (env : Env) (io : SubmitIO) (userEmail : string)
    (req : PedidoBody) (st : Store) :
  allowed (checkTimeRestriction env (clockCheck io) userEmail) = true ->
  validBody req ->
  faultWrite io = None ->
  let st' := fst (written env io userEmail req st) in
  let action := snd (written env io userEmail req st) in
  let dishNumbers :=
    calculateDishNumbers env (clockNumbers io) (faultQuery io) st' userEmail in
  postPedido env io userEmail req st
  = (mkResponse 200
       (OrderSaved (savedMessage action dishNumbers) action dishNumbers
          (length dishNumbers)),
     st').
Proof.
  intros Ha Hv Hw. cbv zeta. unfold postPedido, written.
  rewrite Ha. cbn [negb]. apply validBody_checks in Hv as [-> ->].
  fold (cycleOf env io). fold (writtenData env io userEmail req).
  rewrite Hw.
  destruct (data (Supabase.selectSingle (faultLookup io) st userEmail (cycleOf env io)));
    reflexivity.
Qed.

(** The conditions under which a submission answers 200. *)
Lemma postPedido_200 (env : Env) (io : SubmitIO) (userEmail : string)
    (req : PedidoBody) (st : Store) :
  status (fst (postPedido env io userEmail req st)) = 200 ->
  allowed (checkTimeRestriction env (clockCheck io) userEmail) = true
  /\ validBody req /\ faultWrite io = None.
Proof.
  unfold postPedido.
  destruct (allowed (checkTimeRestriction env (clockCheck io) userEmail));
    cbn [negb fst status]; [|discriminate].
  destruct (bodyNombre req) as [s|] eqn:Hs; cbn [truthy from_option Datatypes.id negb orb];
    [|discriminate].
  destruct (String.eqb s EmptyString) eqn:Es; cbn [negb orb fst status];
    [discriminate|].
  destruct (String.eqb (trim s) EmptyString) eqn:Et; cbn [fst status];
    [discriminate|].
  destruct (bodyPlato1 req) as [p|] eqn:Hp; cbn [truthy negb fst status];
    [|discriminate].
  destruct (String.eqb p EmptyString) eqn:Ep; cbn [negb fst status];
    [discriminate|].
  intros H. split; [reflexivity|]. split.
  - split; [exists s | exists p]; (split; [assumption|]);
      apply String.eqb_neq; assumption.
  - destruct (faultWrite io) as [e|]; [|reflexivity]. exfalso.
    destruct (data (Supabase.selectSingle (faultLookup io) st userEmail _));
      cbn in H; discriminate H.
Qed.

Lemma selectSingle_records (fault : option StoreError) (st : Store)
    (userEmail cycleDate : string) (r : Row) :
  data (Supabase.selectSingle fault st userEmail cycleDate) = Some r ->
  recordsOf st userEmail cycleDate = [r].
Proof.
  unfold Supabase.selectSingle, recordsOf. destruct fault; [discriminate|].
  destruct (List.filter _ _) as [|r' [|r'' l]]; cbn; congruence.
Qed.

Lemma recordsOf_In (st : Store) (userEmail cycleDate : string) (r : Row) :
  In r (recordsOf st userEmail cycleDate)
  <-> In r (rows st) /\ email r = userEmail /\ fecha r = cycleDate.
Proof.
  unfold recordsOf, Supabase.hasFecha, Supabase.hasEmail.
  rewrite !filter_In, !String.eqb_eq. tauto.
Qed.

(** The record of a submission is in the table after its write. *)
Lemma written_In (env : Env) (io : SubmitIO) (userEmail : string)
    (req : PedidoBody) (st : Store) :
  exists r, In r (rows (fst (written env io userEmail req st)))
            /\ columns r = writtenData env io userEmail req.
Proof.
  unfold written.
  destruct (data (Supabase.selectSingle _ _ _ _)) as [existing|] eqn:E;
    cbn [fst rows].
  - exists (mkRow (id existing) (writtenData env io userEmail req)).
    split; [|reflexivity].
    apply selectSingle_records in E.
    assert (Hin : In existing (rows st)).
    { apply (recordsOf_In st userEmail (cycleOf env io)). rewrite E. left. reflexivity. }
    apply in_map_iff. exists existing. split; [|exact Hin].
    unfold Supabase.replaceAt, Supabase.hasId. rewrite Z.eqb_refl. reflexivity.
  - exists (mkRow (nextId st) (writtenData env io userEmail req)).
    split; [|reflexivity]. apply in_or_app. right. left. reflexivity.
Qed.

(** C7.  Validation of a submission that is let in.  A name that is
    missing or blank is refused with 400, and so is a first dish that is
    missing or empty.  With a name and a first dish, whatever they are and
    whatever the second and third dishes, the submission is not refused as
    invalid; it is answered 200 and written as soon as the write succeeds.
    The menu is not consulted. *)
Theorem postPedido_validation (env : Env) (io : SubmitIO) (userEmail : string)
    (req : PedidoBody) (st : Store) :
  allowed (checkTimeRestriction env (clockCheck io) userEmail) = true ->
  let run := postPedido env io userEmail req st in
  ((bodyNombre req = None
    \/ exists s, bodyNombre req = Some s /\ trim s = EmptyString) ->
   run = (mkResponse 400 (Failed "Por favor ingresa tu nombre"), st))
  /\ ((bodyPlato1 req = None \/ bodyPlato1 req = Some EmptyString) ->
      status (fst run) = 400 /\ success (body (fst run)) = false /\ snd run = st)
  /\ ((exists s, bodyNombre req = Some s /\ trim s <> EmptyString) ->
      (bodyPlato1 req = None \/ bodyPlato1 req = Some EmptyString) ->
      run = (mkResponse 400 (Failed "Por favor selecciona al menos el plato principal"),
             st))
  /\ (validBody req ->
      status (fst run) <> 400
      /\ (faultWrite io = None ->
          status (fst run) = 200
          /\ success (body (fst run)) = true
          /\ exists r, In r (rows (snd run))
                       /\ columns r = writtenData env io userEmail req)).
Proof.
  intros Ha run. subst run. split; [|split; [|split]].
  - intros Hn. unfold postPedido. rewrite Ha. cbn [negb].
    destruct Hn as [-> | (s & -> & Ht)]; [reflexivity|].
    cbn [truthy from_option Datatypes.id]. rewrite Ht.
    rewrite orb_true_r. reflexivity.
  - intros Hp. unfold postPedido. rewrite Ha. cbn [negb].
    destruct (negb (truthy (bodyNombre req)) || _); [repeat split|].
    destruct Hp as [-> | ->]; repeat split.
  - intros (s & Hs & Ht) Hp. unfold postPedido. rewrite Ha, Hs. cbn [negb].
    cbn [truthy from_option Datatypes.id].
    assert (s <> EmptyString) by (intros ->; apply Ht, trim_empty).
    apply String.eqb_neq in Ht. rewrite Ht.
    replace (String.eqb s EmptyString) with false
      by (symmetry; apply String.eqb_neq; assumption).
    cbn [negb orb]. destruct Hp as [-> | ->]; reflexivity.
  - intros Hv. split.
    + unfold postPedido. rewrite Ha. cbn [negb].
      apply validBody_checks in Hv as [-> ->].
      destruct (data (Supabase.selectSingle _ _ _ _)); cbn;
        destruct (faultWrite io); cbn; discriminate.
    + intros Hw. rewrite (postPedido_accepted env io userEmail req st Ha Hv Hw).
      cbn [fst snd status body success]. split; [reflexivity|].
      split; [reflexivity|]. apply written_In.
Qed.

(** A dish that is not on the menu, blank second and third dishes. *)
Lemma postPedido_validation_witness :
  let env := mkEnv 0 defaultAdmins in
  let io := mkSubmitIO monday_14_00 monday_14_00 monday_14_00 monday_14_00
              None None None in
  let req := mkPedidoBody (Some "Ana") (Some "Milanesa") None (Some "  ") in
  ~ In "Milanesa" MENU_ITEMS
  /\ status (fst (postPedido env io "ana@x.com" req (mkStore [] 1))) = 200.
Proof.
  split.
  - simpl. intros H. repeat (destruct H as [H | H]; [discriminate H|]). exact H.
  - pose proof (postPedido_validation (mkEnv 0 defaultAdmins)
                  (mkSubmitIO monday_14_00 monday_14_00 monday_14_00 monday_14_00
                     None None None)
                  "ana@x.com" (mkPedidoBody (Some "Ana") (Some "Milanesa") None (Some "  "))
                  (mkStore [] 1) eq_refl) as H.
    cbv zeta in H. destruct H as (_ & _ & _ & H). apply H.
    + split; [exists "Ana" | exists "Milanesa"]; (split; [reflexivity | discriminate]).
    + reflexivity.
Defined.

(** C10.  When the query of the numbering fails after the write has
    succeeded, the submission still answers 200 with its action, no dish
    numbers, [totalPlatos] 0 and the summary without numbers; the table
    keeps the write. *)
Theorem postPedido_numbering_fails (env : Env) (io : SubmitIO) (userEmail : string)
    (req : PedidoBody) (st : Store) (e : StoreError) :
  allowed (checkTimeRestriction env (clockCheck io) userEmail) = true ->
  validBody req ->
  faultWrite io = None ->
  faultQuery io = Some e ->
  let st' := fst (written env io userEmail req st) in
  let action := snd (written env io userEmail req st) in
  postPedido env io userEmail req st
  = (mkResponse 200
       (OrderSaved
          match action with
          | updated => "Pedido actualizado correctamente"
          | created => "Pedido registrado correctamente"
          end
          action [] 0),
     st')
  /\ exists r, In r (rows st') /\ columns r = writtenData env io userEmail req.
Proof.
  intros Ha Hv Hw Hq. cbv zeta. split; [|apply written_In].
  rewrite (postPedido_accepted env io userEmail req st Ha Hv Hw). cbv zeta.
  unfold calculateDishNumbers, Supabase.selectCycle. rewrite Hq.
  cbn [error Supabase.failed]. reflexivity.
Qed.

Lemma postPedido_numbering_fails_witness :
  let env := mkEnv 0 defaultAdmins in
  let io := mkSubmitIO monday_14_00 monday_14_00 monday_14_00 monday_14_00
              None None (Some storeDown) in
  let req := mkPedidoBody (Some "Ana") (Some "Tortilla de papa") None None in
  fst (postPedido env io "ana@x.com" req (mkStore [] 1))
  = mkResponse 200 (OrderSaved "Pedido registrado correctamente" created [] 0).
Proof.
  pose proof (postPedido_numbering_fails (mkEnv 0 defaultAdmins)
                (mkSubmitIO monday_14_00 monday_14_00 monday_14_00 monday_14_00
                   None None (Some storeDown))
                "ana@x.com" (mkPedidoBody (Some "Ana") (Some "Tortilla de papa") None None)
                (mkStore [] 1) storeDown eq_refl) as H.
  cbv zeta in H. destruct H as [H _].
  - split; [exists "Ana" | exists "Tortilla de papa"];
      (split; [reflexivity | discriminate]).
  - reflexivity.
  - reflexivity.
  - cbv zeta. rewrite H. reflexivity.
Defined.

(** ** Statistics *)

(** C8.  When the query fails the statistics route does not throw: it
    answers with [success: false], a message that carries the store's own,
    and the statistics [{totalOrders: 0, menuStats: {}, peopleList: []}]. *)
Theorem getStats_store_failure (env : Env) (now : Z) (e : StoreError) (st : Store) :
  getStats env now (Some e) st
  = mkResponse 500
      (StatsFailed ("Error al obtener estadísticas: " +:+ errorMessage e)
         (mkStats 0 ∅ []))
  /\ success (body (getStats env now (Some e) st)) = false.
Proof. split; reflexivity. Qed.

(** ** Cancellation *)

Lemma delete_absent (st : Store) (userEmail cycleDate : string) :
  recordsOf st userEmail cycleDate = [] ->
  Supabase.delete None st userEmail cycleDate = (mkAnswer None None, st).
Proof.
  intros H. unfold Supabase.delete. f_equal. destruct st as [l n]. cbn [rows nextId].
  f_equal. unfold recordsOf in H. cbn [rows] in H.
  induction l as [|r l IH]; [reflexivity|].
  cbn [List.filter] in *.
  destruct (Supabase.hasEmail userEmail r); cbn [andb negb List.filter] in *.
  - destruct (Supabase.hasFecha cycleDate r); cbn [negb]; [discriminate H|].
    f_equal. apply IH, H.
  - f_equal. apply IH, H.
Qed.

Lemma delete_records (st : Store) (userEmail cycleDate : string) :
  recordsOf (snd (Supabase.delete None st userEmail cycleDate)) userEmail cycleDate = [].
Proof.
  unfold Supabase.delete, recordsOf. cbn [snd rows].
  induction (rows st) as [|r l IH]; [reflexivity|].
  cbn [List.filter].
  destruct (Supabase.hasEmail userEmail r) eqn:E1; cbn [andb].
  - destruct (Supabase.hasFecha cycleDate r) eqn:E2; cbn [negb]; [exact IH|].
    cbn [List.filter]. rewrite E1. cbn [List.filter]. rewrite E2. exact IH.
  - cbn [negb List.filter]. rewrite E1. exact IH.
Qed.

(** C9.  Cancelling when there is no record: for an identity that is let
    in and has no record in the current cycle, the cancellation answers
    200 and leaves the table as it is.  So does a second cancellation in
    the same cycle after a first one, whatever the table was. *)
Theorem deletePedido_absent (env : Env) (clockCycle clockCheck : Z)
    (userEmail : string) (st : Store) :
  allowed (checkTimeRestriction env clockCheck userEmail) = true ->
  let cycleDate := getCycleDate env (getArgTime env clockCycle) in
  (recordsOf st userEmail cycleDate = [] ->
   deletePedido env clockCycle clockCheck None userEmail st
   = (mkResponse 200 (Done "Pedido cancelado correctamente"), st))
  /\ (forall clockCycle' clockCheck' : Z,
        allowed (checkTimeRestriction env clockCheck' userEmail) = true ->
        getCycleDate env (getArgTime env clockCycle') = cycleDate ->
        let st' := snd (deletePedido env clockCycle clockCheck None userEmail st) in
        deletePedido env clockCycle' clockCheck' None userEmail st'
        = (mkResponse 200 (Done "Pedido cancelado correctamente"), st')).
Proof.
  intros Ha cycleDate. split.
  - intros Hr. unfold deletePedido. rewrite Ha. cbn [negb].
    fold cycleDate. rewrite (delete_absent st userEmail cycleDate Hr). reflexivity.
  - intros clockCycle' clockCheck' Ha' Hc. cbv zeta.
    unfold deletePedido. rewrite Ha, Ha', Hc. cbn [negb]. fold cycleDate.
    destruct (Supabase.delete None st userEmail cycleDate) as [answer st1] eqn:E.
    assert (Hans : error answer = None).
    { unfold Supabase.delete in E. injection E as <- _. reflexivity. }
    rewrite Hans. cbn [snd].
    assert (Hr : recordsOf st1 userEmail cycleDate = []).
    { pose proof (delete_records st userEmail cycleDate) as H.
      rewrite E in H. exact H. }
    rewrite (delete_absent st1 userEmail cycleDate Hr). reflexivity.
Qed.

(** Nobody has ordered yet, on Monday at 14:00. *)
Lemma deletePedido_absent_witness :
  let env := mkEnv 0 defaultAdmins in
  let st := mkStore [sampleBeto] 3 in
  deletePedido env monday_14_00 monday_14_00 None "ana@x.com" st
  = (mkResponse 200 (Done "Pedido cancelado correctamente"), st).
Proof.
  pose proof (deletePedido_absent (mkEnv 0 defaultAdmins) monday_14_00 monday_14_00
                "ana@x.com" (mkStore [sampleBeto] 3) eq_refl) as H.
  cbv zeta in H. destruct H as [H _]. apply H. vm_compute. reflexivity.
Defined.

(** ** The table under submissions *)

Lemma recordsOf_filter (st : Store) (userEmail cycleDate : string) :
  recordsOf st userEmail cycleDate
  = List.filter (fun r => Supabase.hasEmail userEmail r && Supabase.hasFecha cycleDate r)
      (rows st).
Proof.
  unfold recordsOf. induction (rows st) as [|r l IH]; [reflexivity|].
  cbn [List.filter]. destruct (Supabase.hasEmail userEmail r); cbn [andb List.filter].
  - rewrite IH. reflexivity.
  - exact IH.
Qed.

Lemma recordsOf_cycleRows (st : Store) (userEmail cycleDate : string) :
  recordsOf st userEmail cycleDate
  = List.filter (Supabase.hasEmail userEmail) (cycleRows st cycleDate).
Proof.
  rewrite recordsOf_filter. unfold cycleRows.
  induction (rows st) as [|r l IH]; [reflexivity|].
  cbn [List.filter].
  destruct (Supabase.hasFecha cycleDate r), (Supabase.hasEmail userEmail r) eqn:E;
    cbn [andb List.filter]; rewrite ?E, IH; reflexivity.
Qed.

Lemma replaceAt_id (i : Z) (orderData : OrderData) (r : Row) :
  id (Supabase.replaceAt i orderData r) = id r.
Proof. unfold Supabase.replaceAt. destruct (Supabase.hasId i r); reflexivity. Qed.

Lemma replaceAt_below (i : Z) (orderData : OrderData) (l : list Row) :
  Forall (fun r => id r < i) l -> map (Supabase.replaceAt i orderData) l = l.
Proof.
  intros H. induction H as [|r l Hr _ IH]; [reflexivity|].
  cbn [map]. rewrite IH. f_equal. unfold Supabase.replaceAt, Supabase.hasId.
  destruct (id r =? i) eqn:E; [|reflexivity]. apply Z.eqb_eq in E. lia.
Qed.

Lemma keys_determine (l : list Row) (r r' : Row) :
  List.NoDup (map id l) -> In r l -> In r' l -> id r = id r' -> r = r'.
Proof.
  induction l as [|x l IH]; intros Hnd Hr Hr' E; [contradiction|].
  cbn [map] in Hnd. apply List.NoDup_cons_iff in Hnd as [Hx Hnd].
  destruct Hr as [<- | Hr], Hr' as [<- | Hr'].
  - reflexivity.
  - exfalso. apply Hx. rewrite E. apply in_map, Hr'.
  - exfalso. apply Hx. rewrite <- E. apply in_map, Hr.
  - apply IH; assumption.
Qed.

Lemma filter_map_pointwise {A : Type} (P : A -> bool) (f : A -> A) (l : list A) :
  (forall x, In x l -> P (f x) = P x) ->
  List.filter P (map f l) = map f (List.filter P l).
Proof.
  induction l as [|x l IH]; intros H; [reflexivity|].
  cbn [map List.filter]. rewrite H by (left; reflexivity).
  rewrite IH by (intros y Hy; apply H; right; exact Hy).
  destruct (P x); reflexivity.
Qed.

(** Updating the one record of an identity in a cycle leaves it the one
    record of that identity in that cycle. *)
Lemma recordsOf_update (st : Store) (userEmail cycleDate : string) (existing : Row)
    (orderData : OrderData) :
  List.NoDup (map id (rows st)) ->
  recordsOf st userEmail cycleDate = [existing] ->
  email orderData = userEmail ->
  fecha orderData = cycleDate ->
  recordsOf (mkStore (map (Supabase.replaceAt (id existing) orderData) (rows st)) (nextId st))
    userEmail cycleDate
  = [mkRow (id existing) orderData].
Proof.
  intros Hnd He Hu Hc.
  assert (Hin : In existing (recordsOf st userEmail cycleDate))
    by (rewrite He; left; reflexivity).
  apply recordsOf_In in Hin as (Hin & Heu & Hec).
  rewrite recordsOf_filter in *. cbn [rows].
  rewrite filter_map_pointwise.
  - rewrite He. cbn [map]. unfold Supabase.replaceAt, Supabase.hasId.
    rewrite Z.eqb_refl. reflexivity.
  - intros r Hr. unfold Supabase.replaceAt, Supabase.hasId.
    destruct (id r =? id existing) eqn:E; [|reflexivity].
    apply Z.eqb_eq in E.
    assert (r = existing) by (eapply keys_determine; eassumption). subst r.
    unfold Supabase.hasEmail, Supabase.hasFecha. cbn [columns].
    rewrite Hu, Hc, Heu, Hec. reflexivity.
Qed.

Lemma written_created (env : Env) (io : SubmitIO) (userEmail : string)
    (req : PedidoBody) (st : Store) :
  recordsOf st userEmail (cycleOf env io) = [] ->
  written env io userEmail req st
  = (mkStore (rows st ++ [mkRow (nextId st) (writtenData env io userEmail req)])
       (nextId st + 1),
     created).
Proof.
  intros H. unfold written, Supabase.selectSingle.
  fold (recordsOf st userEmail (cycleOf env io)). rewrite H.
  destruct (faultLookup io); reflexivity.
Qed.

Lemma written_updated (env : Env) (io : SubmitIO) (userEmail : string)
    (req : PedidoBody) (st : Store) (existing : Row) :
  faultLookup io = None ->
  recordsOf st userEmail (cycleOf env io) = [existing] ->
  written env io userEmail req st
  = (mkStore (map (Supabase.replaceAt (id existing) (writtenData env io userEmail req)) (rows st))
       (nextId st),
     updated).
Proof.
  intros Hf H. unfold written, Supabase.selectSingle. rewrite Hf.
  fold (recordsOf st userEmail (cycleOf env io)). rewrite H. reflexivity.
Qed.

Lemma wellKeyed_insert (st : Store) (orderData : OrderData) :
  wellKeyed st ->
  wellKeyed (mkStore (rows st ++ [mkRow (nextId st) orderData]) (nextId st + 1)).
Proof.
  intros [Hnd Hlt]. unfold wellKeyed. cbn [rows nextId]. split.
  - rewrite map_app. cbn [map id].
    apply List.NoDup_app; [exact Hnd | |].
    + constructor; [intros [] | constructor].
    + intros k Hk [<- | []].
      apply in_map_iff in Hk as (r & Hr & Hin).
      rewrite List.Forall_forall in Hlt. specialize (Hlt r Hin). lia.
  - apply List.Forall_app. split.
    + eapply List.Forall_impl; [|exact Hlt]. cbn. intros r Hr. lia.
    + constructor; [cbn; lia | constructor].
Qed.

Lemma wellKeyed_update (st : Store) (i : Z) (orderData : OrderData) :
  wellKeyed st ->
  wellKeyed (mkStore (map (Supabase.replaceAt i orderData) (rows st)) (nextId st)).
Proof.
  intros [Hnd Hlt]. unfold wellKeyed. cbn [rows nextId].
  assert (Hid : map id (map (Supabase.replaceAt i orderData) (rows st)) = map id (rows st)).
  { rewrite map_map. apply map_ext. intros r. apply replaceAt_id. }
  split; [rewrite Hid; exact Hnd|].
  apply List.Forall_forall. intros r Hr.
  apply in_map_iff in Hr as (r0 & <- & Hr0). rewrite replaceAt_id.
  rewrite List.Forall_forall in Hlt. apply Hlt, Hr0.
Qed.

Lemma recordsOf_insert (st : Store) (userEmail cycleDate : string) (r : Row) (n : Z) :
  recordsOf (mkStore (rows st ++ [r]) n) userEmail cycleDate
  = recordsOf st userEmail cycleDate
    ++ (if Supabase.hasEmail userEmail r && Supabase.hasFecha cycleDate r
        then [r] else []).
Proof.
  rewrite !recordsOf_filter. cbn [rows]. rewrite List.filter_app. reflexivity.
Qed.

Lemma writtenData_key (env : Env) (io : SubmitIO) (userEmail : string)
    (req : PedidoBody) (k : Z) :
  Supabase.hasEmail userEmail (mkRow k (writtenData env io userEmail req))
  && Supabase.hasFecha (cycleOf env io) (mkRow k (writtenData env io userEmail req))
  = true.
Proof.
  unfold Supabase.hasEmail, Supabase.hasFecha. cbn. rewrite !String.eqb_refl.
  reflexivity.
Qed.

(** After the write of a submission on a table with at most one record of
    the identity in the cycle, there is exactly one, the one written. *)
Lemma written_records (env : Env) (io : SubmitIO) (userEmail : string)
    (req : PedidoBody) (st : Store) :
  wellKeyed st ->
  faultLookup io = None ->
  (length (recordsOf st userEmail (cycleOf env io)) <= 1)%nat ->
  let st' := fst (written env io userEmail req st) in
  wellKeyed st'
  /\ exists k, recordsOf st' userEmail (cycleOf env io)
               = [mkRow k (writtenData env io userEmail req)].
Proof.
  intros Hwk Hf Hlen. cbv zeta.
  destruct (recordsOf st userEmail (cycleOf env io)) as [|existing [|r' l]] eqn:E.
  - rewrite (written_created env io userEmail req st E). cbn [fst].
    split; [apply wellKeyed_insert, Hwk|]. exists (nextId st).
    rewrite recordsOf_insert, E, writtenData_key. reflexivity.
  - rewrite (written_updated env io userEmail req st existing Hf E). cbn [fst].
    split; [apply wellKeyed_update, Hwk|]. exists (id existing).
    apply recordsOf_update; [apply Hwk | exact E | reflexivity | reflexivity].
  - cbn in Hlen. lia.
Qed.

(** C6.  Two accepted submissions of the same body by the same identity in
    the same cycle, on a table that holds at most one record of the
    identity in the cycle: the second answers [updated]; the record keeps
    its key, name, dishes and cycle, and its timestamp is that of the
    second submission; no other row changes and none is added. *)
Theorem postPedido_twice (env : Env) (io1 io2 : SubmitIO) (userEmail : string)
    (req : PedidoBody) (st0 : Store) :
  wellKeyed st0 ->
  (length (recordsOf st0 userEmail (cycleOf env io1)) <= 1)%nat ->
  cycleOf env io2 = cycleOf env io1 ->
  faultLookup io1 = None ->
  faultLookup io2 = None ->
  let run1 := postPedido env io1 userEmail req st0 in
  let run2 := postPedido env io2 userEmail req (snd run1) in
  status (fst run1) = 200 ->
  status (fst run2) = 200 ->
  exists (r1 r2 : Row) (dishNumbers : list nat),
    recordsOf (snd run1) userEmail (cycleOf env io1) = [r1]
    /\ recordsOf (snd run2) userEmail (cycleOf env io1) = [r2]
    /\ body (fst run2)
       = OrderSaved (savedMessage updated dishNumbers) updated dishNumbers
           (length dishNumbers)
    /\ id r2 = id r1
    /\ nombre r2 = nombre r1 /\ email r2 = email r1 /\ usuario r2 = usuario r1
    /\ plato1 r2 = plato1 r1 /\ plato2 r2 = plato2 r1 /\ plato3 r2 = plato3 r1
    /\ fecha r2 = fecha r1
    /\ timestamp r2 = toISOString (getArgTime env (clockStamp io2))
    /\ rows (snd run2) = map (fun r => if id r =? id r1 then r2 else r) (rows (snd run1))
    /\ nextId (snd run2) = nextId (snd run1).
Proof.
  intros Hwk Hlen Hc Hl1 Hl2 run1 run2 H1 H2.
  apply postPedido_200 in H1 as (Ha1 & Hv & Hw1).
  apply postPedido_200 in H2 as (Ha2 & _ & Hw2).
  subst run2 run1.
  rewrite (postPedido_accepted env io1 userEmail req st0 Ha1 Hv Hw1). cbn [snd].
  destruct (written_records env io1 userEmail req st0 Hwk Hl1 Hlen) as (Hwk1 & k & Hr1).
  set (st1 := fst (written env io1 userEmail req st0)) in *.
  rewrite (postPedido_accepted env io2 userEmail req st1 Ha2 Hv Hw2).
  cbn [fst snd body].
  assert (Hr1' : recordsOf st1 userEmail (cycleOf env io2)
                 = [mkRow k (writtenData env io1 userEmail req)])
    by (rewrite Hc; exact Hr1).
  rewrite (written_updated env io2 userEmail req st1 _ Hl2 Hr1'). cbn [fst snd id].
  exists (mkRow k (writtenData env io1 userEmail req)).
  exists (mkRow k (writtenData env io2 userEmail req)).
  eexists. split; [exact Hr1|]. split.
  { rewrite <- Hc.
    apply (recordsOf_update st1 userEmail (cycleOf env io2)
             (mkRow k (writtenData env io1 userEmail req)));
      [apply Hwk1 | exact Hr1' | reflexivity | reflexivity]. }
  split; [reflexivity|].
  cbn [id columns nombre email usuario plato1 plato2 plato3 fecha timestamp
       writtenData rows nextId].
  repeat (split; [first [reflexivity | exact Hc]|]).
  split; [|reflexivity].
  apply map_ext. intros r. unfold Supabase.replaceAt, Supabase.hasId.
  destruct (id r =? k) eqn:E; [|reflexivity].
  apply Z.eqb_eq in E. rewrite E. reflexivity.
Qed.

Lemma postPedido_twice_witness :
  let env := mkEnv 0 defaultAdmins in
  let req := mkPedidoBody (Some "Ana") (Some "Tortilla de papa") None
               (Some "Ensalada César") in
  let run1 := postPedido env (smoothAt monday_14_05) "ana@x.com" req
                (mkStore [sampleBeto] 3) in
  let run2 := postPedido env (smoothAt monday_14_07) "ana@x.com" req (snd run1) in
  exists (r1 r2 : Row) (dishNumbers : list nat),
    recordsOf (snd run1) "ana@x.com" "2024-01-16" = [r1]
    /\ recordsOf (snd run2) "ana@x.com" "2024-01-16" = [r2]
    /\ body (fst run2)
       = OrderSaved (savedMessage updated dishNumbers) updated dishNumbers
           (length dishNumbers)
    /\ id r2 = id r1
    /\ nombre r2 = nombre r1 /\ email r2 = email r1 /\ usuario r2 = usuario r1
    /\ plato1 r2 = plato1 r1 /\ plato2 r2 = plato2 r1 /\ plato3 r2 = plato3 r1
    /\ fecha r2 = fecha r1
    /\ timestamp r2 = "2024-01-15T14:07:00.000Z"
    /\ rows (snd run2) = map (fun r => if id r =? id r1 then r2 else r) (rows (snd run1))
    /\ nextId (snd run2) = nextId (snd run1).
Proof.
  apply (postPedido_twice (mkEnv 0 defaultAdmins) (smoothAt monday_14_05)
           (smoothAt monday_14_07) "ana@x.com"
           (mkPedidoBody (Some "Ana") (Some "Tortilla de papa") None
              (Some "Ensalada César"))
           (mkStore [sampleBeto] 3)).
  - split.
    + constructor; [intros [] | constructor].
    + constructor; [reflexivity | constructor].
  - vm_compute. lia.
  - vm_compute. reflexivity.
  - reflexivity.
  - reflexivity.
  - vm_compute. reflexivity.
  - vm_compute. reflexivity.
Defined.

(** ** Resubmission *)

Lemma dishesOfRow_written (env : Env) (io : SubmitIO) (userEmail : string)
    (req : PedidoBody) (k : Z) :
  length (dishesOfRow (mkRow k (writtenData env io userEmail req))) = dishCount req.
Proof. unfold dishesOfRow, dishCount. apply length_map. Qed.

Lemma timestamp_written (env : Env) (io : SubmitIO) (userEmail : string)
    (req : PedidoBody) (k : Z) :
  timestamp (mkRow k (writtenData env io userEmail req)) = stampOf env io.
Proof. unfold stampOf, writtenData. cbn [timestamp columns]. reflexivity. Qed.

Lemma cycleRows_insert (st : Store) (cycleDate : string) (r : Row) (n : Z) :
  cycleRows (mkStore (rows st ++ [r]) n) cycleDate
  = cycleRows st cycleDate ++ (if Supabase.hasFecha cycleDate r then [r] else []).
Proof. unfold cycleRows. cbn [rows]. rewrite List.filter_app. reflexivity. Qed.

Lemma numbers_in_cycle (env : Env) (now : Z) (st : Store) (userEmail cycleDate : string) :
  getCycleDate env (getArgTime env now) = cycleDate ->
  calculateDishNumbers env now None st userEmail
  = rowNumbers 0 (Supabase.orderByTimestamp (cycleRows st cycleDate)) userEmail.
Proof.
  intros <-. rewrite calculateDishNumbers_ok. apply numbersOf_rows.
Qed.

(** C5.  Numbers are not kept across a resubmission.  In a cycle without
    records yet, A submits two dishes and is told 1 and 2; B submits one
    dish later and is told 3; A then submits two dishes again, which
    updates A's record and stamps it with the time of the resubmission,
    later than B's: A is told 2 and 3, and from then on B's dish is
    number 1. *)
Theorem resubmission_renumbers (env : Env) (ioA ioB ioA' : SubmitIO) (a b : string)
    (reqA reqB reqA' : PedidoBody) (cycleDate : string) (st0 : Store) :
  wellKeyed st0 ->
  cycleRows st0 cycleDate = [] ->
  a <> b ->
  goesThrough env ioA a reqA -> inCycle env ioA cycleDate -> dishCount reqA = 2%nat ->
  goesThrough env ioB b reqB -> inCycle env ioB cycleDate -> dishCount reqB = 1%nat ->
  goesThrough env ioA' a reqA' -> inCycle env ioA' cycleDate -> dishCount reqA' = 2%nat ->
  String.ltb (stampOf env ioA) (stampOf env ioB) = true ->
  String.ltb (stampOf env ioB) (stampOf env ioA') = true ->
  let run1 := postPedido env ioA a reqA st0 in
  let run2 := postPedido env ioB b reqB (snd run1) in
  let run3 := postPedido env ioA' a reqA' (snd run2) in
  fst run1 = mkResponse 200 (OrderSaved (savedMessage created [1; 2]%nat) created [1; 2]%nat 2)
  /\ fst run2 = mkResponse 200 (OrderSaved (savedMessage created [3]%nat) created [3]%nat 1)
  /\ fst run3 = mkResponse 200 (OrderSaved (savedMessage updated [2; 3]%nat) updated [2; 3]%nat 2)
  /\ (forall now : Z,
        getCycleDate env (getArgTime env now) = cycleDate ->
        calculateDishNumbers env now None (snd run3) b = [1]%nat
        /\ calculateDishNumbers env now None (snd run3) a = [2; 3]%nat).
Proof.
  intros Hwk H0 Hab (Ha1 & Hv1 & Hl1 & Hw1 & Hq1) (Hc1 & Hn1) D1
    (Ha2 & Hv2 & Hl2 & Hw2 & Hq2) (Hc2 & Hn2) D2
    (Ha3 & Hv3 & Hl3 & Hw3 & Hq3) (Hc3 & Hn3) D3 T12 T23 run1 run2 run3.
  subst run3 run2 run1.
  assert (Eab : String.eqb a b = false) by (apply String.eqb_neq; exact Hab).
  assert (Eba : String.eqb b a = false) by (rewrite String.eqb_sym; exact Eab).
  (* first submission of a *)
  rewrite (postPedido_accepted env ioA a reqA st0 Ha1 Hv1 Hw1). cbv zeta.
  assert (R0 : recordsOf st0 a (cycleOf env ioA) = [])
    by (rewrite Hc1, recordsOf_cycleRows, H0; reflexivity).
  rewrite (written_created env ioA a reqA st0 R0). cbn [fst snd].
  set (rowA := mkRow (nextId st0) (writtenData env ioA a reqA)).
  set (st1 := mkStore (rows st0 ++ [rowA]) (nextId st0 + 1)).
  assert (FA : Supabase.hasFecha cycleDate rowA = true).
  { unfold Supabase.hasFecha, rowA. cbn. rewrite Hc1. apply String.eqb_refl. }
  assert (C1 : cycleRows st1 cycleDate = [rowA]).
  { unfold st1. rewrite cycleRows_insert, H0, FA. reflexivity. }
  assert (LA : length (dishesOfRow rowA) = 2%nat)
    by (unfold rowA; rewrite dishesOfRow_written; exact D1).
  assert (N1 : calculateDishNumbers env (clockNumbers ioA) (faultQuery ioA) st1 a
               = [1; 2]%nat).
  { rewrite Hq1, (numbers_in_cycle env _ st1 a cycleDate Hn1), C1.
    cbn [Supabase.orderByTimestamp fold_right Supabase.insertByTimestamp rowNumbers].
    rewrite LA. replace (email rowA) with a by reflexivity.
    rewrite String.eqb_refl. reflexivity. }
  rewrite N1. split; [reflexivity|].
  (* submission of b *)
  rewrite (postPedido_accepted env ioB b reqB st1 Ha2 Hv2 Hw2). cbv zeta.
  assert (R1 : recordsOf st1 b (cycleOf env ioB) = []).
  { rewrite Hc2, recordsOf_cycleRows, C1. cbn [List.filter].
    unfold Supabase.hasEmail. replace (email rowA) with a by reflexivity.
    rewrite Eab. reflexivity. }
  rewrite (written_created env ioB b reqB st1 R1). cbn [fst snd].
  set (rowB := mkRow (nextId st1) (writtenData env ioB b reqB)).
  set (st2 := mkStore (rows st1 ++ [rowB]) (nextId st1 + 1)).
  assert (FB : Supabase.hasFecha cycleDate rowB = true).
  { unfold Supabase.hasFecha, rowB. cbn. rewrite Hc2. apply String.eqb_refl. }
  assert (C2 : cycleRows st2 cycleDate = [rowA; rowB]).
  { unfold st2. rewrite cycleRows_insert, C1, FB. reflexivity. }
  assert (LB : length (dishesOfRow rowB) = 1%nat)
    by (unfold rowB; rewrite dishesOfRow_written; exact D2).
  assert (TAB : String.leb (timestamp rowA) (timestamp rowB) = true)
    by (unfold rowA, rowB; rewrite !timestamp_written; apply ltb_leb, T12).
  assert (N2 : calculateDishNumbers env (clockNumbers ioB) (faultQuery ioB) st2 b
               = [3]%nat).
  { rewrite Hq2, (numbers_in_cycle env _ st2 b cycleDate Hn2), C2.
    cbn [Supabase.orderByTimestamp fold_right Supabase.insertByTimestamp].
    rewrite TAB. cbn [rowNumbers]. rewrite LA, LB.
    replace (email rowA) with a by reflexivity.
    replace (email rowB) with b by reflexivity.
    rewrite Eab, String.eqb_refl. reflexivity. }
  rewrite N2. split; [reflexivity|].
  (* resubmission of a *)
  rewrite (postPedido_accepted env ioA' a reqA' st2 Ha3 Hv3 Hw3). cbv zeta.
  assert (R2 : recordsOf st2 a (cycleOf env ioA') = [rowA]).
  { rewrite Hc3, recordsOf_cycleRows, C2. cbn [List.filter].
    unfold Supabase.hasEmail. replace (email rowA) with a by reflexivity.
    replace (email rowB) with b by reflexivity.
    rewrite String.eqb_refl, Eba. reflexivity. }
  rewrite (written_updated env ioA' a reqA' st2 rowA Hl3 R2). cbn [fst snd].
  set (rowA' := mkRow (nextId st0) (writtenData env ioA' a reqA')).
  set (st3 := mkStore _ _).
  assert (C3 : cycleRows st3 cycleDate = [rowA'; rowB]).
  { unfold st3, cycleRows. cbn [rows st2 st1]. rewrite !map_app.
    rewrite replaceAt_below by apply Hwk. cbn [map].
    unfold Supabase.replaceAt at 1 2, Supabase.hasId. cbn [id rowA rowB st1 nextId].
    rewrite Z.eqb_refl.
    replace (nextId st0 + 1 =? nextId st0) with false by (symmetry; apply Z.eqb_neq; lia).
    rewrite !List.filter_app. fold (cycleRows st0 cycleDate). rewrite H0.
    cbn [List.filter app]. fold rowA' rowB. rewrite FB.
    replace (Supabase.hasFecha cycleDate rowA') with true; [reflexivity|].
    unfold Supabase.hasFecha, rowA'. cbn. rewrite Hc3. symmetry. apply String.eqb_refl. }
  assert (LA' : length (dishesOfRow rowA') = 2%nat)
    by (unfold rowA'; rewrite dishesOfRow_written; exact D3).
  assert (TBA : String.leb (timestamp rowA') (timestamp rowB) = false)
    by (unfold rowA', rowB; rewrite !timestamp_written; apply ltb_not_leb, T23).
  assert (N3 : forall now, getCycleDate env (getArgTime env now) = cycleDate ->
               calculateDishNumbers env now None st3 b = [1]%nat
               /\ calculateDishNumbers env now None st3 a = [2; 3]%nat).
  { intros now Hnow. rewrite !(numbers_in_cycle env now st3 _ cycleDate Hnow), C3.
    cbn [Supabase.orderByTimestamp fold_right Supabase.insertByTimestamp].
    rewrite TBA. cbn [rowNumbers]. rewrite LA', LB.
    replace (email rowA') with a by reflexivity.
    replace (email rowB) with b by reflexivity.
    rewrite Eab, Eba, !String.eqb_refl. split; reflexivity. }
  rewrite Hq3. destruct (N3 _ Hn3) as [_ ->]. split; [reflexivity | exact N3].
Qed.

Lemma resubmission_renumbers_witness :
  let env := mkEnv 0 defaultAdmins in
  let reqA := mkPedidoBody (Some "Ana") (Some "Tortilla de papa") None
                (Some "Ensalada César") in
  let reqB := mkPedidoBody (Some "Beto") (Some "Pastel de papa") None None in
  let reqA' := mkPedidoBody (Some "Ana") (Some "Tarta - pollo")
                 (Some "Tarta - calabaza") None in
  let run1 := postPedido env (smoothAt monday_14_05) "ana@x.com" reqA
                (mkStore [sampleOld] 8) in
  let run2 := postPedido env (smoothAt monday_14_06) "beto@x.com" reqB (snd run1) in
  let run3 := postPedido env (smoothAt monday_14_07) "ana@x.com" reqA' (snd run2) in
  fst run1 = mkResponse 200 (OrderSaved (savedMessage created [1; 2]%nat) created [1; 2]%nat 2)
  /\ fst run2 = mkResponse 200 (OrderSaved (savedMessage created [3]%nat) created [3]%nat 1)
  /\ fst run3 = mkResponse 200 (OrderSaved (savedMessage updated [2; 3]%nat) updated [2; 3]%nat 2)
  /\ (forall now : Z,
        getCycleDate env (getArgTime env now) = "2024-01-16" ->
        calculateDishNumbers env now None (snd run3) "beto@x.com" = [1]%nat
        /\ calculateDishNumbers env now None (snd run3) "ana@x.com" = [2; 3]%nat).
Proof.
  apply (resubmission_renumbers (mkEnv 0 defaultAdmins) (smoothAt monday_14_05)
           (smoothAt monday_14_06) (smoothAt monday_14_07) "ana@x.com" "beto@x.com"
           (mkPedidoBody (Some "Ana") (Some "Tortilla de papa") None
              (Some "Ensalada César"))
           (mkPedidoBody (Some "Beto") (Some "Pastel de papa") None None)
           (mkPedidoBody (Some "Ana") (Some "Tarta - pollo")
              (Some "Tarta - calabaza") None)
           "2024-01-16" (mkStore [sampleOld] 8)).
  - split.
    + constructor; [intros [] | constructor].
    + constructor; [reflexivity | constructor].
  - reflexivity.
  - discriminate.
  - split; [reflexivity|]. split; [|repeat split].
    split; [exists "Ana" | exists "Tortilla de papa"];
      (split; [reflexivity | discriminate]).
  - split; vm_compute; reflexivity.
  - reflexivity.
  - split; [reflexivity|]. split; [|repeat split].
    split; [exists "Beto" | exists "Pastel de papa"];
      (split; [reflexivity | discriminate]).
  - split; vm_compute; reflexivity.
  - reflexivity.
  - split; [reflexivity|]. split; [|repeat split].
    split; [exists "Ana" | exists "Tarta - pollo"];
      (split; [reflexivity | discriminate]).
  - split; vm_compute; reflexivity.
  - reflexivity.
  - vm_compute. reflexivity.
  - vm_compute. reflexivity.
Defined.

(** * Further properties *)

(** ** The clock, whatever the zone of the process *)

(** X1.  The access window does not depend on the time zone of the
    process: with the same administrators, [checkTimeRestriction] gives
    the same answer at the same instant under any two offsets. *)
Theorem checkTimeRestriction_zone_independent (env1 env2 : Env) (now : Z)
    (userEmail : string) :
  ADMIN_EMAILS env1 = ADMIN_EMAILS env2 ->
  checkTimeRestriction env1 now userEmail = checkTimeRestriction env2 now userEmail.
Proof.
  intros H. unfold checkTimeRestriction. rewrite H.
  destruct (includes (ADMIN_EMAILS env2) userEmail); [reflexivity|].
  rewrite !getDay_getArgTime, !getHours_getArgTime, !getMinutes_getArgTime.
  reflexivity.
Qed.

Lemma checkTimeRestriction_zone_independent_witness :
  checkTimeRestriction (mkEnv 0 defaultAdmins) monday_13_59 "ana@x.com"
  = checkTimeRestriction (mkEnv (5 * msPerHour) defaultAdmins) monday_13_59 "ana@x.com".
Proof.
  apply (checkTimeRestriction_zone_independent (mkEnv 0 defaultAdmins)
           (mkEnv (5 * msPerHour) defaultAdmins) monday_13_59 "ana@x.com").
  reflexivity.
Defined.

(** X2.  The clock of the server has a resolution of one second: two
    readings within the same second give the same [getArgTime], hence the
    same stored timestamp, and that timestamp has no milliseconds on the
    wall clock. *)
Theorem getArgTime_same_second (env : Env) (now1 now2 : Z) :
  now1 / msPerSecond = now2 / msPerSecond ->
  getArgTime env now1 = getArgTime env now2
  /\ toISOString (getArgTime env now1) = toISOString (getArgTime env now2)
  /\ msFromTime (LocalTime env (getArgTime env now1)) = 0.
Proof.
  intros H.
  assert (E : getArgTime env now1 = getArgTime env now2).
  { unfold getArgTime, buenosAiresOffsetAt. rewrite <- H.
    rewrite !Z.div_add by (unfold msPerSecond; lia). rewrite H. reflexivity. }
  split; [exact E|]. split; [rewrite E; reflexivity|].
  rewrite LocalTime_getArgTime. generalize (now1 + buenosAiresOffsetAt now1).
  intros wall. unfold msFromTime, msPerSecond. div_lia.
Qed.

Lemma getArgTime_same_second_witness :
  getArgTime (mkEnv 0 defaultAdmins) (monday_14_05 + 1)
  = getArgTime (mkEnv 0 defaultAdmins) (monday_14_05 + 999).
Proof.
  apply (getArgTime_same_second (mkEnv 0 defaultAdmins) (monday_14_05 + 1)
           (monday_14_05 + 999)).
  reflexivity.
Defined.

(** ** The cycle on a process in UTC *)

Lemma getCycleDate_utc_witness :
  let env := mkEnv 0 defaultAdmins in
  getCycleDate env (getArgTime env monday_14_00) = "2024-01-16"
  /\ getCycleDate env (getArgTime env monday_13_59) = "2024-01-15".
Proof.
  split.
  - rewrite (getCycleDate_utc (mkEnv 0 defaultAdmins)
               (getArgTime (mkEnv 0 defaultAdmins) monday_14_00) eq_refl).
    vm_compute. reflexivity.
  - rewrite (getCycleDate_utc (mkEnv 0 defaultAdmins)
               (getArgTime (mkEnv 0 defaultAdmins) monday_13_59) eq_refl).
    vm_compute. reflexivity.
Defined.

(** X4.  On a process in UTC the cycle does not change at midnight: a time
    from 14:00 on and a time of the next day before 14:00 are in the same
    cycle, the date of that next day. *)
Theorem cycle_spans_midnight (env : Env) (t1 t2 : Z) :
  procOffset env = 0 ->
  14 <= getHours env t1 ->
  getHours env t2 < 14 ->
  Day t2 = Day t1 + 1 ->
  getCycleDate env t1 = getCycleDate env t2
  /\ getCycleDate env t2 = isoDate (civilFromDays (Day t2)).
Proof.
  intros H0 H1 H2 Hd. rewrite !getCycleDate_unfold.
  apply Z.leb_le in H1. rewrite H1.
  assert (E2 : (14 <=? getHours env t2) = false) by (apply Z.leb_gt; exact H2).
  rewrite E2. split; [|reflexivity].
  f_equal. f_equal. rewrite Hd. unfold Day, msPerDay. div_lia.
Qed.

Lemma cycle_spans_midnight_witness :
  let env := mkEnv 0 defaultAdmins in
  getCycleDate env (getArgTime env monday_14_05)
  = getCycleDate env (getArgTime env tuesday_10_15).
Proof.
  apply (cycle_spans_midnight (mkEnv 0 defaultAdmins)
           (getArgTime (mkEnv 0 defaultAdmins) monday_14_05)
           (getArgTime (mkEnv 0 defaultAdmins) tuesday_10_15)).
  - reflexivity.
  - vm_compute. discriminate.
  - vm_compute. reflexivity.
  - vm_compute. reflexivity.
Defined.

(** ** What the writing routes do to the table *)

Lemma filter_implied {A : Type} (P Q : A -> bool) (l : list A) :
  (forall x, In x l -> P x = true -> Q x = true) ->
  List.filter P (List.filter Q l) = List.filter P l.
Proof.
  induction l as [|x l IH]; intros H; [reflexivity|].
  cbn [List.filter].
  assert (IH' : List.filter P (List.filter Q l) = List.filter P l)
    by (apply IH; intros y Hy; apply H; right; exact Hy).
  destruct (P x) eqn:EP.
  - rewrite (H x (or_introl eq_refl) EP). cbn [List.filter]. rewrite EP, IH'.
    reflexivity.
  - destruct (Q x); cbn [List.filter]; rewrite ?EP; exact IH'.
Qed.

(** Deleting the records of one identity in one cycle leaves the records
    of any other identity or cycle as they are. *)
Lemma recordsOf_delete_other (st : Store) (userEmail cycleDate u' c' : string) (n : Z) :
  u' <> userEmail \/ c' <> cycleDate ->
  recordsOf
    (mkStore (List.filter
                (fun r => negb (Supabase.hasEmail userEmail r
                                && Supabase.hasFecha cycleDate r))
                (rows st)) n)
    u' c'
  = recordsOf st u' c'.
Proof.
  intros Hne. rewrite !recordsOf_filter. cbn [rows]. apply filter_implied.
  intros r _ Hr. apply andb_true_iff in Hr as [He Hf].
  unfold Supabase.hasEmail, Supabase.hasFecha in *.
  apply String.eqb_eq in He, Hf. apply negb_true_iff, andb_false_iff.
  destruct Hne as [Hne | Hne]; [left | right]; apply String.eqb_neq; congruence.
Qed.

(** X5.  A submission is answered 200 exactly when it is let in, its body
    is valid and its write succeeds.  With 200 the table is the written
    one; with any other answer the body says [success: false] and the
    table is untouched: nothing is written by a request that is turned
    away, invalid, or whose write fails. *)
Theorem postPedido_outcome (env : Env) (io : SubmitIO) (userEmail : string)
    (req : PedidoBody) (st : Store) :
  let run := postPedido env io userEmail req st in
  (status (fst run) = 200
   <-> allowed (checkTimeRestriction env (clockCheck io) userEmail) = true
       /\ validBody req /\ faultWrite io = None)
  /\ (status (fst run) = 200 ->
      success (body (fst run)) = true
      /\ snd run = fst (written env io userEmail req st))
  /\ (status (fst run) <> 200 ->
      success (body (fst run)) = false /\ snd run = st).
Proof.
  cbv zeta.
  assert (Hok : allowed (checkTimeRestriction env (clockCheck io) userEmail) = true
                /\ validBody req /\ faultWrite io = None ->
                postPedido env io userEmail req st
                = (mkResponse 200
                     (OrderSaved
                        (savedMessage (snd (written env io userEmail req st))
                           (calculateDishNumbers env (clockNumbers io) (faultQuery io)
                              (fst (written env io userEmail req st)) userEmail))
                        (snd (written env io userEmail req st))
                        (calculateDishNumbers env (clockNumbers io) (faultQuery io)
                           (fst (written env io userEmail req st)) userEmail)
                        (length
                           (calculateDishNumbers env (clockNumbers io) (faultQuery io)
                              (fst (written env io userEmail req st)) userEmail))),
                   fst (written env io userEmail req st))).
  { intros (Ha & Hv & Hw). apply (postPedido_accepted env io userEmail req st Ha Hv Hw). }
  split; [|split].
  - split; [apply postPedido_200|]. intros H. rewrite (Hok H). reflexivity.
  - intros H. apply postPedido_200 in H. rewrite (Hok H). split; reflexivity.
  - unfold postPedido.
    destruct (allowed (checkTimeRestriction env (clockCheck io) userEmail));
      cbn [negb]; [|intros _; split; reflexivity].
    destruct (negb (truthy (bodyNombre req)) || _); [intros _; split; reflexivity|].
    destruct (negb (truthy (bodyPlato1 req))); [intros _; split; reflexivity|].
    destruct (faultWrite io) as [e|].
    + destruct (data (Supabase.selectSingle _ _ _ _)); intros _; split; reflexivity.
    + destruct (data (Supabase.selectSingle _ _ _ _)); cbn; intros H;
        exfalso; apply H; reflexivity.
Qed.

(** An invalid body, a closed window and a failing write, on Monday. *)
Lemma postPedido_outcome_witness :
  let env := mkEnv 0 defaultAdmins in
  let st := mkStore [sampleOld] 8 in
  let good := mkPedidoBody (Some "Ana") (Some "Tortilla de papa") None None in
  snd (postPedido env (smoothAt monday_14_05) "ana@x.com"
         (mkPedidoBody (Some "  ") (Some "Tortilla de papa") None None) st) = st
  /\ snd (postPedido env (smoothAt monday_13_59) "ana@x.com" good st) = st
  /\ snd (postPedido env
            (mkSubmitIO monday_14_05 monday_14_05 monday_14_05 monday_14_05
               None (Some storeDown) None) "ana@x.com" good st) = st.
Proof.
  split; [|split].
  - apply (postPedido_outcome (mkEnv 0 defaultAdmins) (smoothAt monday_14_05)
             "ana@x.com" (mkPedidoBody (Some "  ") (Some "Tortilla de papa") None None)
             (mkStore [sampleOld] 8)).
    vm_compute. discriminate.
  - apply (postPedido_outcome (mkEnv 0 defaultAdmins) (smoothAt monday_13_59)
             "ana@x.com" (mkPedidoBody (Some "Ana") (Some "Tortilla de papa") None None)
             (mkStore [sampleOld] 8)).
    vm_compute. discriminate.
  - apply (postPedido_outcome (mkEnv 0 defaultAdmins)
             (mkSubmitIO monday_14_05 monday_14_05 monday_14_05 monday_14_05
                None (Some storeDown) None)
             "ana@x.com" (mkPedidoBody (Some "Ana") (Some "Tortilla de papa") None None)
             (mkStore [sampleOld] 8)).
    vm_compute. discriminate.
Defined.

(** X6.  A cancellation is answered 200 exactly when the identity is let
    in and the delete succeeds.  It then removes every record of the
    identity in the cycle and nothing else: the other rows stay, in their
    order, and no key is used up.  With any other answer the table is
    untouched. *)
Theorem deletePedido_outcome (env : Env) (clockCycle clockCheck : Z)
    (fault : option StoreError) (userEmail : string) (st : Store) :
  let run := deletePedido env clockCycle clockCheck fault userEmail st in
  let cycleDate := getCycleDate env (getArgTime env clockCycle) in
  (status (fst run) = 200
   <-> allowed (checkTimeRestriction env clockCheck userEmail) = true /\ fault = None)
  /\ (status (fst run) = 200 ->
      rows (snd run)
      = List.filter (fun r : Row => negb (String.eqb (email r) userEmail
                                    && String.eqb (fecha r) cycleDate)) (rows st)
      /\ nextId (snd run) = nextId st
      /\ recordsOf (snd run) userEmail cycleDate = []
      /\ forall u' c' : string,
           u' <> userEmail \/ c' <> cycleDate ->
           recordsOf (snd run) u' c' = recordsOf st u' c')
  /\ (status (fst run) <> 200 ->
      success (body (fst run)) = false /\ snd run = st).
Proof.
  cbv zeta. unfold deletePedido.
  destruct (allowed (checkTimeRestriction env clockCheck userEmail)); cbn [negb].
  - destruct fault as [e|]; cbn [Supabase.delete Supabase.failed error fst snd status].
    + split; [split; [discriminate | intros [_ H]; discriminate H]|].
      split; [discriminate|]. intros _. split; reflexivity.
    + split; [split; [intros _; split; reflexivity | reflexivity]|].
      split; [|intros H; exfalso; apply H; reflexivity].
      intros _. cbn [body rows nextId]. split; [reflexivity|]. split; [reflexivity|].
      split.
      * pose proof (delete_records st userEmail
                      (getCycleDate env (getArgTime env clockCycle))) as H.
        exact H.
      * intros u' c' Hne. apply recordsOf_delete_other, Hne.
  - cbn [fst snd status body success].
    split; [split; [discriminate | intros [H _]; discriminate H]|].
    split; [discriminate|]. intros _. split; reflexivity.
Qed.

Lemma deletePedido_outcome_witness :
  let env := mkEnv 0 defaultAdmins in
  let st := mkStore [sampleOld; sampleAna; sampleBeto] 8 in
  rows (snd (deletePedido env monday_14_07 monday_14_07 None "ana@x.com" st))
  = [sampleOld; sampleBeto].
Proof.
  pose proof (deletePedido_outcome (mkEnv 0 defaultAdmins) monday_14_07 monday_14_07
                None "ana@x.com" (mkStore [sampleOld; sampleAna; sampleBeto] 8)) as H.
  cbv zeta in H. destruct H as (_ & H & _).
  destruct H as (H & _); [vm_compute; reflexivity|].
  cbv zeta. rewrite H. vm_compute. reflexivity.
Defined.

(** X7.  Administrators write at any time: whatever the readings of the
    clock, a valid submission of an administrator is answered 200 when its
    write succeeds, and so is a cancellation when its delete succeeds. *)
Theorem admin_writes_any_time (env : Env) (io : SubmitIO) (clockCycle clockCheck : Z)
    (userEmail : string) (req : PedidoBody) (st : Store) :
  In userEmail (ADMIN_EMAILS env) ->
  (validBody req -> faultWrite io = None ->
   status (fst (postPedido env io userEmail req st)) = 200)
  /\ status (fst (deletePedido env clockCycle clockCheck None userEmail st)) = 200.
Proof.
  intros H. apply includes_In in H.
  assert (Ha : forall now, allowed (checkTimeRestriction env now userEmail) = true)
    by (intros now; unfold checkTimeRestriction; rewrite H; reflexivity).
  split.
  - intros Hv Hw.
    rewrite (postPedido_accepted env io userEmail req st (Ha _) Hv Hw). reflexivity.
  - unfold deletePedido. rewrite Ha. reflexivity.
Qed.

(** An administrator on Saturday at 15:00. *)
Lemma admin_writes_any_time_witness :
  let env := mkEnv 0 defaultAdmins in
  status (fst (deletePedido env saturday_15_00 saturday_15_00 None
                 "leandro.binetti@gmail.com" (mkStore [sampleOld] 8))) = 200.
Proof.
  apply (admin_writes_any_time (mkEnv 0 defaultAdmins) (smoothAt saturday_15_00)
           saturday_15_00 saturday_15_00 "leandro.binetti@gmail.com"
           (mkPedidoBody None None None None) (mkStore [sampleOld] 8)).
  simpl. tauto.
Defined.

(** ** Invariants of the table *)

(** What a submission does to the table: nothing, or its write. *)
Lemma postPedido_table (env : Env) (io : SubmitIO) (userEmail : string)
    (req : PedidoBody) (st : Store) :
  snd (postPedido env io userEmail req st) = st
  \/ snd (postPedido env io userEmail req st) = fst (written env io userEmail req st).
Proof.
  unfold postPedido, written.
  destruct (allowed (checkTimeRestriction env (clockCheck io) userEmail));
    cbn [negb]; [|left; reflexivity].
  destruct (negb (truthy (bodyNombre req)) || _); [left; reflexivity|].
  destruct (negb (truthy (bodyPlato1 req))); [left; reflexivity|].
  fold (cycleOf env io). fold (writtenData env io userEmail req).
  destruct (faultWrite io) as [e|];
    destruct (data (Supabase.selectSingle _ _ _ _)); cbn;
    first [left; reflexivity | right; reflexivity].
Qed.

Lemma deletePedido_table (env : Env) (clockCycle clockCheck : Z)
    (fault : option StoreError) (userEmail : string) (st : Store) :
  snd (deletePedido env clockCycle clockCheck fault userEmail st) = st
  \/ snd (deletePedido env clockCycle clockCheck fault userEmail st)
     = mkStore (List.filter
                  (fun r => negb (Supabase.hasEmail userEmail r
                                  && Supabase.hasFecha
                                       (getCycleDate env (getArgTime env clockCycle)) r))
                  (rows st)) (nextId st).
Proof.
  unfold deletePedido.
  destruct (allowed (checkTimeRestriction env clockCheck userEmail));
    cbn [negb]; [|left; reflexivity].
  destruct fault; cbn; [left | right]; reflexivity.
Qed.

Lemma wellKeyed_written (env : Env) (io : SubmitIO) (userEmail : string)
    (req : PedidoBody) (st : Store) :
  wellKeyed st -> wellKeyed (fst (written env io userEmail req st)).
Proof.
  intros H. unfold written.
  destruct (data (Supabase.selectSingle _ _ _ _)); cbn [fst].
  - apply wellKeyed_update, H.
  - apply wellKeyed_insert, H.
Qed.

Lemma NoDup_map_filter {A B : Type} (f : A -> B) (P : A -> bool) (l : list A) :
  List.NoDup (map f l) -> List.NoDup (map f (List.filter P l)).
Proof.
  induction l as [|x l IH]; intros H; [constructor|].
  cbn [map] in H. apply List.NoDup_cons_iff in H as [Hx H].
  cbn [List.filter]. destruct (P x); [|apply IH, H].
  cbn [map]. constructor; [|apply IH, H].
  intros Hin. apply Hx. apply in_map_iff in Hin as (y & Hy & Hin).
  apply in_map_iff. exists y. split; [exact Hy|].
  apply filter_In in Hin. apply Hin.
Qed.

Lemma wellKeyed_filter (st : Store) (P : Row -> bool) :
  wellKeyed st -> wellKeyed (mkStore (List.filter P (rows st)) (nextId st)).
Proof.
  intros [Hnd Hlt]. split; cbn [rows nextId].
  - apply NoDup_map_filter, Hnd.
  - apply List.Forall_forall. intros r Hr. apply filter_In in Hr as [Hr _].
    rewrite List.Forall_forall in Hlt. apply Hlt, Hr.
Qed.

(** X8.  The routes keep the keys of the table distinct and below the next
    key, whatever the request, the readings of the clock and the failures
    of the store. *)
Theorem routes_keep_keys (env : Env) (io : SubmitIO) (clockCycle clockCheck : Z)
    (fault : option StoreError) (userEmail : string) (req : PedidoBody) (st : Store) :
  wellKeyed st ->
  wellKeyed (snd (postPedido env io userEmail req st))
  /\ wellKeyed (snd (deletePedido env clockCycle clockCheck fault userEmail st)).
Proof.
  intros H. split.
  - destruct (postPedido_table env io userEmail req st) as [-> | ->];
      [exact H | apply wellKeyed_written, H].
  - destruct (deletePedido_table env clockCycle clockCheck fault userEmail st)
      as [-> | ->]; [exact H | apply wellKeyed_filter, H].
Qed.

Lemma sampleStore_wellKeyed : wellKeyed (mkStore [sampleOld; sampleAna; sampleBeto] 8).
Proof.
  split; cbn [rows nextId map].
  - repeat constructor; cbn; intuition discriminate.
  - repeat constructor.
Qed.

Lemma routes_keep_keys_witness :
  let env := mkEnv 0 defaultAdmins in
  let req := mkPedidoBody (Some "Caro") (Some "Tarta - pollo") None None in
  wellKeyed (snd (postPedido env (smoothAt monday_14_07) "caro@x.com" req
                    (mkStore [sampleOld; sampleAna; sampleBeto] 8))).
Proof.
  apply (routes_keep_keys (mkEnv 0 defaultAdmins) (smoothAt monday_14_07)
           monday_14_07 monday_14_07 None "caro@x.com"
           (mkPedidoBody (Some "Caro") (Some "Tarta - pollo") None None)
           (mkStore [sampleOld; sampleAna; sampleBeto] 8)).
  apply sampleStore_wellKeyed.
Defined.

Lemma map_fixed {A : Type} (f : A -> A) (l : list A) :
  (forall x, In x l -> f x = x) -> map f l = l.
Proof.
  induction l as [|x l IH]; intros H; [reflexivity|].
  cbn [map]. rewrite H by (left; reflexivity).
  rewrite IH by (intros y Hy; apply H; right; exact Hy). reflexivity.
Qed.

(** Updating a record of one identity and cycle with data of that identity
    and cycle leaves the records of the others as they are. *)
Lemma recordsOf_update_other (st : Store) (existing : Row) (orderData : OrderData)
    (u' c' : string) :
  List.NoDup (map id (rows st)) ->
  In existing (rows st) ->
  email existing = email orderData ->
  fecha existing = fecha orderData ->
  u' <> email orderData \/ c' <> fecha orderData ->
  recordsOf (mkStore (map (Supabase.replaceAt (id existing) orderData) (rows st))
               (nextId st)) u' c'
  = recordsOf st u' c'.
Proof.
  intros Hnd Hin He Hf Hne. rewrite !recordsOf_filter. cbn [rows].
  assert (Hmiss : forall d : OrderData, email d = email orderData ->
            fecha d = fecha orderData -> forall k,
            Supabase.hasEmail u' (mkRow k d) && Supabase.hasFecha c' (mkRow k d) = false).
  { intros d Hde Hdf k. unfold Supabase.hasEmail, Supabase.hasFecha. cbn [columns].
    apply andb_false_iff. rewrite Hde, Hdf.
    destruct Hne as [Hne | Hne]; [left | right]; apply String.eqb_neq; congruence. }
  assert (Hsame : forall r, In r (rows st) -> id r = id existing -> r = existing)
    by (intros r Hr E; eapply keys_determine; eassumption).
  rewrite filter_map_pointwise.
  - apply map_fixed. intros r Hr. apply filter_In in Hr as [Hr HP].
    unfold Supabase.replaceAt, Supabase.hasId.
    destruct (id r =? id existing) eqn:E; [|reflexivity].
    apply Z.eqb_eq in E. rewrite (Hsame r Hr E) in HP.
    destruct existing as [k d]. cbn [columns] in He, Hf.
    rewrite (Hmiss d He Hf k) in HP. discriminate HP.
  - intros r Hr. unfold Supabase.replaceAt, Supabase.hasId.
    destruct (id r =? id existing) eqn:E; [|reflexivity].
    apply Z.eqb_eq in E. rewrite (Hsame r Hr E).
    destruct existing as [k d]. cbn [columns id] in *.
    rewrite (Hmiss d He Hf k), (Hmiss orderData eq_refl eq_refl k). reflexivity.
Qed.

Lemma written_other (env : Env) (io : SubmitIO) (userEmail : string)
    (req : PedidoBody) (st : Store) (u' c' : string) :
  wellKeyed st ->
  u' <> userEmail \/ c' <> cycleOf env io ->
  recordsOf (fst (written env io userEmail req st)) u' c' = recordsOf st u' c'.
Proof.
  intros Hwk Hne. unfold written.
  destruct (data (Supabase.selectSingle _ _ _ _)) as [existing|] eqn:E; cbn [fst].
  - apply selectSingle_records in E.
    assert (Hin : In existing (recordsOf st userEmail (cycleOf env io)))
      by (rewrite E; left; reflexivity).
    apply recordsOf_In in Hin as (Hin & He & Hf).
    apply recordsOf_update_other; [apply Hwk | exact Hin | exact He | exact Hf | exact Hne].
  - rewrite recordsOf_insert.
    replace (Supabase.hasEmail u' _ && Supabase.hasFecha c' _) with false;
      [apply app_nil_r|].
    symmetry. unfold Supabase.hasEmail, Supabase.hasFecha. cbn.
    apply andb_false_iff.
    destruct Hne as [Hne | Hne]; [left | right]; apply String.eqb_neq; congruence.
Qed.

(** X9.  A submission touches the records of nobody else and of no other
    cycle: on a table with distinct keys, the records of any other
    identity, and those of the same identity in any other cycle, are the
    same after the submission as before. *)
Theorem postPedido_frame (env : Env) (io : SubmitIO) (userEmail : string)
    (req : PedidoBody) (st : Store) (u' c' : string) :
  wellKeyed st ->
  u' <> userEmail \/ c' <> cycleOf env io ->
  recordsOf (snd (postPedido env io userEmail req st)) u' c' = recordsOf st u' c'.
Proof.
  intros Hwk Hne.
  destruct (postPedido_table env io userEmail req st) as [-> | ->];
    [reflexivity | apply written_other; assumption].
Qed.

Lemma postPedido_frame_witness :
  let env := mkEnv 0 defaultAdmins in
  let req := mkPedidoBody (Some "Ana") (Some "Tarta - pollo") None None in
  let st := mkStore [sampleOld; sampleAna; sampleBeto] 8 in
  recordsOf (snd (postPedido env (smoothAt monday_14_07) "ana@x.com" req st))
    "ana@x.com" "2024-01-15"
  = recordsOf st "ana@x.com" "2024-01-15".
Proof.
  apply (postPedido_frame (mkEnv 0 defaultAdmins) (smoothAt monday_14_07) "ana@x.com"
           (mkPedidoBody (Some "Ana") (Some "Tarta - pollo") None None)
           (mkStore [sampleOld; sampleAna; sampleBeto] 8) "ana@x.com" "2024-01-15").
  - apply sampleStore_wellKeyed.
  - right. vm_compute. discriminate.
Defined.

Lemma filter_length_le {A : Type} (P Q : A -> bool) (l : list A) :
  (length (List.filter P (List.filter Q l)) <= length (List.filter P l))%nat.
Proof.
  induction l as [|x l IH]; [reflexivity|].
  cbn [List.filter]. destruct (Q x), (P x) eqn:E; cbn [List.filter length];
    rewrite ?E; cbn [length]; lia.
Qed.

(** X10.  At most one record per identity and cycle: on a table with
    distinct keys where this holds, it still holds after a submission
    whose lookup does not fail, and after a cancellation. *)
Theorem routes_keep_one_record (env : Env) (io : SubmitIO) (clockCycle clockCheck : Z)
    (fault : option StoreError) (userEmail : string) (req : PedidoBody) (st : Store) :
  wellKeyed st ->
  oneRecordEach st ->
  (faultLookup io = None -> oneRecordEach (snd (postPedido env io userEmail req st)))
  /\ oneRecordEach (snd (deletePedido env clockCycle clockCheck fault userEmail st)).
Proof.
  intros Hwk H1. split.
  - intros Hl. destruct (postPedido_table env io userEmail req st) as [-> | ->];
      [exact H1|].
    intros u' c'.
    destruct (String.eqb u' userEmail) eqn:Eu, (String.eqb c' (cycleOf env io)) eqn:Ec.
    + apply String.eqb_eq in Eu, Ec. subst u' c'.
      destruct (written_records env io userEmail req st Hwk Hl (H1 _ _))
        as (_ & k & ->). reflexivity.
    + apply String.eqb_neq in Ec. rewrite written_other by (try assumption; right; exact Ec).
      apply H1.
    + apply String.eqb_neq in Eu. rewrite written_other by (try assumption; left; exact Eu).
      apply H1.
    + apply String.eqb_neq in Eu. rewrite written_other by (try assumption; left; exact Eu).
      apply H1.
  - destruct (deletePedido_table env clockCycle clockCheck fault userEmail st)
      as [-> | ->]; [exact H1|].
    intros u' c'. rewrite recordsOf_filter. cbn [rows].
    etransitivity; [apply filter_length_le|]. rewrite <- recordsOf_filter. apply H1.
Qed.

Lemma oneRecordEach_one (r : Row) (n : Z) : oneRecordEach (mkStore [r] n).
Proof.
  intros u c. rewrite recordsOf_filter. cbn [rows List.filter].
  destruct (_ && _); cbn [length]; lia.
Qed.

Lemma routes_keep_one_record_witness :
  let env := mkEnv 0 defaultAdmins in
  let req := mkPedidoBody (Some "Ana") (Some "Tarta - pollo") None None in
  oneRecordEach (snd (postPedido env (smoothAt monday_14_07) "ana@x.com" req
                        (mkStore [sampleAna] 2))).
Proof.
  apply (routes_keep_one_record (mkEnv 0 defaultAdmins) (smoothAt monday_14_07)
           monday_14_07 monday_14_07 None "ana@x.com"
           (mkPedidoBody (Some "Ana") (Some "Tarta - pollo") None None)
           (mkStore [sampleAna] 2)).
  - split; cbn [rows nextId map].
    + repeat constructor. intros [].
    + repeat constructor.
  - apply oneRecordEach_one.
  - reflexivity.
Defined.

(** ** A lookup that fails *)

Lemma getCurrent_none (env : Env) (clockCycle clockNumbers : Z)
    (faultQuery : option StoreError) (userEmail : string) (st : Store) :
  length (recordsOf st userEmail (getCycleDate env (getArgTime env clockCycle))) <> 1%nat ->
  getCurrent env clockCycle clockNumbers None faultQuery userEmail st
  = mkResponse 200 (CurrentOrder None).
Proof.
  intros H. unfold getCurrent, Supabase.selectSingle.
  fold (recordsOf st userEmail (getCycleDate env (getArgTime env clockCycle))).
  destruct (recordsOf st userEmail _) as [|r [|r' l]]; cbn in *;
    [reflexivity | congruence | reflexivity].
Qed.

(** X11.  The submission ignores a failed lookup.  When the identity has a
    record in the cycle and the lookup of a valid, accepted submission
    fails while its write succeeds, the submission is answered [created]
    and the table holds two records of the identity in the cycle.  From
    then on the current order is reported as absent, and every later
    submission in the cycle, with a lookup that works, inserts one more
    record. *)
Theorem failed_lookup_duplicates (env : Env) (io : SubmitIO) (userEmail : string)
    (req : PedidoBody) (st : Store) (existing : Row) (e : StoreError) :
  recordsOf st userEmail (cycleOf env io) = [existing] ->
  allowed (checkTimeRestriction env (clockCheck io) userEmail) = true ->
  validBody req ->
  faultLookup io = Some e ->
  faultWrite io = None ->
  let run := postPedido env io userEmail req st in
  (exists message dishNumbers totalPlatos,
      fst run = mkResponse 200 (OrderSaved message created dishNumbers totalPlatos))
  /\ recordsOf (snd run) userEmail (cycleOf env io)
     = [existing; mkRow (nextId st) (writtenData env io userEmail req)]
  /\ (forall (clockCycle clockNumbers : Z) (faultQuery : option StoreError),
        getCycleDate env (getArgTime env clockCycle) = cycleOf env io ->
        getCurrent env clockCycle clockNumbers None faultQuery userEmail (snd run)
        = mkResponse 200 (CurrentOrder None))
  /\ (forall (io' : SubmitIO) (req' : PedidoBody),
        cycleOf env io' = cycleOf env io ->
        faultLookup io' = None ->
        written env io' userEmail req' (snd run)
        = (mkStore (rows (snd run)
                    ++ [mkRow (nextId (snd run)) (writtenData env io' userEmail req')])
             (nextId (snd run) + 1),
           created)).
Proof.
  intros Hr Ha Hv Hl Hw. cbv zeta.
  rewrite (postPedido_accepted env io userEmail req st Ha Hv Hw). cbv zeta.
  assert (Hwr : written env io userEmail req st
                = (mkStore (rows st ++ [mkRow (nextId st) (writtenData env io userEmail req)])
                     (nextId st + 1), created)).
  { unfold written, Supabase.selectSingle. rewrite Hl. reflexivity. }
  rewrite Hwr. cbn [fst snd].
  assert (Hr2 : recordsOf (mkStore (rows st ++ [mkRow (nextId st)
                                                  (writtenData env io userEmail req)])
                             (nextId st + 1)) userEmail (cycleOf env io)
                = [existing; mkRow (nextId st) (writtenData env io userEmail req)]).
  { rewrite recordsOf_insert, Hr, writtenData_key. reflexivity. }
  split; [eexists _, _, _; reflexivity|]. split; [exact Hr2|]. split.
  - intros cc cn fq Hc. apply getCurrent_none. rewrite Hc, Hr2. discriminate.
  - intros io' req' Hc _. unfold written, Supabase.selectSingle.
    destruct (faultLookup io'); [reflexivity|].
    fold (recordsOf (mkStore (rows st ++ [mkRow (nextId st)
                                            (writtenData env io userEmail req)])
                       (nextId st + 1)) userEmail (cycleOf env io')).
    rewrite Hc, Hr2. reflexivity.
Qed.

Lemma failed_lookup_duplicates_witness :
  let env := mkEnv 0 defaultAdmins in
  let io := mkSubmitIO monday_14_07 monday_14_07 monday_14_07 monday_14_07
              (Some storeDown) None None in
  let req := mkPedidoBody (Some "Ana") (Some "Tarta - pollo") None None in
  let run := postPedido env io "ana@x.com" req (mkStore [sampleAna] 2) in
  recordsOf (snd run) "ana@x.com" "2024-01-16"
  = [sampleAna; mkRow 2 (writtenData env io "ana@x.com" req)].
Proof.
  pose proof (failed_lookup_duplicates (mkEnv 0 defaultAdmins)
                (mkSubmitIO monday_14_07 monday_14_07 monday_14_07 monday_14_07
                   (Some storeDown) None None)
                "ana@x.com" (mkPedidoBody (Some "Ana") (Some "Tarta - pollo") None None)
                (mkStore [sampleAna] 2) sampleAna storeDown) as H.
  cbv zeta in H. destruct H as (_ & H & _).
  - vm_compute. reflexivity.
  - reflexivity.
  - split; [exists "Ana" | exists "Tarta - pollo"]; (split; [reflexivity | discriminate]).
  - reflexivity.
  - reflexivity.
  - exact H.
Defined.

(** ** Round trips *)

Lemma calculateDishNumbers_cycle (env : Env) (now1 now2 : Z) (fault : option StoreError)
    (st : Store) (userEmail : string) :
  getCycleDate env (getArgTime env now1) = getCycleDate env (getArgTime env now2) ->
  calculateDishNumbers env now1 fault st userEmail
  = calculateDishNumbers env now2 fault st userEmail.
Proof. intros H. unfold calculateDishNumbers. rewrite H. reflexivity. Qed.

(** X12.  Reading back what was written.  After an accepted submission on
    a table with distinct keys and at most one record of the identity in
    the cycle, the current order of the identity in that cycle is the one
    submitted: the trimmed name, the three dishes (the empty string for an
    absent one), and the dish numbers the submission was told when both
    are numbered in that cycle with a store that answers alike. *)
Theorem submit_then_current (env : Env) (io : SubmitIO) (nowCycle nowNumbers : Z)
    (faultQuery' : option StoreError) (userEmail : string) (req : PedidoBody)
    (st : Store) :
  wellKeyed st ->
  (length (recordsOf st userEmail (cycleOf env io)) <= 1)%nat ->
  faultLookup io = None ->
  status (fst (postPedido env io userEmail req st)) = 200 ->
  getCycleDate env (getArgTime env nowCycle) = cycleOf env io ->
  let st' := snd (postPedido env io userEmail req st) in
  let current := getCurrent env nowCycle nowNumbers None faultQuery' userEmail st' in
  current
  = mkResponse 200
      (CurrentOrder
         (Some (mkOrderView (trim (default EmptyString (bodyNombre req)))
                  (Some (orEmpty (bodyPlato1 req))) (Some (orEmpty (bodyPlato2 req)))
                  (Some (orEmpty (bodyPlato3 req)))
                  (calculateDishNumbers env nowNumbers faultQuery' st' userEmail))))
  /\ (getCycleDate env (getArgTime env nowNumbers)
      = getCycleDate env (getArgTime env (clockNumbers io)) ->
      faultQuery' = faultQuery io ->
      exists message action,
        fst (postPedido env io userEmail req st)
        = mkResponse 200
            (OrderSaved message action
               (calculateDishNumbers env nowNumbers faultQuery' st' userEmail)
               (length (calculateDishNumbers env nowNumbers faultQuery' st' userEmail)))).
Proof.
  intros Hwk Hlen Hl H200 Hc. cbv zeta.
  apply postPedido_200 in H200 as (Ha & Hv & Hw).
  rewrite (postPedido_accepted env io userEmail req st Ha Hv Hw). cbv zeta. cbn [fst snd].
  destruct (written_records env io userEmail req st Hwk Hl Hlen) as (_ & k & Hr).
  set (st' := fst (written env io userEmail req st)) in *.
  split.
  - unfold getCurrent, Supabase.selectSingle. rewrite Hc.
    fold (recordsOf st' userEmail (cycleOf env io)). rewrite Hr. reflexivity.
  - intros Hn ->. eexists _, _.
    rewrite (calculateDishNumbers_cycle env _ _ _ _ _ Hn). reflexivity.
Qed.

Lemma submit_then_current_witness :
  let env := mkEnv 0 defaultAdmins in
  let req := mkPedidoBody (Some " Ana ") (Some "Tarta - pollo") None
               (Some "Ensalada César") in
  let st' := snd (postPedido env (smoothAt monday_14_07) "ana@x.com" req
                    (mkStore [sampleOld; sampleAna; sampleBeto] 8)) in
  getCurrent env tuesday_10_15 tuesday_10_15 None None "ana@x.com" st'
  = mkResponse 200
      (CurrentOrder
         (Some (mkOrderView "Ana" (Some "Tarta - pollo") (Some EmptyString)
                  (Some "Ensalada César") [2; 3]%nat))).
Proof.
  pose proof (submit_then_current (mkEnv 0 defaultAdmins) (smoothAt monday_14_07)
                tuesday_10_15 tuesday_10_15 None "ana@x.com"
                (mkPedidoBody (Some " Ana ") (Some "Tarta - pollo") None
                   (Some "Ensalada César"))
                (mkStore [sampleOld; sampleAna; sampleBeto] 8)
                sampleStore_wellKeyed) as H.
  cbv zeta in H. destruct H as (H & _).
  - vm_compute. lia.
  - reflexivity.
  - vm_compute. reflexivity.
  - vm_compute. reflexivity.
  - cbv zeta. rewrite H. vm_compute. reflexivity.
Defined.

Lemma filter_map_dropped {A : Type} (P : A -> bool) (f : A -> A) (l : list A) :
  (forall x, In x l -> f x = x \/ (P x = false /\ P (f x) = false)) ->
  List.filter P (map f l) = List.filter P l.
Proof.
  induction l as [|x l IH]; intros H; [reflexivity|].
  cbn [map List.filter].
  rewrite IH by (intros y Hy; apply H; right; exact Hy).
  destruct (H x (or_introl eq_refl)) as [-> | [-> ->]]; reflexivity.
Qed.

(** X13.  Cancelling undoes a submission.  On a table with distinct keys,
    after any submission by an identity followed by a successful
    cancellation by the same identity in the same cycle, the rows are
    those a cancellation alone would have left: the identity has no record
    in the cycle and every other row is as before. *)
Theorem submit_then_cancel (env : Env) (io : SubmitIO) (clockCycle clockCheck : Z)
    (userEmail : string) (req : PedidoBody) (st : Store) :
  wellKeyed st ->
  getCycleDate env (getArgTime env clockCycle) = cycleOf env io ->
  allowed (checkTimeRestriction env clockCheck userEmail) = true ->
  let st1 := snd (postPedido env io userEmail req st) in
  rows (snd (deletePedido env clockCycle clockCheck None userEmail st1))
  = rows (snd (deletePedido env clockCycle clockCheck None userEmail st))
  /\ recordsOf (snd (deletePedido env clockCycle clockCheck None userEmail st1))
       userEmail (cycleOf env io) = [].
Proof.
  intros Hwk Hc Ha. cbv zeta.
  assert (Hdel : forall s, snd (deletePedido env clockCycle clockCheck None userEmail s)
                 = mkStore (List.filter
                              (fun r => negb (Supabase.hasEmail userEmail r
                                              && Supabase.hasFecha (cycleOf env io) r))
                              (rows s)) (nextId s)).
  { intros s. unfold deletePedido. rewrite Ha, Hc. reflexivity. }
  rewrite !Hdel. cbn [rows]. split.
  - destruct (postPedido_table env io userEmail req st) as [-> | ->]; [reflexivity|].
    unfold written.
    destruct (data (Supabase.selectSingle _ _ _ _)) as [existing|] eqn:E; cbn [fst rows].
    + apply selectSingle_records in E.
      assert (Hin : In existing (recordsOf st userEmail (cycleOf env io)))
        by (rewrite E; left; reflexivity).
      apply recordsOf_In in Hin as (Hin & He & Hf).
      apply filter_map_dropped. intros r Hr.
      unfold Supabase.replaceAt, Supabase.hasId.
      destruct (id r =? id existing) eqn:Ei; [|left; reflexivity].
      right. apply Z.eqb_eq in Ei.
      assert (r = existing) by (eapply keys_determine; try eassumption; apply Hwk).
      subst r. unfold Supabase.hasEmail, Supabase.hasFecha. cbn [columns].
      rewrite He, Hf. cbn [writtenData email fecha]. rewrite !String.eqb_refl.
      split; reflexivity.
    + rewrite List.filter_app. cbn [List.filter].
      rewrite writtenData_key. cbn [negb]. apply app_nil_r.
  - pose proof (delete_records (snd (postPedido env io userEmail req st)) userEmail
                  (cycleOf env io)) as H.
    exact H.
Qed.

Lemma submit_then_cancel_witness :
  let env := mkEnv 0 defaultAdmins in
  let req := mkPedidoBody (Some "Caro") (Some "Tarta - pollo") None None in
  let st := mkStore [sampleOld; sampleAna; sampleBeto] 8 in
  let st1 := snd (postPedido env (smoothAt monday_14_07) "caro@x.com" req st) in
  rows (snd (deletePedido env tuesday_10_15 tuesday_10_15 None "caro@x.com" st1))
  = [sampleOld; sampleAna; sampleBeto].
Proof.
  pose proof (submit_then_cancel (mkEnv 0 defaultAdmins) (smoothAt monday_14_07)
                tuesday_10_15 tuesday_10_15 "caro@x.com"
                (mkPedidoBody (Some "Caro") (Some "Tarta - pollo") None None)
                (mkStore [sampleOld; sampleAna; sampleBeto] 8)
                sampleStore_wellKeyed) as H.
  cbv zeta in H. destruct H as (H & _).
  - vm_compute. reflexivity.
  - reflexivity.
  - cbv zeta. rewrite H. vm_compute. reflexivity.
Defined.

(** ** Numbers, record by record *)

Lemma rowNumbers_app (k : nat) (l1 l2 : list Row) (userEmail : string) :
  rowNumbers k (l1 ++ l2) userEmail
  = rowNumbers k l1 userEmail
    ++ rowNumbers (k + length (flat_map dishesOfRow l1)) l2 userEmail.
Proof.
  revert k. induction l1 as [|r l1 IH]; intros k; cbn [app rowNumbers flat_map length].
  - f_equal. lia.
  - rewrite IH, <- app_assoc, length_app. do 3 f_equal. lia.
Qed.

Lemma rowNumbers_none (k : nat) (l : list Row) (userEmail : string) :
  Forall (fun r : Row => email r <> userEmail) l -> rowNumbers k l userEmail = [].
Proof.
  intros H. revert k. induction H as [|r l Hr _ IH]; intros k; [reflexivity|].
  cbn [rowNumbers]. apply String.eqb_neq in Hr. rewrite Hr. apply IH.
Qed.

Lemma rowNumbers_single (before after : list Row) (r : Row) :
  Forall (fun x : Row => email x <> email r) before ->
  Forall (fun x : Row => email x <> email r) after ->
  rowNumbers 0 (before ++ r :: after) (email r)
  = seq (length (flat_map dishesOfRow before) + 1) (length (dishesOfRow r)).
Proof.
  intros Hb Ha. rewrite rowNumbers_app, (rowNumbers_none _ before) by exact Hb.
  cbn [app rowNumbers]. rewrite String.eqb_refl, (rowNumbers_none _ after) by exact Ha.
  rewrite app_nil_r. reflexivity.
Qed.

(** X14.  The numbers of an identity with one record are consecutive.
    When, in the sequence of the records of a cycle, exactly one record is
    of the identity, its dishes are numbered from the count of the dishes
    of the records before it, plus one, onwards; the identity gets as many
    numbers as its record has dishes. *)
Theorem numbers_consecutive (before after : list Row) (r : Row) :
  Forall (fun x : Row => email x <> email r) before ->
  Forall (fun x : Row => email x <> email r) after ->
  numbersOf (collectDishes (before ++ r :: after)) (email r)
  = seq (length (collectDishes before) + 1) (length (dishesOfRow r))
  /\ length (numbersOf (collectDishes (before ++ r :: after)) (email r))
     = length (dishesOfRow r).
Proof.
  intros Hb Ha. rewrite numbersOf_rows, (collectDishes_flat_map before).
  rewrite (rowNumbers_single before after r Hb Ha). split; [reflexivity|].
  apply length_seq.
Qed.

Lemma numbers_consecutive_witness :
  numbersOf (collectDishes [sampleAna; sampleBeto; sampleCaro]) "caro@x.com"
  = [4; 5; 6]%nat.
Proof.
  apply (numbers_consecutive [sampleAna; sampleBeto] [] sampleCaro).
  - repeat constructor; discriminate.
  - constructor.
Defined.

Lemma Permutation_filter_bool {A : Type} (P : A -> bool) (l l' : list A) :
  Permutation l l' -> Permutation (List.filter P l) (List.filter P l').
Proof.
  induction 1 as [|x l l' _ IH|x y l|l l' l'' _ IH1 _ IH2]; cbn [List.filter].
  - constructor.
  - destruct (P x); [apply perm_skip|]; exact IH.
  - destruct (P x), (P y); try reflexivity. apply perm_swap.
  - etransitivity; eassumption.
Qed.

Lemma filter_single_split {A : Type} (P : A -> bool) (l : list A) (x : A) :
  List.filter P l = [x] ->
  exists before after,
    l = before ++ x :: after
    /\ Forall (fun y => P y = false) before /\ Forall (fun y => P y = false) after.
Proof.
  induction l as [|y l IH]; cbn [List.filter]; [discriminate|].
  destruct (P y) eqn:E.
  - intros [= -> Hl]. exists [], l. split; [reflexivity|]. split; [constructor|].
    apply List.Forall_forall. intros z Hz.
    destruct (P z) eqn:Ez; [|reflexivity]. exfalso.
    assert (Hin : In z (List.filter P l)) by (apply filter_In; split; assumption).
    rewrite Hl in Hin. exact Hin.
  - intros H. destruct (IH H) as (before & after & -> & Hb & Ha).
    exists (y :: before), after. split; [reflexivity|]. split; [|exact Ha].
    constructor; assumption.
Qed.

(** X15.  What a submission is told.  On a table with distinct keys and at
    most one record of the identity in the cycle, an accepted submission
    filed and numbered in one cycle with a store that works is told
    consecutive numbers, as many as the body has dishes that are not
    blank: [totalPlatos] is that count.  A first dish made of white space
    passes validation and gets no number. *)
Theorem postPedido_numbers (env : Env) (io : SubmitIO) (userEmail : string)
    (req : PedidoBody) (cycleDate : string) (st : Store) :
  wellKeyed st ->
  (length (recordsOf st userEmail cycleDate) <= 1)%nat ->
  goesThrough env io userEmail req ->
  inCycle env io cycleDate ->
  let action := snd (written env io userEmail req st) in
  exists k : nat,
    fst (postPedido env io userEmail req st)
    = mkResponse 200
        (OrderSaved (savedMessage action (seq (k + 1) (dishCount req))) action
           (seq (k + 1) (dishCount req)) (dishCount req)).
Proof.
  intros Hwk Hlen (Ha & Hv & Hl & Hw & Hq) (Hc & Hn).
  rewrite (postPedido_accepted env io userEmail req st Ha Hv Hw). cbv zeta.
  rewrite <- Hc in Hlen.
  destruct (written_records env io userEmail req st Hwk Hl Hlen) as (_ & k & Hr).
  set (st' := fst (written env io userEmail req st)) in *.
  set (r := mkRow k (writtenData env io userEmail req)) in *.
  rewrite Hq, (numbers_in_cycle env _ st' userEmail cycleDate Hn).
  assert (Hf : List.filter (Supabase.hasEmail userEmail)
                 (Supabase.orderByTimestamp (cycleRows st' cycleDate)) = [r]).
  { apply Permutation_length_1_inv. rewrite <- Hr, Hc, recordsOf_cycleRows.
    apply Permutation_filter_bool. symmetry. apply orderByTimestamp_perm. }
  destruct (filter_single_split _ _ _ Hf) as (before & after & -> & Hb & Ha').
  assert (Hne : forall l, Forall (fun y => Supabase.hasEmail userEmail y = false) l ->
                Forall (fun x : Row => email x <> email r) l).
  { intros l H. eapply List.Forall_impl; [|exact H]. cbn. intros x Hx.
    apply String.eqb_neq. exact Hx. }
  assert (HN : rowNumbers 0 (before ++ r :: after) userEmail
               = seq (length (flat_map dishesOfRow before) + 1) (dishCount req)).
  { change userEmail with (email r).
    rewrite (rowNumbers_single before after r (Hne _ Hb) (Hne _ Ha')).
    unfold r. rewrite dishesOfRow_written. reflexivity. }
  exists (length (flat_map dishesOfRow before)).
  rewrite HN, length_seq. reflexivity.
Qed.

(** A first dish of two spaces: accepted, without a number. *)
Lemma postPedido_numbers_witness :
  let env := mkEnv 0 defaultAdmins in
  let req := mkPedidoBody (Some "Caro") (Some "  ") None None in
  fst (postPedido env (smoothAt monday_14_07) "caro@x.com" req
         (mkStore [sampleOld; sampleAna; sampleBeto] 8))
  = mkResponse 200 (OrderSaved "Pedido registrado correctamente" created [] 0).
Proof.
  destruct (postPedido_numbers (mkEnv 0 defaultAdmins) (smoothAt monday_14_07)
              "caro@x.com" (mkPedidoBody (Some "Caro") (Some "  ") None None)
              "2024-01-16" (mkStore [sampleOld; sampleAna; sampleBeto] 8)
              sampleStore_wellKeyed) as (k & H).
  - vm_compute. lia.
  - split; [reflexivity|]. split; [|repeat split].
    split; [exists "Caro" | exists "  "]; (split; [reflexivity | discriminate]).
  - split; vm_compute; reflexivity.
  - cbv zeta. rewrite H. reflexivity.
Defined.

(** ** Numbers after a cancellation *)

Lemma insertByTimestamp_head (r : Row) (l : list Row) :
  Forall (tsLe r) l -> Supabase.insertByTimestamp r l = r :: l.
Proof.
  intros H. destruct H as [|r' l Hr _]; [reflexivity|].
  cbn [Supabase.insertByTimestamp]. unfold tsLe in Hr. rewrite Hr. reflexivity.
Qed.

Lemma filter_insertByTimestamp (P : Row -> bool) (r : Row) (l : list Row) :
  Sorted tsLe l ->
  List.filter P (Supabase.insertByTimestamp r l)
  = if P r then Supabase.insertByTimestamp r (List.filter P l) else List.filter P l.
Proof.
  intros Hs. apply Sorted_StronglySorted in Hs; [|intros a b c; apply tsLe_trans].
  induction Hs as [|r' l Hs IH Hr']; [cbn; destruct (P r); reflexivity|].
  cbn [Supabase.insertByTimestamp].
  destruct (String.leb (timestamp r) (timestamp r')) eqn:E.
  - cbn [List.filter]. destruct (P r) eqn:EP; [|reflexivity].
    symmetry. apply insertByTimestamp_head.
    apply List.Forall_forall. intros x Hx.
    assert (Hx' : In x (r' :: l)).
    { cbn [List.filter] in Hx. destruct (P r'); [destruct Hx as [<- | Hx] |];
        [left; reflexivity | right; apply filter_In in Hx; apply Hx
        | right; apply filter_In in Hx; apply Hx]. }
    destruct Hx' as [<- | Hx']; [exact E|].
    rewrite List.Forall_forall in Hr'. eapply tsLe_trans; [exact E | apply Hr', Hx'].
  - cbn [List.filter]. rewrite IH.
    destruct (P r'), (P r); cbn [Supabase.insertByTimestamp]; rewrite ?E; reflexivity.
Qed.

(** Rows come back in the same order with or without the others. *)
Lemma filter_orderByTimestamp (P : Row -> bool) (l : list Row) :
  List.filter P (Supabase.orderByTimestamp l)
  = Supabase.orderByTimestamp (List.filter P l).
Proof.
  induction l as [|r l IH]; [reflexivity|].
  cbn [Supabase.orderByTimestamp fold_right]. fold (Supabase.orderByTimestamp l).
  rewrite filter_insertByTimestamp by apply orderByTimestamp_sorted.
  cbn [List.filter]. destruct (P r); [|exact IH].
  cbn [Supabase.orderByTimestamp fold_right].
  fold (Supabase.orderByTimestamp (List.filter P l)). rewrite IH. reflexivity.
Qed.

Lemma cycleRows_delete (st : Store) (userEmail cycleDate : string) (n : Z) :
  cycleRows
    (mkStore (List.filter
                (fun r => negb (Supabase.hasEmail userEmail r
                                && Supabase.hasFecha cycleDate r))
                (rows st)) n)
    cycleDate
  = List.filter (fun r => negb (Supabase.hasEmail userEmail r)) (cycleRows st cycleDate).
Proof.
  unfold cycleRows. cbn [rows]. induction (rows st) as [|r l IH]; [reflexivity|].
  cbn [List.filter].
  destruct (Supabase.hasEmail userEmail r) eqn:Ee, (Supabase.hasFecha cycleDate r) eqn:Ef;
    cbn [negb andb List.filter]; rewrite ?Ee, ?Ef; cbn [negb]; rewrite ?IH; reflexivity.
Qed.

Lemma dishesOfRow_notOf (userEmail : string) (r : Row) :
  List.filter (notOf userEmail) (dishesOfRow r)
  = if Supabase.hasEmail userEmail r then [] else dishesOfRow r.
Proof.
  pose proof (dishesOfRow_email r) as H. unfold Supabase.hasEmail.
  induction H as [|d l Hd _ IH]; [destruct (String.eqb _ _); reflexivity|].
  cbn [List.filter]. unfold notOf at 1. rewrite Hd, IH.
  destruct (String.eqb (email r) userEmail); reflexivity.
Qed.

Lemma collectDishes_without (userEmail : string) (l : list Row) :
  collectDishes (List.filter (fun r => negb (Supabase.hasEmail userEmail r)) l)
  = List.filter (notOf userEmail) (collectDishes l).
Proof.
  rewrite !collectDishes_flat_map. induction l as [|r l IH]; [reflexivity|].
  cbn [List.filter flat_map]. rewrite List.filter_app, dishesOfRow_notOf, <- IH.
  destruct (Supabase.hasEmail userEmail r); reflexivity.
Qed.

Lemma positionsFrom_cons (userEmail : string) (i : nat) (d : Dish) (l : list Dish) :
  positionsFrom userEmail i (d :: l)
  = (if String.eqb (dishEmail d) userEmail then [i] else [])
    ++ positionsFrom userEmail (S i) l.
Proof.
  unfold positionsFrom. cbn [length seq combine List.filter].
  unfold ownDish at 1. cbn [snd].
  destruct (String.eqb (dishEmail d) userEmail); reflexivity.
Qed.

Lemma positionsFrom_ge (userEmail : string) (i : nat) (l : list Dish) (n : nat) :
  In n (positionsFrom userEmail i l) -> (i <= n)%nat.
Proof. apply ownPositions_bounds. Qed.

Lemma countBelow_above (l : list nat) (n : nat) :
  (forall m, In m l -> (n <= m)%nat) -> countBelow l n = 0%nat.
Proof.
  intros H. unfold countBelow. induction l as [|m l IH]; [reflexivity|].
  cbn [List.filter].
  assert (E : (m <? n)%nat = false) by (apply Nat.ltb_ge, H; left; reflexivity).
  rewrite E. apply IH. intros k Hk. apply H. right. exact Hk.
Qed.

(** Without the dishes of [v], each number of [u] is lowered by the number
    of dishes of [v] before it. *)
Lemma positionsFrom_without (u v : string) (l : list Dish) (i j : nat) :
  u <> v ->
  (j <= i)%nat ->
  positionsFrom u j (List.filter (notOf v) l)
  = map (fun n => (n - (i - j) - countBelow (positionsFrom v i l) n)%nat)
      (positionsFrom u i l).
Proof.
  intros Huv. revert i j. induction l as [|d l IH]; intros i j Hij; [reflexivity|].
  cbn [List.filter]. rewrite !(positionsFrom_cons _ i).
  unfold notOf at 1.
  destruct (String.eqb (dishEmail d) v) eqn:Ev; cbn [negb].
  - assert (Eu : String.eqb (dishEmail d) u = false).
    { apply String.eqb_neq. apply String.eqb_eq in Ev. congruence. }
    rewrite Eu. cbn [app]. rewrite (IH (S i) j) by lia.
    apply map_ext_in. intros n Hn. apply positionsFrom_ge in Hn.
    unfold countBelow. cbn [List.filter].
    assert (E : (i <? n)%nat = true) by (apply Nat.ltb_lt; lia).
    rewrite E. cbn [length]. lia.
  - rewrite positionsFrom_cons. cbn [app].
    assert (Hmap : map (fun n => (n - (i - j)
                                  - countBelow (positionsFrom v (S i) l) n)%nat)
                     (positionsFrom u (S i) l)
                   = positionsFrom u (S j) (List.filter (notOf v) l)).
    { rewrite (IH (S i) (S j)) by lia. apply map_ext. intros n.
      replace (S i - S j)%nat with (i - j)%nat by lia. reflexivity. }
    destruct (String.eqb (dishEmail d) u); cbn [app map].
    + rewrite Hmap. f_equal.
      rewrite countBelow_above
        by (intros m Hm; apply positionsFrom_ge in Hm; lia).
      lia.
    + symmetry. exact Hmap.
Qed.

(** X16.  Numbers after somebody's cancellation.  When [v] cancels, the
    numbers of any other identity [u], computed again in the same cycle,
    are its former numbers, each lowered by the number of dishes of [v]
    that came before it: dishes after those of [v] move up, dishes before
    stay. *)
Theorem cancel_renumbers (env : Env) (clockCycle clockCheck now : Z) (u v : string)
    (st : Store) :
  allowed (checkTimeRestriction env clockCheck v) = true ->
  u <> v ->
  getCycleDate env (getArgTime env now) = getCycleDate env (getArgTime env clockCycle) ->
  let st' := snd (deletePedido env clockCycle clockCheck None v st) in
  calculateDishNumbers env now None st' u
  = map (fun n => (n - countBelow (calculateDishNumbers env now None st v) n)%nat)
      (calculateDishNumbers env now None st u)
  /\ calculateDishNumbers env now None st' v = [].
Proof.
  intros Ha Huv Hc. cbv zeta.
  assert (Hdel : snd (deletePedido env clockCycle clockCheck None v st)
                 = mkStore (List.filter
                              (fun r => negb (Supabase.hasEmail v r
                                              && Supabase.hasFecha
                                                   (getCycleDate env (getArgTime env now)) r))
                              (rows st)) (nextId st)).
  { unfold deletePedido. rewrite Ha, Hc. reflexivity. }
  rewrite Hdel, !calculateDishNumbers_ok.
  fold (cycleRows st (getCycleDate env (getArgTime env now))).
  match goal with
  | |- context [List.filter (Supabase.hasFecha ?c) (rows (mkStore ?l ?n))] =>
      change (List.filter (Supabase.hasFecha c) (rows (mkStore l n)))
        with (cycleRows (mkStore l n) c)
  end.
  rewrite cycleRows_delete, <- filter_orderByTimestamp, collectDishes_without.
  rewrite !numbersOf_ownPositions. unfold ownPositions.
  set (D := collectDishes _).
  fold (positionsFrom u 1 (List.filter (notOf v) D)).
  fold (positionsFrom v 1 (List.filter (notOf v) D)).
  fold (positionsFrom u 1 D). fold (positionsFrom v 1 D).
  split.
  - rewrite (positionsFrom_without u v D 1 1 Huv) by lia.
    apply map_ext. intros n. lia.
  - apply ownPositions_none. apply List.Forall_forall. intros d Hd.
    apply filter_In in Hd as [_ Hd]. unfold notOf in Hd.
    apply negb_true_iff, String.eqb_neq in Hd. exact Hd.
Qed.

(** Beto, second of three, cancels: Caro's dishes move from 4, 5, 6 to
    3, 4, 5 and Ana keeps 1 and 2. *)
Lemma cancel_renumbers_witness :
  let env := mkEnv 0 defaultAdmins in
  let st := mkStore [sampleOld; sampleAna; sampleBeto; sampleCaro] 8 in
  let st' := snd (deletePedido env tuesday_10_15 tuesday_10_15 None "beto@x.com" st) in
  calculateDishNumbers env tuesday_10_15 None st' "caro@x.com" = [3; 4; 5]%nat
  /\ calculateDishNumbers env tuesday_10_15 None st' "ana@x.com" = [1; 2]%nat.
Proof.
  split.
  - pose proof (cancel_renumbers (mkEnv 0 defaultAdmins) tuesday_10_15 tuesday_10_15
                  tuesday_10_15 "caro@x.com" "beto@x.com"
                  (mkStore [sampleOld; sampleAna; sampleBeto; sampleCaro] 8)
                  eq_refl) as H.
    cbv zeta in H. destruct H as (H & _); [discriminate | reflexivity|].
    cbv zeta. rewrite H. vm_compute. reflexivity.
  - pose proof (cancel_renumbers (mkEnv 0 defaultAdmins) tuesday_10_15 tuesday_10_15
                  tuesday_10_15 "ana@x.com" "beto@x.com"
                  (mkStore [sampleOld; sampleAna; sampleBeto; sampleCaro] 8)
                  eq_refl) as H.
    cbv zeta in H. destruct H as (H & _); [discriminate | reflexivity|].
    cbv zeta. rewrite H. vm_compute. reflexivity.
Defined.

(** ** Statistics *)

Lemma aggregateStats_row (stats : Stats) (pedido : Row) :
  forEach (fun stats plato (_ : nat) =>
      if isDish plato then
        let key := default EmptyString plato in
        mkStats (totalOrders stats)
          (assign (menuStats stats) key (plusOne (menuStats stats) key))
          (peopleList stats)
      else stats)
    [plato1 pedido; plato2 pedido; plato3 pedido] stats
  = mkStats (totalOrders stats)
      (fold_left tally (countedDishes [pedido]) (menuStats stats))
      (peopleList stats).
Proof.
  unfold forEach, countedDishes. cbn [forEachFrom flat_map List.filter].
  rewrite app_nil_r. destruct stats as [n m p].
  destruct (isDish (plato1 pedido)), (isDish (plato2 pedido)), (isDish (plato3 pedido));
    reflexivity.
Qed.

Lemma aggregateStats_from (i : nat) (pedidos : list Row) (stats : Stats) :
  forEachFrom (fun stats (pedido : Row) (_ : nat) =>
      let stats :=
        mkStats (totalOrders stats) (menuStats stats)
          (peopleList stats ++
             [mkPerson (nombre pedido) (usuario pedido) (timestamp pedido)
                (plato1 pedido) (plato2 pedido) (plato3 pedido)]) in
      forEach (fun stats plato (_ : nat) =>
          if isDish plato then
            let key := default EmptyString plato in
            mkStats (totalOrders stats)
              (assign (menuStats stats) key (plusOne (menuStats stats) key))
              (peopleList stats)
          else stats)
        [plato1 pedido; plato2 pedido; plato3 pedido] stats)
    i pedidos stats
  = mkStats (totalOrders stats)
      (fold_left tally (countedDishes pedidos) (menuStats stats))
      (peopleList stats ++ map personOf pedidos).
Proof.
  revert i stats. induction pedidos as [|r pedidos IH]; intros i stats.
  - cbn. rewrite app_nil_r. destruct stats; reflexivity.
  - cbn [forEachFrom]. cbv zeta. rewrite aggregateStats_row, IH.
    cbn [totalOrders menuStats peopleList map].
    replace (countedDishes (r :: pedidos))
      with (countedDishes [r] ++ countedDishes pedidos)
      by (unfold countedDishes; cbn [flat_map]; rewrite app_nil_r; reflexivity).
    rewrite fold_left_app, <- app_assoc. reflexivity.
Qed.

Lemma aggregateStats_eq (pedidos : list Row) :
  aggregateStats pedidos
  = mkStats (length pedidos) (fold_left tally (countedDishes pedidos) ∅)
      (map personOf pedidos).
Proof. unfold aggregateStats, forEach. apply aggregateStats_from. Qed.

Lemma ones_succ (n : nat) : (ones n +:+ "1") = ones (S n).
Proof.
  induction n as [|n IH]; [reflexivity|].
  change (String "1" (ones n +:+ "1") = String "1" (ones (S n))).
  rewrite IH. reflexivity.
Qed.

Lemma append_ones_succ (text : string) (n : nat) :
  ((text +:+ ones n) +:+ "1") = (text +:+ ones (S n)).
Proof.
  induction text as [|a text IH].
  - apply ones_succ.
  - change (String a ((text +:+ ones n) +:+ "1") = String a (text +:+ ones (S n))).
    rewrite IH. reflexivity.
Qed.

Lemma append_ones_nonempty (text : string) (n : nat) :
  String.eqb (text +:+ ones (S n)) EmptyString = false.
Proof. destruct text; reflexivity. Qed.

Lemma tally_other (m : gmap string JSValue) (x key : string) :
  x <> key -> tally m x !! key = m !! key.
Proof.
  intros H. unfold tally, assign.
  destruct (String.eqb x "__proto__"); [reflexivity|].
  apply lookup_insert_ne. exact H.
Qed.

Lemma tally_same (m : gmap string JSValue) (key : string) (n : nat) :
  m !! key = counted key n -> tally m key !! key = counted key (S n).
Proof.
  intros H. unfold tally, assign, counted in *. cbn [Nat.eqb].
  destruct (String.eqb key "__proto__") eqn:Ep.
  - apply String.eqb_eq in Ep. subst key. rewrite H.
    destruct (n =? 0)%nat; reflexivity.
  - rewrite lookup_insert, decide_True by reflexivity. f_equal.
    unfold plusOne. rewrite H.
    destruct n as [|n]; cbn [Nat.eqb].
    + destruct (inherited key); reflexivity.
    + destruct (inherited key) as [text|].
      * rewrite append_ones_nonempty, append_ones_succ. reflexivity.
      * rewrite Nat.add_1_r. reflexivity.
Qed.

Lemma tally_lookup (l : list string) (m : gmap string JSValue) (key : string) (n : nat) :
  m !! key = counted key n ->
  fold_left tally l m !! key = counted key (n + occurrences key l).
Proof.
  revert m n. induction l as [|x l IH]; intros m n H.
  - cbn [fold_left]. unfold occurrences. cbn [List.filter length].
    rewrite Nat.add_0_r. exact H.
  - cbn [fold_left]. unfold occurrences. cbn [List.filter].
    destruct (String.eqb key x) eqn:E.
    + apply String.eqb_eq in E. subst x. cbn [length].
      rewrite Nat.add_succ_r, <- Nat.add_succ_l.
      apply IH, tally_same, H.
    + apply String.eqb_neq in E. apply IH.
      rewrite tally_other by congruence. exact H.
Qed.

(** X17.  The statistics of a cycle, when the query succeeds:
    [totalOrders] is the number of records of the cycle, [peopleList] has
    one entry per record, in ascending order of timestamp, with the name,
    the user, the timestamp and the three dishes as stored. *)
Theorem getStats_people (env : Env) (now : Z) (st : Store) :
  let pedidos :=
    Supabase.orderByTimestamp (cycleRows st (getCycleDate env (getArgTime env now))) in
  exists stats,
    getStats env now None st = mkResponse 200 (StatsReady stats)
    /\ totalOrders stats = length (cycleRows st (getCycleDate env (getArgTime env now)))
    /\ peopleList stats = map personOf pedidos
    /\ length (peopleList stats) = totalOrders stats
    /\ Sorted tsLe pedidos.
Proof.
  cbv zeta. eexists. split; [reflexivity|].
  fold (cycleRows st (getCycleDate env (getArgTime env now))).
  rewrite aggregateStats_eq. cbn [totalOrders peopleList].
  assert (Hlen : length (Supabase.orderByTimestamp
                           (cycleRows st (getCycleDate env (getArgTime env now))))
                 = length (cycleRows st (getCycleDate env (getArgTime env now))))
    by (apply Permutation_length, orderByTimestamp_perm).
  split; [exact Hlen|]. split; [reflexivity|]. split; [apply length_map|].
  apply orderByTimestamp_sorted.
Qed.

(** X18.  The counts of the statistics.  [menuStats] is a plain object
    and the text of a dish is used as its key, as stored, not trimmed.
    Under a text that names no member of [Object.prototype] it holds the
    number of slots, not blank, of the records of the cycle with that
    text, and no key when there is none.  A dish named like a member is
    not counted: [__proto__] never becomes a key, and any other member's
    name holds a string, the text of the member followed by one digit 1
    for each such slot. *)
Theorem getStats_menu (env : Env) (now : Z) (st : Store) (key : string) :
  let pedidos :=
    Supabase.orderByTimestamp (cycleRows st (getCycleDate env (getArgTime env now))) in
  let n := occurrences key (countedDishes pedidos) in
  exists stats,
    getStats env now None st = mkResponse 200 (StatsReady stats)
    /\ menuStats stats !! key
       = if (n =? 0)%nat then None
         else
           match inherited key with
           | None => Some (Num n)
           | Some text =>
               if String.eqb key "__proto__" then None
               else Some (Str (text +:+ ones n))
           end.
Proof.
  cbv zeta. eexists. split; [reflexivity|].
  fold (cycleRows st (getCycleDate env (getArgTime env now))).
  rewrite aggregateStats_eq. cbn [menuStats].
  rewrite (tally_lookup _ ∅ key 0) by apply lookup_empty.
  reflexivity.
Qed.

Example getStats_menu_example :
  let env := mkEnv 0 defaultAdmins in
  let st := mkStore [sampleOld; sampleAna; sampleBeto; sampleCaro;
                     mkRow 5 (mkOrderData "Dani" "dani@x.com" "dani"
                                (Some "Tarta - pollo") (Some "Tarta - pollo ") None
                                "2024-01-16" "2024-01-15T14:08:00.000Z");
                     mkRow 6 (mkOrderData "Eva" "eva@x.com" "eva"
                                (Some "constructor") (Some "__proto__")
                                (Some "constructor")
                                "2024-01-16" "2024-01-15T14:09:00.000Z")] 8 in
  exists stats,
    getStats env tuesday_10_15 None st = mkResponse 200 (StatsReady stats)
    /\ totalOrders stats = 5%nat
    /\ menuStats stats !! "Tarta - pollo" = Some (Num 2)
    /\ menuStats stats !! "Tarta - pollo " = Some (Num 1)
    /\ menuStats stats !! "Pastel de papa" = Some (Num 1)
    /\ menuStats stats !! "  " = None
    /\ menuStats stats !! "constructor"
       = Some (Str "function Object() { [native code] }11")
    /\ menuStats stats !! "__proto__" = None.
Proof. eexists. split; [reflexivity|]. vm_compute. repeat split. Qed.

(** ** The current order *)

(** X19.  The current order of an identity.  With a lookup that works, the
    route answers the record when the identity has exactly one in the
    cycle, with numbers that are empty when the numbering query fails, and
    answers [order: null] when it has none or several.  A failed lookup is
    answered 500, except a failure with code PGRST116, which is taken for
    an absent order. *)
Theorem getCurrent_cases (env : Env) (nowCycle nowNumbers : Z)
    (faultQuery : option StoreError) (userEmail : string) (st : Store) :
  let cycleDate := getCycleDate env (getArgTime env nowCycle) in
  (forall r : Row,
      recordsOf st userEmail cycleDate = [r] ->
      getCurrent env nowCycle nowNumbers None faultQuery userEmail st
      = mkResponse 200
          (CurrentOrder
             (Some (mkOrderView (nombre r) (plato1 r) (plato2 r) (plato3 r)
                      match faultQuery with
                      | Some _ => []
                      | None => calculateDishNumbers env nowNumbers None st userEmail
                      end))))
  /\ (length (recordsOf st userEmail cycleDate) <> 1%nat ->
      getCurrent env nowCycle nowNumbers None faultQuery userEmail st
      = mkResponse 200 (CurrentOrder None))
  /\ (forall e : StoreError,
        getCurrent env nowCycle nowNumbers (Some e) faultQuery userEmail st
        = if String.eqb (code e) "PGRST116" then mkResponse 200 (CurrentOrder None)
          else mkResponse 500 (Failed ("Error al obtener pedido: " +:+ errorMessage e))).
Proof.
  cbv zeta. split; [|split].
  - intros r Hr. unfold getCurrent, Supabase.selectSingle.
    fold (recordsOf st userEmail (getCycleDate env (getArgTime env nowCycle))).
    rewrite Hr. cbn [error data]. destruct faultQuery; reflexivity.
  - apply getCurrent_none.
  - intros e. unfold getCurrent. cbn [Supabase.selectSingle Supabase.failed error data].
    destruct (String.eqb (code e) "PGRST116"); reflexivity.
Qed.

Lemma getCurrent_cases_witness :
  let env := mkEnv 0 defaultAdmins in
  getCurrent env tuesday_10_15 tuesday_10_15 None None "beto@x.com"
    (mkStore [sampleOld; sampleAna; sampleBeto; sampleBeto] 8)
  = mkResponse 200 (CurrentOrder None).
Proof.
  pose proof (getCurrent_cases (mkEnv 0 defaultAdmins) tuesday_10_15 tuesday_10_15
                None "beto@x.com"
                (mkStore [sampleOld; sampleAna; sampleBeto; sampleBeto] 8)) as H.
  cbv zeta in H. destruct H as (_ & H & _). apply H. vm_compute. discriminate.
Defined.

(** ** Authentication *)

Lemma stripPrefix_append (pat s : string) : stripPrefix pat (pat +:+ s) = Some s.
Proof.
  induction pat as [|a pat IH]; [reflexivity|].
  change (String a pat +:+ s) with (String a (pat +:+ s)).
  cbn [stripPrefix]. rewrite Ascii.eqb_refl. exact IH.
Qed.

Lemma replaceFirst_prefix (pat rep s : string) :
  replaceFirst pat rep (pat +:+ s) = rep +:+ s.
Proof.
  destruct (pat +:+ s) eqn:E; cbn [replaceFirst]; rewrite <- E, stripPrefix_append;
    reflexivity.
Qed.

Lemma replaceFirst_absent (pat rep s : string) :
  occursIn pat s = false -> replaceFirst pat rep s = s.
Proof.
  induction s as [|c s IH]; cbn [occursIn replaceFirst].
  - destruct (stripPrefix pat EmptyString); [discriminate | reflexivity].
  - destruct (stripPrefix pat (String c s)); [discriminate|].
    intros H. rewrite IH by exact H. reflexivity.
Qed.

(** X20.  The token of a request.  The header [Bearer t] carries the
    token [t]; a header in which [Bearer ] does not occur is taken whole
    as the token.  Without a header, with an empty one or with [Bearer ]
    alone, the request is answered 401 whatever the authentication service
    would say. *)
Theorem bearer_token (getUser : string -> AuthOutcome) (t : string) :
  bearerToken (Some ("Bearer " +:+ t)) = Some t
  /\ (occursIn "Bearer " t = false -> bearerToken (Some t) = Some t)
  /\ (forall authorization : option string,
        authorization = None \/ authorization = Some EmptyString
        \/ authorization = Some "Bearer " ->
        verifyAuth getUser authorization
        = Stop (mkResponse 401 (Failed "Token requerido"))).
Proof.
  split; [|split].
  - unfold bearerToken. cbn [option_map]. rewrite replaceFirst_prefix. reflexivity.
  - intros H. unfold bearerToken. cbn [option_map].
    rewrite replaceFirst_absent by exact H. reflexivity.
  - intros authorization [-> | [-> | ->]]; reflexivity.
Qed.

Lemma bearer_token_witness :
  bearerToken (Some "eyJhbGciOi.J9") = Some "eyJhbGciOi.J9".
Proof.
  apply (bearer_token (fun _ => Rejected) "eyJhbGciOi.J9"). reflexivity.
Defined.

(** X21.  The middleware lets a request through exactly when it carries a
    token that is not empty and the authentication service answers with a
    user and no error for that token; the request then runs as that user.
    Every other request is answered 401 with [success: false]. *)
Theorem verifyAuth_next (getUser : string -> AuthOutcome) (authorization : option string) :
  (forall u : string,
      verifyAuth getUser authorization = Next u
      <-> exists t, bearerToken authorization = Some t /\ t <> EmptyString
                    /\ getUser t = Resolved (Some u) None)
  /\ ((forall u, verifyAuth getUser authorization <> Next u) ->
      exists message,
        verifyAuth getUser authorization = Stop (mkResponse 401 (Failed message))).
Proof.
  unfold verifyAuth. destruct (bearerToken authorization) as [t|] eqn:Et;
    cbn [truthy from_option Datatypes.id negb].
  - destruct (String.eqb t EmptyString) eqn:E; cbn [negb].
    + apply String.eqb_eq in E. split.
      * intros u. split; [discriminate|]. intros (t' & [= <-] & Hne & _). contradiction.
      * intros _. eexists. reflexivity.
    + apply String.eqb_neq in E.
      destruct (getUser t) as [[u'|] [e|] |] eqn:Eg.
      * split; [|intros _; eexists; reflexivity].
        intros u. split; [discriminate|]. intros (t' & [= <-] & _ & Hg). congruence.
      * split.
        -- intros u. split.
           ++ intros [= ->]. exists t. repeat split; assumption.
           ++ intros (t' & [= <-] & _ & Hg). congruence.
        -- intros H. exfalso. apply (H u'). reflexivity.
      * split; [|intros _; eexists; reflexivity].
        intros u. split; [discriminate|]. intros (t' & [= <-] & _ & Hg). congruence.
      * split; [|intros _; eexists; reflexivity].
        intros u. split; [discriminate|]. intros (t' & [= <-] & _ & Hg). congruence.
      * split; [|intros _; eexists; reflexivity].
        intros u. split; [discriminate|]. intros (t' & [= <-] & _ & Hg). congruence.
  - split; [|intros _; eexists; reflexivity].
    intros u. split; [discriminate|]. intros (t' & Ht & _). discriminate Ht.
Qed.

(** A service that knows one token. *)
Lemma verifyAuth_next_witness :
  let getUser := fun t : string =>
    if String.eqb t "secreto" then Resolved (Some "ana@x.com") None
    else Resolved None (Some (mkStoreError "bad_jwt" "invalid JWT")) in
  verifyAuth getUser (Some "Bearer secreto") = Next "ana@x.com"
  /\ exists message,
       verifyAuth getUser (Some "Bearer otro") = Stop (mkResponse 401 (Failed message)).
Proof.
  split.
  - apply (verifyAuth_next _ (Some "Bearer secreto")).
    exists "secreto". repeat split. discriminate.
  - apply (verifyAuth_next _ (Some "Bearer otro")). intros u. discriminate.
Defined.

(** ** The administrators *)

Lemma split_lacks (sep : ascii) (s : string) :
  lacks sep s = true -> split sep s = [s].
Proof.
  induction s as [|c s IH]; [reflexivity|]. cbn [lacks split].
  intros H. apply andb_true_iff in H as [Hc Hs]. apply negb_true_iff in Hc.
  rewrite Hc, IH by exact Hs. reflexivity.
Qed.

Lemma split_append (sep : ascii) (s1 s2 : string) :
  lacks sep s1 = true -> split sep (s1 +:+ String sep s2) = s1 :: split sep s2.
Proof.
  induction s1 as [|c s1 IH]; intros H.
  - change (EmptyString +:+ String sep s2) with (String sep s2).
    cbn [split]. rewrite Ascii.eqb_refl. reflexivity.
  - cbn [lacks] in H. apply andb_true_iff in H as [Hc Hs]. apply negb_true_iff in Hc.
    change (String c s1 +:+ String sep s2) with (String c (s1 +:+ String sep s2)).
    cbn [split]. rewrite Hc, IH by exact Hs. reflexivity.
Qed.

Lemma split_join (sep : ascii) (l : list string) :
  l <> [] -> Forall (fun s => lacks sep s = true) l ->
  split sep (join (String sep EmptyString) l) = l.
Proof.
  intros Hne H. induction H as [|s l Hs Hl IH]; [contradiction|].
  destruct l as [|s' l].
  - cbn [join String.concat]. apply split_lacks, Hs.
  - change (join (String sep EmptyString) (s :: s' :: l))
      with (s +:+ String sep (join (String sep EmptyString) (s' :: l))).
    rewrite split_append by exact Hs. f_equal. apply IH. discriminate.
Qed.

(** X22.  The administrators from the environment.  Unset or empty, the
    variable gives the built-in list.  Otherwise its entries, separated by
    commas, are the administrators, white space around each entry
    dropped: every one of them is let in at any time. *)
Theorem configuredAdmins_entries (entries : list string) (offset now : Z) :
  entries <> [] ->
  Forall (fun s => lacks "," s = true) entries ->
  join "," entries <> EmptyString ->
  configuredAdmins (Some (join "," entries)) = map trim entries
  /\ (forall s, In s entries ->
        checkTimeRestriction
          (mkEnv offset (configuredAdmins (Some (join "," entries)))) now (trim s)
        = {| allowed := true; isAdmin := true |})
  /\ configuredAdmins None = defaultAdmins
  /\ configuredAdmins (Some EmptyString) = defaultAdmins.
Proof.
  intros Hne Hl Hj.
  assert (E : configuredAdmins (Some (join "," entries)) = map trim entries).
  { unfold configuredAdmins. apply String.eqb_neq in Hj. rewrite Hj.
    rewrite (split_join "," entries Hne Hl). reflexivity. }
  split; [exact E|]. split; [|split; reflexivity].
  intros s Hs. unfold checkTimeRestriction. cbn [ADMIN_EMAILS]. rewrite E.
  replace (includes (map trim entries) (trim s)) with true; [reflexivity|].
  symmetry. apply includes_In, in_map, Hs.
Qed.

Lemma configuredAdmins_entries_witness :
  configuredAdmins (Some "ana@x.com , beto@x.com") = ["ana@x.com"; "beto@x.com"].
Proof.
  apply (configuredAdmins_entries ["ana@x.com "; " beto@x.com"] 0 saturday_15_00).
  - discriminate.
  - repeat constructor.
  - discriminate.
Defined.

(** ** The back of the queue *)

Lemma cycleRows_written_others (env : Env) (io : SubmitIO) (userEmail : string)
    (req : PedidoBody) (st : Store) :
  wellKeyed st ->
  List.filter (fun r => negb (Supabase.hasEmail userEmail r))
    (cycleRows (fst (written env io userEmail req st)) (cycleOf env io))
  = List.filter (fun r => negb (Supabase.hasEmail userEmail r))
      (cycleRows st (cycleOf env io)).
Proof.
  intros Hwk. unfold written, cycleRows.
  destruct (data (Supabase.selectSingle _ _ _ _)) as [existing|] eqn:E; cbn [fst rows].
  - apply selectSingle_records in E.
    assert (Hin : In existing (recordsOf st userEmail (cycleOf env io)))
      by (rewrite E; left; reflexivity).
    apply recordsOf_In in Hin as (Hin & He & Hf).
    rewrite (filter_map_pointwise (Supabase.hasFecha (cycleOf env io))).
    + rewrite filter_map_dropped; [reflexivity|]. intros r Hr.
      apply filter_In in Hr as [Hr _].
      unfold Supabase.replaceAt, Supabase.hasId.
      destruct (id r =? id existing) eqn:Ei; [|left; reflexivity].
      right. apply Z.eqb_eq in Ei.
      assert (r = existing) by (eapply keys_determine; try eassumption; apply Hwk).
      subst r. unfold Supabase.hasEmail. cbn [columns writtenData email].
      rewrite He, String.eqb_refl. split; reflexivity.
    + intros r Hr. unfold Supabase.replaceAt, Supabase.hasId.
      destruct (id r =? id existing) eqn:Ei; [|reflexivity].
      apply Z.eqb_eq in Ei.
      assert (r = existing) by (eapply keys_determine; try eassumption; apply Hwk).
      subst r. unfold Supabase.hasFecha. cbn [columns writtenData fecha].
      rewrite Hf, String.eqb_refl. reflexivity.
  - rewrite !List.filter_app. cbn [List.filter].
    unfold Supabase.hasFecha at 2. cbn [columns writtenData fecha].
    rewrite String.eqb_refl. cbn [List.filter].
    unfold Supabase.hasEmail at 2. cbn [columns writtenData email].
    rewrite String.eqb_refl. cbn [negb]. apply app_nil_r.
Qed.

Lemma StronglySorted_suffix {A : Type} (R : A -> A -> Prop) (l1 l2 : list A) :
  StronglySorted R (l1 ++ l2) -> StronglySorted R l2.
Proof.
  induction l1 as [|x l1 IH]; [intros H; exact H|].
  intros H. apply StronglySorted_inv in H as [H _]. apply IH, H.
Qed.

Lemma filter_all {A : Type} (P : A -> bool) (l : list A) :
  Forall (fun x => P x = true) l -> List.filter P l = l.
Proof.
  intros H. induction H as [|x l Hx _ IH]; [reflexivity|].
  cbn [List.filter]. rewrite Hx, IH. reflexivity.
Qed.

Lemma collectDishes_length_perm (l l' : list Row) :
  Permutation l l' -> length (collectDishes l) = length (collectDishes l').
Proof.
  intros H. rewrite !collectDishes_flat_map.
  apply Permutation_length, Permutation_flat_map, H.
Qed.

(** X23.  A submission stamped after everybody else goes to the back of
    the queue.  On a table with distinct keys and at most one record of the
    identity in the cycle, when an accepted submission, first or repeated,
    is stamped later than every record of the others in the cycle, it is
    told the last numbers: those that follow all the dishes of the others. *)
Theorem submission_goes_last (env : Env) (io : SubmitIO) (userEmail : string)
    (req : PedidoBody) (cycleDate : string) (st : Store) :
  wellKeyed st ->
  (length (recordsOf st userEmail cycleDate) <= 1)%nat ->
  goesThrough env io userEmail req ->
  inCycle env io cycleDate ->
  (forall r : Row, In r (cycleRows st cycleDate) -> email r <> userEmail ->
     String.ltb (timestamp r) (stampOf env io) = true) ->
  let others :=
    List.filter (fun r => negb (Supabase.hasEmail userEmail r)) (cycleRows st cycleDate) in
  let action := snd (written env io userEmail req st) in
  let dishNumbers := seq (length (collectDishes others) + 1) (dishCount req) in
  fst (postPedido env io userEmail req st)
  = mkResponse 200
      (OrderSaved (savedMessage action dishNumbers) action dishNumbers (dishCount req)).
Proof.
  intros Hwk Hlen (Ha & Hv & Hl & Hw & Hq) (Hc & Hn) Hlate. cbv zeta.
  rewrite (postPedido_accepted env io userEmail req st Ha Hv Hw). cbv zeta.
  rewrite <- Hc in Hlen.
  destruct (written_records env io userEmail req st Hwk Hl Hlen) as (_ & k & Hr).
  pose proof (cycleRows_written_others env io userEmail req st Hwk) as Hothers.
  set (st' := fst (written env io userEmail req st)) in *.
  set (r := mkRow k (writtenData env io userEmail req)) in *.
  rewrite Hq, (numbers_in_cycle env _ st' userEmail cycleDate Hn).
  rewrite Hc in Hr, Hothers.
  set (L := Supabase.orderByTimestamp (cycleRows st' cycleDate)).
  assert (HLperm : Permutation L (cycleRows st' cycleDate))
    by apply orderByTimestamp_perm.
  assert (Hf : List.filter (Supabase.hasEmail userEmail) L = [r]).
  { apply Permutation_length_1_inv. rewrite <- Hr, recordsOf_cycleRows.
    apply Permutation_filter_bool. symmetry. exact HLperm. }
  assert (HLs : StronglySorted tsLe L).
  { apply Sorted_StronglySorted; [intros a b c; apply tsLe_trans|].
    apply orderByTimestamp_sorted. }
  destruct (filter_single_split _ _ _ Hf) as (before & after & HL & Hb & Ha').
  assert (Hafter : after = []).
  { destruct after as [|x after]; [reflexivity|]. exfalso.
    apply Forall_inv in Ha'. rewrite HL in HLs.
    apply StronglySorted_suffix in HLs.
    apply StronglySorted_inv in HLs as [_ HLs]. apply Forall_inv in HLs.
    assert (Hx : In x (List.filter (fun r => negb (Supabase.hasEmail userEmail r))
                         (cycleRows st' cycleDate))).
    { apply filter_In. split; [|rewrite Ha'; reflexivity].
      eapply Permutation_in; [exact HLperm|]. rewrite HL.
      apply in_or_app. right. right. left. reflexivity. }
    rewrite Hothers in Hx. apply filter_In in Hx as [Hx _].
    assert (Hne : email x <> userEmail) by (apply String.eqb_neq; exact Ha').
    specialize (Hlate x Hx Hne). apply ltb_not_leb in Hlate.
    unfold tsLe in HLs. unfold r in HLs. rewrite timestamp_written in HLs. congruence. }
  subst after.
  assert (Hne : Forall (fun x : Row => email x <> email r) before).
  { eapply List.Forall_impl; [|exact Hb]. cbn. intros x Hx.
    apply String.eqb_neq. exact Hx. }
  assert (HN : rowNumbers 0 L userEmail
               = seq (length (collectDishes before) + 1) (dishCount req)).
  { rewrite HL. change userEmail with (email r).
    rewrite (rowNumbers_single before [] r Hne (List.Forall_nil _)).
    rewrite collectDishes_flat_map. unfold r. rewrite dishesOfRow_written. reflexivity. }
  assert (Hbefore : Permutation before
                      (List.filter (fun r => negb (Supabase.hasEmail userEmail r))
                         (cycleRows st cycleDate))).
  { rewrite <- Hothers.
    transitivity (List.filter (fun r => negb (Supabase.hasEmail userEmail r)) L);
      [|apply Permutation_filter_bool, HLperm].
    rewrite HL, List.filter_app. cbn [List.filter].
    replace (Supabase.hasEmail userEmail r) with true
      by (symmetry; apply String.eqb_refl).
    cbn [negb]. rewrite app_nil_r, filter_all; [reflexivity|].
    eapply List.Forall_impl; [|exact Hb]. cbn. intros x ->. reflexivity. }
  rewrite HN, (collectDishes_length_perm _ _ Hbefore), length_seq. reflexivity.
Qed.

(** Ana, first of three, edits her order on Tuesday morning. *)
Lemma submission_goes_last_witness :
  let env := mkEnv 0 defaultAdmins in
  let req := mkPedidoBody (Some "Ana") (Some "Tarta - pollo") None None in
  fst (postPedido env (smoothAt tuesday_10_15) "ana@x.com" req
         (mkStore [sampleOld; sampleAna; sampleBeto; sampleCaro] 8))
  = mkResponse 200
      (OrderSaved "Pedido actualizado correctamente. Tu plato es el número 5"
         updated [5]%nat 1).
Proof.
  pose proof (submission_goes_last (mkEnv 0 defaultAdmins) (smoothAt tuesday_10_15)
                "ana@x.com" (mkPedidoBody (Some "Ana") (Some "Tarta - pollo") None None)
                "2024-01-16" (mkStore [sampleOld; sampleAna; sampleBeto; sampleCaro] 8))
    as H.
  cbv zeta in H. cbv zeta. rewrite H.
  - vm_compute. reflexivity.
  - split; cbn [rows nextId map].
    + repeat constructor; cbn; intuition discriminate.
    + repeat constructor.
  - vm_compute. lia.
  - split; [reflexivity|]. split; [|repeat split].
    split; [exists "Ana" | exists "Tarta - pollo"]; (split; [reflexivity | discriminate]).
  - split; vm_compute; reflexivity.
  - intros r Hr Hne.
    assert (Hc : cycleRows (mkStore [sampleOld; sampleAna; sampleBeto; sampleCaro] 8)
                   "2024-01-16" = [sampleAna; sampleBeto; sampleCaro])
      by (vm_compute; reflexivity).
    rewrite Hc in Hr. destruct Hr as [<- | [<- | [<- | []]]].
    + exfalso. apply Hne. reflexivity.
    + vm_compute. reflexivity.
    + vm_compute. reflexivity.
Defined.

(** ** The earlier version of the server *)

(** X24.  The window was widened, not moved: with the earlier
    administrator still an administrator, whoever the earlier version let
    in at an instant is let in by the current version at that instant. *)
Theorem earlier_window_kept (env : Env) (now : Z) (userEmail : string) :
  In Earlier.adminEmail (ADMIN_EMAILS env) ->
  allowed (Earlier.checkTimeRestriction env now userEmail) = true ->
  allowed (checkTimeRestriction env now userEmail) = true.
Proof.
  intros Hadm. unfold Earlier.checkTimeRestriction, checkTimeRestriction.
  destruct (String.eqb userEmail Earlier.adminEmail) eqn:E.
  - apply String.eqb_eq in E. subst userEmail.
    apply includes_In in Hadm. rewrite Hadm. reflexivity.
  - destruct (includes (ADMIN_EMAILS env) userEmail); [reflexivity|].
    cbn [allowed]. intros H.
    apply andb_true_iff in H as [Hw Hr]. rewrite Hw. cbn [andb].
    set (hour := getHours env (getArgTime env now)) in *.
    set (minute := getMinutes env (getArgTime env now)) in *.
    apply orb_true_iff in Hr as [Hr | Hr].
    + assert (Hlt : (hour <? 10) = true).
      { apply Z.ltb_lt. rewrite !orb_true_iff, !Z.eqb_eq in Hr. lia. }
      rewrite Hlt, orb_true_r. reflexivity.
    + rewrite Hr. apply orb_true_r.
Qed.

Lemma earlier_window_kept_witness :
  allowed (checkTimeRestriction (mkEnv 0 defaultAdmins) tuesday_10_15 "ana@x.com") = true.
Proof.
  apply (earlier_window_kept (mkEnv 0 defaultAdmins) tuesday_10_15 "ana@x.com").
  - simpl. tauto.
  - reflexivity.
Defined.

(** X25.  Before 14:00 the two versions file an order under the same
    date: on a process in UTC, when the hour in Buenos Aires is below 14,
    the date of the earlier version is the cycle of the current one. *)
Theorem earlier_cycle_same (env : Env) (now : Z) :
  procOffset env = 0 ->
  HourFromTime (now + buenosAiresOffsetAt now) < 14 ->
  Earlier.today now = getCycleDate env (getArgTime env now).
Proof.
  intros H0 Hh. unfold Earlier.today.
  rewrite toISOString_date, getCycleDate_unfold, getHours_getArgTime.
  assert (E : (14 <=? HourFromTime (now + buenosAiresOffsetAt now)) = false)
    by (apply Z.leb_gt; exact Hh).
  rewrite E. f_equal. f_equal.
  unfold getArgTime, UTC. rewrite H0.
  pose proof (zoneSeconds_range (now / msPerSecond)) as Hr.
  unfold buenosAiresOffsetAt in *.
  generalize dependent (zoneSeconds (now / msPerSecond)). intros offset Hh _ Hr.
  unfold HourFromTime, Day, msPerHour, msPerDay, msPerSecond in *.
  div_lia.
Qed.

Lemma earlier_cycle_same_witness :
  Earlier.today tuesday_10_15
  = getCycleDate (mkEnv 0 defaultAdmins) (getArgTime (mkEnv 0 defaultAdmins) tuesday_10_15).
Proof.
  apply (earlier_cycle_same (mkEnv 0 defaultAdmins) tuesday_10_15).
  - reflexivity.
  - vm_compute. reflexivity.
Defined.
